(** * part-render: the project-aware partial-compilation pipeline

A shallow embedding of [src/core/DependencyResolver.ts] (identifier and
import analysis, module resolution, import suggestion) and of
[SmartCompiler] (import merging, statement generation, preview wrapper,
the [compile] boundary), with the properties the specification states
about them.

Conventions of the embedding
- JavaScript strings are [string]s over ASCII characters.
- A JavaScript [Set<string>] or [Map<string, V>] whose iteration order
  reaches the output is an insertion-ordered list ([JsSet], [JsMap]);
  the two resolver caches, which are only probed by key, are
  [gmap string string].
- The TypeScript parser, TypeScript and Node module resolution, the path
  library, [JSON.stringify] and esbuild are collaborators outside the
  repository: they are the fields of [Host] records or the variables of
  a section.  Their syntax trees are values of [Node].
- [async]/[await] is sequential here: an awaited call is a call. *)

From stdpp Require Import gmap strings.
From Stdlib Require Import String Ascii List Bool Arith Lia.
Import ListNotations.
Local Open Scope string_scope.
Local Open Scope list_scope.

(* ===================================================================== *)
(** * JavaScript strings *)
(* ===================================================================== *)

Module JsString.

(** [s.startsWith(p)] *)
Definition startsWith (s p : string) : bool := String.prefix p s.

(** [s.includes(sub)]: [sub] occurs at some position of [s]. *)
Fixpoint includes (s sub : string) : bool :=
  String.prefix sub s ||
  match s with
  | EmptyString => false
  | String _ s' => includes s' sub
  end.

(** [parts.join(sep)] *)
Definition join (sep : string) (parts : list string) : string :=
  String.concat sep parts.

(** Truthiness of a string value: every string but the empty one. *)
Definition truthy (s : string) : bool :=
  match s with EmptyString => false | _ => true end.

(** [a || b] on an optional string: [a] when it is defined and not
    empty, [b] otherwise. *)
Definition orElse (a : option string) (b : string) : string :=
  match a with
  | Some s => if truthy s then s else b
  | None => b
  end.

(** Truthiness of an optional string ([undefined] and [''] are falsy). *)
Definition truthyOpt (a : option string) : bool :=
  match a with Some s => truthy s | None => false end.

End JsString.

(* ===================================================================== *)
(** * Insertion-ordered sets and maps *)
(* ===================================================================== *)

Module JsSet.

(** A [Set<string>]: the elements in insertion order, without repeats. *)
Definition t := list string.

Definition empty : t := [].

Definition has (s : t) (x : string) : bool := existsb (String.eqb x) s.

(** [s.add(x)]: a new element goes last, a present one changes nothing. *)
Definition add (s : t) (x : string) : t :=
  if has s x then s else s ++ [x].

Definition size (s : t) : nat := length s.

End JsSet.

Module JsMap.

Section WithValue.
Context {V : Type}.

(** A [Map<string, V>]: the entries in insertion order, keys unique. *)
Definition t := list (string * V).

Definition empty : t := [].

Fixpoint get (m : t) (k : string) : option V :=
  match m with
  | [] => None
  | (k', v) :: m' => if String.eqb k k' then Some v else get m' k
  end.

Definition has (m : t) (k : string) : bool :=
  match get m k with Some _ => true | None => false end.

(** [m.set(k, v)]: an existing key keeps its position and takes the new
    value, a new key goes last. *)
Fixpoint set (m : t) (k : string) (v : V) : t :=
  match m with
  | [] => [(k, v)]
  | (k', v') :: m' =>
      if String.eqb k k' then (k', v) :: m' else (k', v') :: set m' k v
  end.

Definition keys (m : t) : list string := map fst m.
Definition values (m : t) : list V := map snd m.

End WithValue.

Arguments t : clear implicits.

End JsMap.

(* ===================================================================== *)
(** * Syntax trees of the TypeScript parser *)
(* ===================================================================== *)

Module Ast.

(** The node kinds the analysis tells apart; every other kind of the
    parser is [OtherKind]. *)
Inductive SyntaxKind : Type :=
| SourceFile | Identifier | StringLiteral
| ExportKeyword | DefaultKeyword
| PropertyAccessExpression
| VariableStatement | VariableDeclarationList | VariableDeclaration
| FunctionDeclaration | ClassDeclaration
| ImportDeclaration | ImportClause | NamespaceImport | NamedImports
| ImportSpecifier
| ExportDeclaration | NamedExports | ExportSpecifier | ExportAssignment
| ObjectBindingPattern | ArrayBindingPattern | BindingElement
| OtherKind.

Definition SyntaxKind_eqb (a b : SyntaxKind) : bool :=
  match a, b with
  | SourceFile, SourceFile | Identifier, Identifier
  | StringLiteral, StringLiteral
  | ExportKeyword, ExportKeyword | DefaultKeyword, DefaultKeyword
  | PropertyAccessExpression, PropertyAccessExpression
  | VariableStatement, VariableStatement
  | VariableDeclarationList, VariableDeclarationList
  | VariableDeclaration, VariableDeclaration
  | FunctionDeclaration, FunctionDeclaration
  | ClassDeclaration, ClassDeclaration
  | ImportDeclaration, ImportDeclaration | ImportClause, ImportClause
  | NamespaceImport, NamespaceImport | NamedImports, NamedImports
  | ImportSpecifier, ImportSpecifier
  | ExportDeclaration, ExportDeclaration | NamedExports, NamedExports
  | ExportSpecifier, ExportSpecifier
  | ExportAssignment, ExportAssignment
  | ObjectBindingPattern, ObjectBindingPattern
  | ArrayBindingPattern, ArrayBindingPattern
  | BindingElement, BindingElement
  | OtherKind, OtherKind => true
  | _, _ => false
  end.

(** The property of the parent under which a child hangs. *)
Inductive Field : Type :=
| f_name | f_propertyName | f_expression | f_modifiers
| f_importClause | f_moduleSpecifier | f_namedBindings | f_elements
| f_exportClause | f_declarationList | f_declarations
| f_other.

Definition Field_eqb (a b : Field) : bool :=
  match a, b with
  | f_name, f_name | f_propertyName, f_propertyName
  | f_expression, f_expression | f_modifiers, f_modifiers
  | f_importClause, f_importClause
  | f_moduleSpecifier, f_moduleSpecifier
  | f_namedBindings, f_namedBindings | f_elements, f_elements
  | f_exportClause, f_exportClause
  | f_declarationList, f_declarationList
  | f_declarations, f_declarations
  | f_other, f_other => true
  | _, _ => false
  end.

(** A node: its kind, its [text] (identifiers and string literals), and
    its children in the order [ts.forEachChild] visits them, each tagged
    with the property it is the value (or an element) of. *)
#[warnings="-register-all"]
Inductive Node : Type :=
| mkNode (k : SyntaxKind) (t : string) (cs : list (Field * Node)).

Definition kind (n : Node) : SyntaxKind := let 'mkNode k _ _ := n in k.
Definition text (n : Node) : string := let 'mkNode _ t _ := n in t.
Definition children (n : Node) : list (Field * Node) :=
  let 'mkNode _ _ cs := n in cs.

(** [node.f] for a property holding one node, [undefined] as [None]. *)
Definition field (f : Field) (n : Node) : option Node :=
  match List.filter (fun c => Field_eqb (fst c) f) (children n) with
  | c :: _ => Some (snd c)
  | [] => None
  end.

(** [node.f] for a property holding a node array. *)
Definition fields (f : Field) (n : Node) : list Node :=
  map snd (List.filter (fun c => Field_eqb (fst c) f) (children n)).

Definition isKind (k : SyntaxKind) (n : Node) : bool :=
  SyntaxKind_eqb (kind n) k.

(** [ts.isPropertyAccessExpression(node.parent)] and its like, on a
    parent that may be absent (the root has none). *)
Definition isOpt (k : SyntaxKind) (n : option Node) : bool :=
  match n with Some p => isKind k p | None => false end.

(** A visitor of the source has the shape
    [const visit = (node) => { step(node); ts.forEachChild(node, visit) }]:
    [walk step] is that function, threading what [step] updates; [parent]
    is [node.parent]. *)
Fixpoint walk {S : Type} (step : option Node -> Node -> S -> S)
    (parent : option Node) (node : Node) (st : S) : S :=
  match node with
  | mkNode _ _ cs =>
      (fix forEachChild (cs : list (Field * Node)) (acc : S) : S :=
         match cs with
         | [] => acc
         | (_, c) :: cs' => forEachChild cs' (walk step (Some node) c acc)
         end) cs (step parent node st)
  end.

(** The nodes a walk visits, in order, each with its parent. *)
Fixpoint preorder (parent : option Node) (node : Node)
  : list (option Node * Node) :=
  match node with
  | mkNode _ _ cs =>
      (parent, node)
      :: (fix below (cs : list (Field * Node)) : list (option Node * Node) :=
            match cs with
            | [] => []
            | (_, c) :: cs' => preorder (Some node) c ++ below cs'
            end) cs
  end.

(** ** Builders for the trees of the examples *)

Definition ident (name : string) : Node := mkNode Identifier name [].
Definition str (s : string) : Node := mkNode StringLiteral s [].
Definition other (cs : list Node) : Node :=
  mkNode OtherKind "" (map (pair f_other) cs).
Definition sourceFile (statements : list Node) : Node :=
  mkNode SourceFile "" (map (pair f_other) statements).
Definition propertyAccess (object : Node) (name : string) : Node :=
  mkNode PropertyAccessExpression ""
    [(f_expression, object); (f_name, ident name)].
Definition functionDecl (modifiers : list SyntaxKind) (name : string)
    (rest : list Node) : Node :=
  mkNode FunctionDeclaration ""
    (map (fun m => (f_modifiers, mkNode m "" [])) modifiers
     ++ [(f_name, ident name)] ++ map (pair f_other) rest).
Definition namedImport (moduleName : string) (names : list string) : Node :=
  mkNode ImportDeclaration ""
    [(f_importClause,
       mkNode ImportClause ""
         [(f_namedBindings,
            mkNode NamedImports ""
              (map (fun x => (f_elements,
                              mkNode ImportSpecifier "" [(f_name, ident x)]))
                   names))]);
     (f_moduleSpecifier, str moduleName)].

End Ast.

(* ===================================================================== *)
(** * Collaborators outside the repository *)
(* ===================================================================== *)

(** What [ts.resolveModuleName] can do: answer with a resolved module,
    answer without one, or throw. *)
Inductive TsResolution : Type :=
| TsResolved (resolvedFileName : string)
| TsUnresolved
| TsThrows.

Inductive ScriptKind : Type := TSX.

(** The TypeScript compiler API, Node's [require.resolve] and [path], as
    the resolver calls them.  [require_resolve m dir] is [None] when
    [require.resolve(m, {paths: [dir]})] throws. *)
Record Host : Type := {
  createSourceFile : string -> string -> option ScriptKind -> Ast.Node;
  ts_resolveModuleName : string -> string -> TsResolution;
  require_resolve : string -> string -> option string;
  path_join : string -> string -> string;
  path_dirname : string -> string;
  path_relative : string -> string -> string
}.

(** A thrown value: an [Error] with its message, or anything else with
    what [String(error)] gives. *)
Inductive Exn : Type :=
| JsError (message : string)
| JsValue (asString : string).

(** A computation that returns or throws. *)
Inductive Result (A : Type) : Type :=
| Ok (a : A)
| Throw (e : Exn).
Arguments Ok {A} a.
Arguments Throw {A} e.

#[global] Instance Result_ret : MRet Result := fun A a => Ok a.

#[global] Instance Result_bind : MBind Result :=
  fun A B (k : A -> Result B) (r : Result A) =>
    match r with
    | Ok a => k a
    | Throw e => Throw e
    end.

(* ===================================================================== *)
(** * [DependencyResolver] *)
(* ===================================================================== *)

Module DependencyResolver.
Import Ast.

(** One bound name of an import.  [isDefault] and [isNamespace] are
    optional in the source and only ever tested for truthiness, so an
    absent flag is [false]. *)
Record ImportSpecifier : Type := {
  name : string;
  alias : option string;
  isDefault : bool;
  isNamespace : bool
}.

Record ImportInfo : Type := {
  module : string;
  specifiers : list ImportSpecifier;
  isRelative : bool;
  resolvedPath : option string
}.

Record DependencyContext : Type := {
  imports : list ImportInfo;
  usedIdentifiers : JsSet.t;
  missingIdentifiers : JsSet.t;
  resolvedModules : gmap string string
}.

(** The fields of a resolver instance; only the cache changes. *)
Record Resolver : Type := {
  projectRoot : string;
  tsProgram : bool;
  moduleResolutionCache : gmap string string
}.

Definition withCache (r : Resolver) (c : gmap string string) : Resolver :=
  {| projectRoot := projectRoot r;
     tsProgram := tsProgram r;
     moduleResolutionCache := c |}.

(** [node.name.text] where the parser's types make [name] an identifier
    that is present. *)
Definition nameText (n : Node) : string :=
  match field f_name n with
  | Some i => text i
  | None => ""
  end.

(** ** [extractImports] *)

Definition defaultSpecifier (clause : Node) : list ImportSpecifier :=
  match field f_name clause with
  | Some n =>
      [ {| name := text n; alias := None;
           isDefault := true; isNamespace := false |} ]
  | None => []
  end.

Definition namedSpecifier (element : Node) : ImportSpecifier :=
  {| name := JsString.orElse (option_map text (field f_propertyName element))
                             (nameText element);
     alias := match field f_propertyName element with
              | Some _ => Some (nameText element)
              | None => None
              end;
     isDefault := false;
     isNamespace := false |}.

Definition bindingSpecifiers (clause : Node) : list ImportSpecifier :=
  match field f_namedBindings clause with
  | Some nb =>
      if isKind NamespaceImport nb then
        [ {| name := nameText nb; alias := None;
             isDefault := false; isNamespace := true |} ]
      else if isKind NamedImports nb then
        map namedSpecifier (fields f_elements nb)
      else []
  | None => []
  end.

(** The [ImportInfo] one visited node pushes, if it pushes one. *)
Definition importOf (node : Node) : option ImportInfo :=
  if isKind ImportDeclaration node then
    match field f_moduleSpecifier node with
    | Some moduleSpecifier =>
        if isKind StringLiteral moduleSpecifier then
          Some {| module := text moduleSpecifier;
                  specifiers :=
                    match field f_importClause node with
                    | Some clause =>
                        defaultSpecifier clause ++ bindingSpecifiers clause
                    | None => []
                    end;
                  isRelative :=
                    JsString.startsWith (text moduleSpecifier) "."
                    || JsString.startsWith (text moduleSpecifier) "/";
                  resolvedPath := None |}
        else None
    | None => None
    end
  else None.

Definition extractImports_visit (node : Node) (imports : list ImportInfo)
  : list ImportInfo :=
  match importOf node with
  | Some info => imports ++ [info]
  | None => imports
  end.

Definition extractImports (sourceFile : Node) : list ImportInfo :=
  walk (fun _ => extractImports_visit) None sourceFile [].

(** ** [extractIdentifiers] *)

(** The name a node declares: a variable declaration whose name is an
    identifier, a named function declaration, a named class declaration. *)
Definition declaredBy (node : Node) : option string :=
  if isKind VariableDeclaration node
     && isOpt Identifier (field f_name node) then
    Some (nameText node)
  else if isKind FunctionDeclaration node
          && match field f_name node with Some _ => true | None => false end
  then Some (nameText node)
  else if isKind ClassDeclaration node
          && match field f_name node with Some _ => true | None => false end
  then Some (nameText node)
  else None.

(** [ts.isIdentifier(node) && !ts.isPropertyAccessExpression(node.parent)] *)
Definition recordedAsUsed (parent : option Node) (node : Node) : bool :=
  isKind Identifier node && negb (isOpt PropertyAccessExpression parent).

(** The two sets the walk fills: [used] and [declared]. *)
Definition Sets : Type := (JsSet.t * JsSet.t)%type.

Definition extractIdentifiers_visit (parent : option Node) (node : Node)
    (st : Sets) : Sets :=
  let '(used, declared) := st in
  let declared1 :=
    match declaredBy node with
    | Some x => JsSet.add declared x
    | None => declared
    end in
  let used1 :=
    if recordedAsUsed parent node then JsSet.add used (text node) else used in
  (used1, declared1).

Definition extractIdentifiers (sourceFile : Node) (used declared : JsSet.t)
  : Sets :=
  walk extractIdentifiers_visit None sourceFile (used, declared).

(** ** [isBuiltinIdentifier] *)

Definition builtins : JsSet.t :=
  [ "console"; "window"; "document"; "process"; "global";
    "Array"; "Object"; "String"; "Number"; "Boolean"; "Date";
    "Promise"; "Map"; "Set"; "Math"; "JSON"; "Error";
    "undefined"; "null"; "true"; "false" ].

Definition isBuiltinIdentifier (id : string) : bool := JsSet.has builtins id.

(** ** [resolveModulePath] *)

Definition cacheKey (moduleName : string) (fromFile : option string) : string :=
  moduleName ++ ":" ++ JsString.orElse fromFile "root".

Definition resolveModulePath (h : Host) (r : Resolver)
    (moduleName : string) (fromFile : option string)
  : option string * Resolver :=
  let key := cacheKey moduleName fromFile in
  match moduleResolutionCache r !! key with
  | Some cached =>
      ((if JsString.truthy cached then Some cached else None), r)
  | None =>
      let nodeFallback :=
        match require_resolve h moduleName
                (match fromFile with
                 | Some f => if JsString.truthy f then path_dirname h f
                             else projectRoot r
                 | None => projectRoot r
                 end) with
        | Some resolved =>
            (Some resolved,
             withCache r (<[key := resolved]> (moduleResolutionCache r)))
        | None => (None, r)
        end in
      if tsProgram r then
        match ts_resolveModuleName h moduleName
                (JsString.orElse fromFile
                   (path_join h (projectRoot r) "index.ts")) with
        | TsResolved resolvedPath =>
            (Some resolvedPath,
             withCache r (<[key := resolvedPath]> (moduleResolutionCache r)))
        | TsUnresolved => nodeFallback
        | TsThrows => (None, r)
        end
      else nodeFallback
  end.

(** ** [analyzeDependencies] *)

Definition missingOf (used declared : JsSet.t) : JsSet.t :=
  fold_left
    (fun missing id =>
       if negb (JsSet.has declared id) && negb (isBuiltinIdentifier id)
       then JsSet.add missing id else missing)
    used JsSet.empty.

(** The loop that resolves the module of every import, in order. *)
Fixpoint resolveImports (h : Host) (filePath : option string)
    (todo : list ImportInfo) (r : Resolver) (resolved : gmap string string)
  : list ImportInfo * gmap string string * Resolver :=
  match todo with
  | [] => ([], resolved, r)
  | imp :: rest =>
      let '(found, r1) := resolveModulePath h r (module imp) filePath in
      let '(imp1, resolved1) :=
        match found with
        | Some p =>
            if JsString.truthy p then
              ({| module := module imp; specifiers := specifiers imp;
                  isRelative := isRelative imp; resolvedPath := Some p |},
               <[module imp := p]> resolved)
            else (imp, resolved)
        | None => (imp, resolved)
        end in
      let '(rest1, resolved2, r2) :=
        resolveImports h filePath rest r1 resolved1 in
      (imp1 :: rest1, resolved2, r2)
  end.

Definition analyzeDependencies (h : Host) (r : Resolver)
    (code : string) (filePath : option string)
  : DependencyContext * Resolver :=
  let sourceFile :=
    createSourceFile h (JsString.orElse filePath "snippet.tsx") code (Some TSX) in
  let imports0 := extractImports sourceFile in
  let '(used, declared) :=
    extractIdentifiers sourceFile JsSet.empty JsSet.empty in
  let missing := missingOf used declared in
  let '(imports1, resolved, r1) := resolveImports h filePath imports0 r ∅ in
  ({| imports := imports1;
      usedIdentifiers := used;
      missingIdentifiers := missing;
      resolvedModules := resolved |}, r1).

(** ** [extractExportsFromFile] *)

Definition hasModifier (k : SyntaxKind) (node : Node) : bool :=
  existsb (isKind k) (fields f_modifiers node).

Definition hasName (node : Node) : bool :=
  match field f_name node with Some _ => true | None => false end.

(** The names of the declarations of a variable statement whose name is
    an identifier. *)
Definition declaredVariables (statement : Node) : list string :=
  match field f_declarationList statement with
  | Some declarationList =>
      map nameText
        (List.filter (fun decl => isOpt Identifier (field f_name decl))
                     (fields f_declarations declarationList))
  | None => []
  end.

Definition setAll (kindOfExport : string) (names : list string)
    (exports : JsMap.t string) : JsMap.t string :=
  fold_left (fun m x => JsMap.set m x kindOfExport) names exports.

(** What one visited node adds to the export table. *)
Definition extractExports_visit (node : Node) (exports : JsMap.t string)
  : JsMap.t string :=
  if isKind ExportDeclaration node
     && isOpt NamedExports (field f_exportClause node) then
    match field f_exportClause node with
    | Some clause => setAll "named" (map nameText (fields f_elements clause)) exports
    | None => exports
    end
  else if hasModifier ExportKeyword node then
    if isKind FunctionDeclaration node && hasName node then
      JsMap.set exports (nameText node) "named"
    else if isKind ClassDeclaration node && hasName node then
      JsMap.set exports (nameText node) "named"
    else if isKind VariableStatement node then
      setAll "named" (declaredVariables node) exports
    else exports
  else if hasModifier DefaultKeyword node then
    if isKind FunctionDeclaration node && hasName node then
      JsMap.set exports (nameText node) "default"
    else if isKind ClassDeclaration node && hasName node then
      JsMap.set exports (nameText node) "default"
    else exports
  else exports.

Definition extractExportsFromFile (h : Host) (content : string)
  : JsMap.t string :=
  walk (fun _ => extractExports_visit) None
       (createSourceFile h "temp.ts" content None) JsMap.empty.

(** ** [getCommonPackagesForIdentifier] *)

Record CommonPackage : Type := {
  pkg_module : string;
  pkg_isDefault : bool
}.

Definition commonMappings : JsMap.t (list CommonPackage) :=
  [ ("React", [ {| pkg_module := "react"; pkg_isDefault := true |} ]);
    ("useState", [ {| pkg_module := "react"; pkg_isDefault := false |} ]);
    ("useEffect", [ {| pkg_module := "react"; pkg_isDefault := false |} ]);
    ("useContext", [ {| pkg_module := "react"; pkg_isDefault := false |} ]);
    ("useMemo", [ {| pkg_module := "react"; pkg_isDefault := false |} ]);
    ("useCallback", [ {| pkg_module := "react"; pkg_isDefault := false |} ]);
    ("useRef", [ {| pkg_module := "react"; pkg_isDefault := false |} ]);
    ("styled", [ {| pkg_module := "styled-components"; pkg_isDefault := true |} ]);
    ("css", [ {| pkg_module := "@emotion/react"; pkg_isDefault := false |} ]);
    ("clsx", [ {| pkg_module := "clsx"; pkg_isDefault := true |} ]);
    ("classNames", [ {| pkg_module := "classnames"; pkg_isDefault := true |} ]);
    ("axios", [ {| pkg_module := "axios"; pkg_isDefault := true |} ]);
    ("_", [ {| pkg_module := "lodash"; pkg_isDefault := true |} ]);
    ("moment", [ {| pkg_module := "moment"; pkg_isDefault := true |} ]);
    ("dayjs", [ {| pkg_module := "dayjs"; pkg_isDefault := true |} ]) ].

(** [commonMappings] is an object literal, so a lookup also reaches the
    properties it inherits from [Object.prototype]; each of them is a
    truthy value that is not a list. *)
Definition objectPrototypeKeys : list string :=
  [ "constructor"; "toString"; "toLocaleString"; "valueOf";
    "hasOwnProperty"; "isPrototypeOf"; "propertyIsEnumerable";
    "__proto__"; "__defineGetter__"; "__defineSetter__";
    "__lookupGetter__"; "__lookupSetter__" ].

(** [commonMappings[identifier] || []]; [None] is an inherited property,
    which the caller cannot iterate. *)
Definition getCommonPackagesForIdentifier (identifier : string)
  : option (list CommonPackage) :=
  match JsMap.get commonMappings identifier with
  | Some packages => Some packages
  | None =>
      if existsb (String.eqb identifier) objectPrototypeKeys then None
      else Some []
  end.

(** ** [suggestImportsForIdentifiers] *)

Record ProjectFile : Type := {
  path : string;
  content : string
}.

Definition importsFromProject (h : Host) (r : Resolver) (identifier : string)
    (projectFiles : list ProjectFile) : list ImportInfo :=
  flat_map
    (fun file =>
       let exports := extractExportsFromFile h (content file) in
       if JsMap.has exports identifier then
         [ {| module := "./" ++ path_relative h (projectRoot r) (path file);
              specifiers :=
                [ {| name := identifier; alias := None;
                     isDefault :=
                       match JsMap.get exports identifier with
                       | Some e => String.eqb e "default"
                       | None => false
                       end;
                     isNamespace := false |} ];
              isRelative := true;
              resolvedPath := Some (path file) |} ]
       else [])
    projectFiles.

Definition importsFromPackages (identifier : string)
    (packages : list CommonPackage) : list ImportInfo :=
  map (fun pkg =>
         {| module := pkg_module pkg;
            specifiers :=
              [ {| name := identifier; alias := None;
                   isDefault := pkg_isDefault pkg; isNamespace := false |} ];
            isRelative := false;
            resolvedPath := None |})
      packages.

(** The loop over the missing identifiers; it throws a [TypeError] when
    the package lookup answers with something that is not iterable. *)
Fixpoint suggestLoop (h : Host) (r : Resolver) (todo : list string)
    (projectFiles : list ProjectFile)
    (suggestions : JsMap.t (list ImportInfo))
  : Result (JsMap.t (list ImportInfo)) :=
  match todo with
  | [] => Ok suggestions
  | identifier :: rest =>
      match getCommonPackagesForIdentifier identifier with
      | None => Throw (JsError "commonPackages is not iterable")
      | Some packages =>
          let possibleImports :=
            importsFromProject h r identifier projectFiles
            ++ importsFromPackages identifier packages in
          suggestLoop h r rest projectFiles
            (if Nat.ltb 0 (length possibleImports)
             then JsMap.set suggestions identifier possibleImports
             else suggestions)
      end
  end.

Definition suggestImportsForIdentifiers (h : Host) (r : Resolver)
    (missingIdentifiers : JsSet.t) (projectFiles : list ProjectFile)
  : Result (JsMap.t (list ImportInfo)) :=
  suggestLoop h r missingIdentifiers projectFiles JsMap.empty.

End DependencyResolver.

(* ===================================================================== *)
(** * [SmartCompiler] *)
(* ===================================================================== *)

Module SmartCompiler.
Import DependencyResolver.
Local Open Scope string_scope.

Definition nl : string := String (ascii_of_nat 10) EmptyString.

(** ** The pattern of [wrapComponentCode]

    [/(?:export\s+)?(?:default\s+)?(?:function|const|class)\s+(\w+)/],
    matched without flags: the first position at which it matches wins,
    each optional group is tried before it is skipped, and the capture is
    the longest run of word characters.  Giving back white space taken by
    [\s+] never helps, because none of the items after it can start with
    white space. *)

(** [\s] on ASCII text. *)
Definition isSpace (c : ascii) : bool :=
  let n := nat_of_ascii c in
  Nat.eqb n 32 || (Nat.leb 9 n && Nat.leb n 13).

(** [\w] *)
Definition isWord (c : ascii) : bool :=
  let n := nat_of_ascii c in
  (Nat.leb 48 n && Nat.leb n 57) || (Nat.leb 65 n && Nat.leb n 90)
  || (Nat.leb 97 n && Nat.leb n 122) || Nat.eqb n 95.

(** A literal: the rest of [s] after [p], when [s] starts with [p]. *)
Fixpoint lit (p s : string) : option string :=
  match p, s with
  | EmptyString, _ => Some s
  | String a p', String b s' => if Ascii.eqb a b then lit p' s' else None
  | String _ _, EmptyString => None
  end.

Fixpoint skipSpaces (s : string) : string :=
  match s with
  | String c s' => if isSpace c then skipSpaces s' else s
  | EmptyString => s
  end.

(** [\s+] *)
Definition spaces1 (s : string) : option string :=
  match s with
  | String c s' => if isSpace c then Some (skipSpaces s') else None
  | EmptyString => None
  end.

(** [(\w+)]: the longest run of word characters at the start of [s]. *)
Fixpoint takeWord (s : string) : string :=
  match s with
  | String c s' => if isWord c then String c (takeWord s') else EmptyString
  | EmptyString => EmptyString
  end.

Definition orTry {A : Type} (a b : option A) : option A :=
  match a with Some x => Some x | None => b end.

Definition andThen {A B : Type} (a : option A) (k : A -> option B) : option B :=
  match a with Some x => k x | None => None end.

(** [(?:function|const|class)\s+(\w+)] *)
Definition declarationAt (s : string) : option string :=
  andThen (orTry (lit "function" s) (orTry (lit "const" s) (lit "class" s)))
    (fun s1 => andThen (spaces1 s1)
       (fun s2 => match takeWord s2 with
                  | EmptyString => None
                  | w => Some w
                  end)).

(** [(?:default\s+)?] and what follows *)
Definition defaultAt (s : string) : option string :=
  orTry (andThen (lit "default" s) (fun s1 => andThen (spaces1 s1) declarationAt))
        (declarationAt s).

(** The whole pattern at the start of [s]. *)
Definition patternAt (s : string) : option string :=
  orTry (andThen (lit "export" s) (fun s1 => andThen (spaces1 s1) defaultAt))
        (defaultAt s).

(** [code.match(...)?.[1]] *)
Fixpoint componentMatch (code : string) : option string :=
  orTry (patternAt code)
        match code with
        | String _ rest => componentMatch rest
        | EmptyString => None
        end.

(** ** [generateImportStatement] *)

Definition namedPart (s : ImportSpecifier) : string :=
  match alias s with
  | Some a => if JsString.truthy a then name s ++ " as " ++ a else name s
  | None => name s
  end.

Definition namedClause (namedImports : list ImportSpecifier) : string :=
  "{ " ++ JsString.join ", " (map namedPart namedImports) ++ " }".

(** The loop that fills [specifierParts] has no effect on the result and
    is left out. *)
Definition generateImportStatement (imp : ImportInfo) : string :=
  let defaultImport := find isDefault (specifiers imp) in
  let namedImports :=
    List.filter (fun s => negb (isDefault s) && negb (isNamespace s))
                (specifiers imp) in
  let namespaceImport := find isNamespace (specifiers imp) in
  let importClause :=
    match defaultImport with
    | Some d =>
        name d ++ (if Nat.ltb 0 (length namedImports)
                   then ", " ++ namedClause namedImports else "")
    | None =>
        match namespaceImport with
        | Some n => "* as " ++ name n
        | None =>
            if Nat.ltb 0 (length namedImports)
            then namedClause namedImports else ""
        end
    end in
  "import " ++ importClause ++ " from '" ++ module imp ++ "';".

Section WithMockProps.

(** The type of [mockProps] values and [JSON.stringify(_, null, 2)] on
    them. *)
Variable MockProps : Type.
Variable JSON_stringify : MockProps -> string.

(** [JSON.stringify] throws on a value it cannot serialise (a BigInt, a
    cycle): [JSON_stringify_throws props] is then what it throws, and
    [JSON_stringify props] is the text it returns otherwise. *)
Variable JSON_stringify_throws : MockProps -> option Exn.

(** ** [wrapComponentCode] *)

Definition hasExport (code : string) : bool :=
  JsString.includes code "export default" || JsString.includes code "export {".

Definition wrapper (code propsJson componentName : string) : string :=
  JsString.join nl
    [ "";
      code;
      "";
      "// Auto-generated preview wrapper";
      "export default function PreviewWrapper() {";
      "  const mockProps = " ++ propsJson ++ ";";
      "  ";
      "  try {";
      "    return <" ++ componentName ++ " {...mockProps} />;";
      "  } catch (error) {";
      "    return (";
      "      <div style={{ ";
      "        color: 'red', ";
      "        padding: '20px', ";
      "        border: '1px solid red',";
      "        borderRadius: '4px',";
      "        backgroundColor: '#ffebee'";
      "      }}>";
      "        <h3>Component Error</h3>";
      "        <pre>{error.message}</pre>";
      "      </div>";
      "    );";
      "  }";
      "}";
      "" ].

Definition wrapComponentCode (code : string) (mockProps : option MockProps)
  : string :=
  let componentName :=
    match componentMatch code with
    | Some n => n
    | None => "Component"
    end in
  if hasExport code then code
  else
    let propsJson :=
      match mockProps with
      | Some props => JSON_stringify props
      | None => "{}"
      end in
    wrapper code propsJson componentName.

(** ** [generateFullCode] *)

Record FullCodeOptions : Type := {
  fc_code : string;
  existingImports : list ImportInfo;
  suggestedImports : list ImportInfo;
  fc_additionalImports : list ImportInfo;
  fc_mockProps : option MockProps;
  fc_wrapComponent : option bool
}.

(** The key under which an import is stored: the module, a colon, and the
    specifier names as written, joined by commas. *)
Definition importKey (imp : ImportInfo) : string :=
  module imp ++ ":" ++ JsString.join "," (map name (specifiers imp)).

Definition mergeImports (sources : list ImportInfo) : JsMap.t ImportInfo :=
  fold_left (fun allImports imp => JsMap.set allImports (importKey imp) imp)
            sources JsMap.empty.

Definition isReactDefault (imp : ImportInfo) : bool :=
  String.eqb (module imp) "react"
  && existsb (fun s => isDefault s && String.eqb (name s) "React")
             (specifiers imp).

Definition reactImport : ImportInfo :=
  {| module := "react";
     specifiers := [ {| name := "React"; alias := None;
                        isDefault := true; isNamespace := false |} ];
     isRelative := false;
     resolvedPath := None |}.

Definition ensureReact (allImports : JsMap.t ImportInfo) : JsMap.t ImportInfo :=
  if existsb isReactDefault (JsMap.values allImports) then allImports
  else JsMap.set allImports "react:React" reactImport.

(** The merged imports, in the order their statements are emitted. *)
Definition allImports (options : FullCodeOptions) : JsMap.t ImportInfo :=
  ensureReact
    (mergeImports (existingImports options ++ suggestedImports options
                   ++ fc_additionalImports options)).

Definition importStatements (options : FullCodeOptions) : list string :=
  map generateImportStatement (JsMap.values (allImports options)).

Definition componentCode (options : FullCodeOptions) : string :=
  match fc_wrapComponent options with
  | Some false => fc_code options
  | _ => wrapComponentCode (fc_code options) (fc_mockProps options)
  end.

Definition generateFullCode (options : FullCodeOptions) : string :=
  JsString.join nl
    [ "";
      JsString.join nl (importStatements options);
      "";
      componentCode options;
      "" ].

(** ** [createResolvePlugin] *)

(** What the [onResolve] callback hands back to esbuild ([null] is
    [None]). *)
Record OnResolveResult : Type := {
  res_path : option string;
  res_namespace : option string;
  res_external : bool
}.

Record OnResolveArgs : Type := {
  args_path : string;
  args_resolveDir : string
}.

Definition onResolve (h : Host) (resolvedModules : gmap string string)
    (args : OnResolveArgs) : option OnResolveResult :=
  match resolvedModules !! args_path args with
  | Some p =>
      Some {| res_path := Some p; res_namespace := Some "file";
              res_external := false |}
  | None =>
      if negb (JsString.startsWith (args_path args) ".")
         && negb (JsString.startsWith (args_path args) "/") then
        match require_resolve h (args_path args) (args_resolveDir args) with
        | Some resolved =>
            Some {| res_path := Some resolved; res_namespace := None;
                    res_external := false |}
        | None =>
            Some {| res_path := None; res_namespace := None;
                    res_external := true |}
        end
      else None
  end.

(** ** [compile] *)

Record Message : Type := { msg_text : string }.
Record OutputFile : Type := { out_text : string }.

Record BuildResult : Type := {
  errors : list Message;
  warnings : list Message;
  outputFiles : option (list OutputFile)
}.

(** The options of [esbuild.build] that vary from call to call. *)
Record BuildOptions : Type := {
  stdin_contents : string;
  stdin_resolveDir : string;
  plugin_onResolve : OnResolveArgs -> option OnResolveResult
}.

(** [esbuild.build]: it returns a result or throws. *)
Variable esbuild_build : BuildOptions -> Result BuildResult.

Record SmartCompileOptions : Type := {
  code : string;
  filePath : option string;
  mockProps : option MockProps;
  additionalImports : option (list ImportInfo);
  wrapComponent : option bool
}.

Record CodeContext : Type := {
  projectFiles : list ProjectFile
}.

Record CompilationResult : Type := {
  success : bool;
  result_code : option string;
  error : option string;
  result_warnings : option (list string)
}.

(** The first suggestion of every identifier that has one. *)
Definition firstChoices (suggestions : JsMap.t (list ImportInfo))
  : list ImportInfo :=
  flat_map (fun entry => match snd entry with
                         | first :: _ => [first]
                         | [] => []
                         end)
           suggestions.

(** [error instanceof Error ? error.message : String(error)] *)
Definition errorMessage (e : Exn) : string :=
  match e with
  | JsError message => message
  | JsValue asString => asString
  end.

(** [result.outputFiles![0].text] *)
Definition firstOutputText (result : BuildResult) : Result string :=
  match outputFiles result with
  | Some (file :: _) => Ok (out_text file)
  | Some [] =>
      Throw (JsError "Cannot read properties of undefined (reading 'text')")
  | None =>
      Throw (JsError "Cannot read properties of undefined (reading '0')")
  end.

(** Step 2 of [compile]: the imports inferred for the missing
    identifiers. *)
Definition inferImports (h : Host) (r : Resolver) (codeContext : CodeContext)
    (depContext : DependencyContext) : Result (list ImportInfo) :=
  if Nat.ltb 0 (JsSet.size (missingIdentifiers depContext)) then
    suggestions ← suggestImportsForIdentifiers h r
                     (missingIdentifiers depContext)
                     (projectFiles codeContext);
    mret (firstChoices suggestions)
  else mret [].

(** Step 3 of [compile]: the options handed to [generateFullCode]. *)
Definition fullCodeOptions (options : SmartCompileOptions)
    (depContext : DependencyContext) (suggested : list ImportInfo)
  : FullCodeOptions :=
  {| fc_code := code options;
     existingImports := imports depContext;
     suggestedImports := suggested;
     fc_additionalImports :=
       match additionalImports options with
       | Some extra => extra
       | None => []
       end;
     fc_mockProps := mockProps options;
     fc_wrapComponent := wrapComponent options |}.

(** The mock props [generateFullCode] hands to [JSON.stringify]: those of
    the options, when the fragment is wrapped. *)
Definition stringified (o : FullCodeOptions) : option MockProps :=
  match fc_wrapComponent o with
  | Some false => None
  | _ => if hasExport (fc_code o) then None else fc_mockProps o
  end.

(** [generateFullCode] as a call that can fail: what [JSON.stringify]
    throws leaves it. *)
Definition generateFullCodeOrThrow (o : FullCodeOptions) : Result string :=
  match stringified o with
  | Some props =>
      match JSON_stringify_throws props with
      | Some e => Throw e
      | None => Ok (generateFullCode o)
      end
  | None => Ok (generateFullCode o)
  end.

(** Step 4 of [compile]: the options handed to [esbuild.build]. *)
Definition buildOptions (h : Host) (r : Resolver)
    (options : SmartCompileOptions) (depContext : DependencyContext)
    (fullCode : string) : BuildOptions :=
  {| stdin_contents := fullCode;
     stdin_resolveDir :=
       match filePath options with
       | Some f => if JsString.truthy f then path_dirname h f
                   else projectRoot r
       | None => projectRoot r
       end;
     plugin_onResolve := onResolve h (resolvedModules depContext) |}.

(** The statements between [try] and [catch], after the analysis. *)
Definition compileSteps (h : Host) (r : Resolver) (codeContext : CodeContext)
    (options : SmartCompileOptions) (depContext : DependencyContext)
  : Result CompilationResult :=
  suggested ← inferImports h r codeContext depContext;
  fullCode ← generateFullCodeOrThrow
                (fullCodeOptions options depContext suggested);
  result ← esbuild_build (buildOptions h r options depContext fullCode);
  if Nat.ltb 0 (length (errors result)) then
    mret {| success := false;
            result_code := None;
            error := Some (JsString.join nl (map msg_text (errors result)));
            result_warnings := None |}
  else
    text ← firstOutputText result;
    mret {| success := true;
            result_code := Some text;
            error := None;
            result_warnings := Some (map msg_text (warnings result)) |}.

Definition compile (h : Host) (r : Resolver) (codeContext : CodeContext)
    (options : SmartCompileOptions) : CompilationResult * Resolver :=
  let '(depContext, r1) :=
    analyzeDependencies h r (code options) (filePath options) in
  match compileSteps h r1 codeContext options depContext with
  | Ok result => (result, r1)
  | Throw e =>
      ({| success := false;
          result_code := None;
          error := Some (errorMessage e);
          result_warnings := None |}, r1)
  end.

End WithMockProps.

End SmartCompiler.

(* ===================================================================== *)
(** * What the specification says, in its own words *)
(* ===================================================================== *)

Module Spec.
Import Ast DependencyResolver.






(** A node that exports: an export declaration ([export { a }],
    [export * from]), an export assignment ([export default e]), or a
    declaration with the [export] modifier. *)
Definition exports (node : Node) : bool :=
  isKind ExportDeclaration node || isKind ExportAssignment node
  || existsb (isKind ExportKeyword) (fields f_modifiers node).

(** "a fragment with zero exports". *)
Definition exportsNothing (sourceFile : Node) : bool :=
  forallb (fun pn => negb (exports (snd pn))) (preorder None sourceFile).

(** Insertion into a list of names sorted by [String.leb]. *)
Fixpoint insertName (x : string) (sorted : list string) : list string :=
  match sorted with
  | [] => [x]
  | y :: rest => if String.leb x y then x :: sorted else y :: insertName x rest
  end.

Definition sortNames (names : list string) : list string :=
  fold_right insertName [] names.

(** The merge key of the specification: the module and the sorted
    specifier names. *)
Definition sortedKey (imp : ImportInfo) : string * list string :=
  (module imp, sortNames (map name (specifiers imp))).

End Spec.

(* ===================================================================== *)
(** * Inputs of the examples *)
(* ===================================================================== *)

Module Examples.
Import Ast DependencyResolver SmartCompiler.
Local Open Scope string_scope.

(** A host whose parser answers with a given tree and whose resolvers
    find nothing. *)
Definition hostParsing (tree : Node) : Host :=
  {| createSourceFile := fun _ _ _ => tree;
     ts_resolveModuleName := fun _ _ => TsUnresolved;
     require_resolve := fun _ _ => None;
     path_join := fun a b => a ++ "/" ++ b;
     path_dirname := fun p => p;
     path_relative := fun _ p => p |}.

(** A host on which Node resolves [moduleName] to [resolved]. *)
Definition hostResolving (moduleName resolved : string) : Host :=
  {| createSourceFile := fun _ _ _ => sourceFile [];
     ts_resolveModuleName := fun _ _ => TsUnresolved;
     require_resolve :=
       fun m _ => if String.eqb m moduleName then Some resolved else None;
     path_join := fun a b => a ++ "/" ++ b;
     path_dirname := fun p => p;
     path_relative := fun _ p => p |}.

Definition freshResolver : Resolver :=
  {| projectRoot := "/project"; tsProgram := false;
     moduleResolutionCache := ∅ |}.

(** An esbuild that hands its input back as its only output file. *)
Definition echoBuild (o : BuildOptions) : Result BuildResult :=
  Ok {| errors := []; warnings := [];
        outputFiles := Some [ {| out_text := stdin_contents o |} ] |}.

(** An esbuild whose build fails by throwing. *)
Definition failingBuild (o : BuildOptions) : Result BuildResult :=
  Throw (JsError "Build failed with 1 error").

Definition noProps (_ : unit) : string := "{}".

(** Mock props that [JSON.stringify] serialises. *)
Definition serialisable (_ : unit) : option Exn := None.


(** [a.b;]: an expression statement holding the property access. *)
Definition memberCode : string := "a.b;".
Definition memberTree : Node :=
  sourceFile [ other [ propertyAccess (ident "a") "b" ] ].


(** The second example of the specification, with a body that calls the
    imported hook: an import declaration with one named specifier, and a
    function declaration with the modifiers [export default], the name
    [Counter] and a block whose return statement holds the call. *)
Definition counterCode : string :=
  "import {useState} from 'state-lib'; export default function Counter(){ return useState(0); }".
Definition counterTree : Node :=
  sourceFile
    [ namedImport "state-lib" ["useState"];
      functionDecl [ExportKeyword; DefaultKeyword] "Counter"
        [ other [ other [ other [ ident "useState"; other [] ] ] ] ] ].

Definition named (x : string) : ImportSpecifier :=
  {| name := x; alias := None; isDefault := false; isNamespace := false |}.

Definition importNamed (m : string) (names : list string) : ImportInfo :=
  {| module := m; specifiers := map named names;
     isRelative := false; resolvedPath := None |}.

Definition options (code : string) (existing additional : list ImportInfo)
    (wrap : option bool) : FullCodeOptions unit :=
  {| fc_code := code;
     existingImports := existing;
     suggestedImports := [];
     fc_additionalImports := additional;
     fc_mockProps := None;
     fc_wrapComponent := wrap |}.

(** [import { x as y } from 'lib'] *)
Definition importAliased (m x y : string) : ImportInfo :=
  {| module := m;
     specifiers := [ {| name := x; alias := Some y;
                        isDefault := false; isNamespace := false |} ];
     isRelative := false; resolvedPath := None |}.

Definition namedExportCode : string :=
  "export function Foo() { return null; }".

Definition defaultExportCode : string :=
  "export default function Foo() { return null; }".

Definition bareCode : string := "function Foo() { return null; }".

(** [function Foo() { return null; } // export default]: the function
    declaration has no modifier and the fragment exports nothing; the
    words [export default] stand in a trailing comment, which is no node
    of the tree. *)
Definition commentedCode : string :=
  "function Foo() { return null; } // export default".
Definition commentedTree : Node :=
  sourceFile [ functionDecl [] "Foo" [ other [ other [ other [] ] ] ] ].

(** [import x from 'totally-unknown-pkg'; x;] *)
Definition unknownCode : string := "import x from 'totally-unknown-pkg'; x;".
Definition unknownTree : Node :=
  sourceFile
    [ mkNode ImportDeclaration ""
        [ (f_importClause, mkNode ImportClause "" [ (f_name, ident "x") ]);
          (f_moduleSpecifier, str "totally-unknown-pkg") ];
      other [ ident "x" ] ].

Definition lodashPath : string := "/project/node_modules/lodash/lodash.js".

Definition unknownOptions : SmartCompileOptions unit :=
  {| code := unknownCode; filePath := None; mockProps := None;
     additionalImports := None; wrapComponent := None |}.

(** [import helper from './missing'; helper;] *)
Definition missingCode : string := "import helper from './missing'; helper;".
Definition missingTree : Node :=
  sourceFile
    [ mkNode ImportDeclaration ""
        [ (f_importClause,
            mkNode ImportClause "" [ (f_name, ident "helper") ]);
          (f_moduleSpecifier, str "./missing") ];
      other [ ident "helper" ] ].

Definition missingOptions : SmartCompileOptions unit :=
  {| code := missingCode; filePath := None; mockProps := None;
     additionalImports := None; wrapComponent := None |}.

(** An esbuild without files of its own: it asks the plugin about each of
    the specifiers [imported] by its input; when the plugin answers for
    all of them it hands the input back as its only output file, and when
    the plugin leaves one of them to it, it finds nothing and the build
    fails. *)
Definition pluginOnlyBuild (imported : list string) (o : BuildOptions)
  : Result BuildResult :=
  if forallb (fun specifier =>
                match plugin_onResolve o
                        {| args_path := specifier;
                           args_resolveDir := stdin_resolveDir o |} with
                | Some _ => true
                | None => false
                end) imported
  then Ok {| errors := []; warnings := [];
             outputFiles := Some [ {| out_text := stdin_contents o |} ] |}
  else Throw (JsError "Build failed with 1 error").

Definition counterOptions : SmartCompileOptions unit :=
  {| code := counterCode; filePath := None; mockProps := None;
     additionalImports := None; wrapComponent := None |}.

Definition emptyProject : CodeContext := {| projectFiles := [] |}.

End Examples.

(* ===================================================================== *)
(** * Reading the walks as folds *)
(* ===================================================================== *)

Module Contribution.
Import Ast DependencyResolver.

(** What a visited node, with its parent, contributes to [used] and to
    [declared]. *)
Definition usedAt (pn : option Node * Node) : option string :=
  if recordedAsUsed (fst pn) (snd pn) then Some (text (snd pn)) else None.

Definition declaredAt (pn : option Node * Node) : option string :=
  declaredBy (snd pn).

(** The directory Node resolves from when asked by [fromFile]. *)
Definition resolveFrom (h : Host) (r : Resolver) (fromFile : option string)
  : string :=
  match fromFile with
  | Some file => if JsString.truthy file then path_dirname h file
                 else projectRoot r
  | None => projectRoot r
  end.

(** An import with its [resolvedPath] set, as the analysis leaves it on a
    successful resolution. *)
Definition resolvedAs (imp : ImportInfo) (p : string) : ImportInfo :=
  {| module := module imp; specifiers := specifiers imp;
     isRelative := isRelative imp; resolvedPath := Some p |}.

(** The import a merge keeps under a key: the last one of the sources
    that has this key. *)
Definition lastWithKey (k : string) (sources : list ImportInfo)
  : option ImportInfo :=
  find (fun imp => String.eqb (SmartCompiler.importKey imp) k) (rev sources).

(** One step of the merge loop. *)
Definition store (m : JsMap.t ImportInfo) (imp : ImportInfo)
  : JsMap.t ImportInfo :=
  JsMap.set m (SmartCompiler.importKey imp) imp.

(** A name of the pattern: word characters only. *)
Fixpoint wordOnly (s : string) : bool :=
  match s with
  | EmptyString => true
  | String c s' => SmartCompiler.isWord c && wordOnly s'
  end.

(** Whether a text goes on with a word character. *)
Definition startsWithWord (s : string) : bool :=
  match s with
  | EmptyString => false
  | String c _ => SmartCompiler.isWord c
  end.

End Contribution.

(* ===================================================================== *)
(** * The two shapes of a compilation result *)
(* ===================================================================== *)

Module Outcome.
Import SmartCompiler.

(** [{ success: false, error: message }] *)
Definition failure (message : string) : CompilationResult :=
  {| success := false; result_code := None;
     error := Some message; result_warnings := None |}.

(** [{ success: true, code: text, warnings }] *)
Definition built (text : string) (warnings : list string)
  : CompilationResult :=
  {| success := true; result_code := Some text;
     error := None; result_warnings := Some warnings |}.

End Outcome.

(* ===================================================================== *)
(** * [Logger] *)
(* ===================================================================== *)

Module Logger.

Inductive LogLevel : Type := ERROR | WARN | INFO | DEBUG | TRACE.

(** The numeric value of the enum member. *)
Definition levelValue (l : LogLevel) : nat :=
  match l with
  | ERROR => 0 | WARN => 1 | INFO => 2 | DEBUG => 3 | TRACE => 4
  end.

Inductive LogCategory : Type :=
| SCANNER | COMPILER | EXECUTOR | PREVIEW | AI | CORE | DETECTOR.

Definition LogCategory_eqb (a b : LogCategory) : bool :=
  match a, b with
  | SCANNER, SCANNER | COMPILER, COMPILER | EXECUTOR, EXECUTOR
  | PREVIEW, PREVIEW | AI, AI | CORE, CORE | DETECTOR, DETECTOR => true
  | _, _ => false
  end.

Inductive Format : Type := simple | detailed.

(** An optional property that is absent is [None]; an array that is
    present, even an empty one, is truthy. *)
Record LoggerConfig : Type := {
  level : LogLevel;
  enabledCategories : option (list LogCategory);
  disabledCategories : option (list LogCategory);
  format : option Format;
  timestamp : option bool
}.

Definition initialConfig : LoggerConfig :=
  {| level := INFO; enabledCategories := None; disabledCategories := None;
     format := Some simple; timestamp := Some true |}.

(** [categories.includes(category)] *)
Definition includesCategory (categories : list LogCategory)
    (category : LogCategory) : bool :=
  existsb (LogCategory_eqb category) categories.

Definition shouldLog (config : LoggerConfig) (messageLevel : LogLevel)
    (category : option LogCategory) : bool :=
  if Nat.ltb (levelValue (level config)) (levelValue messageLevel) then false
  else
    match category with
    | Some c =>
        if match enabledCategories config with
           | Some enabled => negb (includesCategory enabled c)
           | None => false
           end
        then false
        else if match disabledCategories config with
                | Some disabled => includesCategory disabled c
                | None => false
                end
        then false
        else true
    | None => true
    end.

End Logger.

(* ===================================================================== *)
(** * [JSXCompiler]: the two path and name helpers *)
(* ===================================================================== *)

Module JSXCompiler.
Local Open Scope string_scope.

(** [[a-zA-Z0-9_$]] *)
Definition isNameChar (c : ascii) : bool :=
  SmartCompiler.isWord c || Nat.eqb (nat_of_ascii c) 36.

(** [name.replace(/[^a-zA-Z0-9_$]/g, '_')] *)
Fixpoint sanitizeImportName (name : string) : string :=
  match name with
  | EmptyString => EmptyString
  | String c rest =>
      String (if isNameChar c then c else "_"%char) (sanitizeImportName rest)
  end.

(** Whether the whole of [s] is [.ts], [.tsx], [.js] or [.jsx]: the
    pattern [\.(ts|tsx|js|jsx)$] matches at the start of [s]. *)
Definition isScriptExtension (s : string) : bool :=
  String.eqb s ".ts" || String.eqb s ".tsx"
  || String.eqb s ".js" || String.eqb s ".jsx".

(** [filePath.replace(/\.(ts|tsx|js|jsx)$/, '')]: the text before the
    first position at which the pattern matches, or all of it. *)
Fixpoint stripScriptExtension (filePath : string) : string :=
  if isScriptExtension filePath then EmptyString
  else
    match filePath with
    | EmptyString => EmptyString
    | String c rest => String c (stripScriptExtension rest)
    end.

Definition convertToImportPath (filePath : string) : string :=
  "./" ++ stripScriptExtension filePath.

(** ** The project context and the snippet *)

Inductive FileType : Type := tsx | ts | jsx | js | json | otherType.

Record ProjectFile : Type := {
  path : string;
  content : string;
  type : FileType
}.

(** [dependencies] is a plain object: its own properties, in insertion
    order. *)
Record CodeContext : Type := {
  projectFiles : list ProjectFile;
  dependencies : JsMap.t string
}.



(** ** [extractExportsFromContent] *)




















(** ** [extractProjectExports] and [generateProjectImports] *)








(** ** [generateImports] *)




(** ** [generateContextCode] and [mergeSnippetWithContext] *)



(** ** [compileWithEsbuild] and [compileJSXSnippet] *)

Inductive Loader : Type := loader_tsx | loader_jsx.

(** The options of [esbuild.build] that vary from call to call. *)
Record BuildOptions : Type := {
  stdin_contents : string;
  stdin_loader : Loader;
  stdin_resolveDir : string
}.


Section WithBundler.

(** [esbuild.build], which returns a result or throws, and
    [process.cwd()]. *)
Variable esbuild_build : BuildOptions -> Result SmartCompiler.BuildResult.
Variable process_cwd : string.




End WithBundler.

End JSXCompiler.

(* ===================================================================== *)
(** * [CodeCompleter]: the fallback wrapper *)
(* ===================================================================== *)

Module CodeCompleter.
Import SmartCompiler.
Local Open Scope string_scope.

(** [code.match(/(?:function|const|class)\s+(\w+)/)?.[1]] *)
Fixpoint componentMatch (code : string) : option string :=
  orTry (declarationAt code)
        match code with
        | String _ rest => componentMatch rest
        | EmptyString => None
        end.

Definition generateComponentWrapper (code : string) : string :=
  if JsString.includes code "export default"
     || JsString.includes code "export {" then ""
  else
    let componentName :=
      match componentMatch code with
      | Some n => n
      | None => "Component"
      end in
    nl ++ "export default " ++ componentName ++ ";".

End CodeCompleter.

(* ===================================================================== *)
(** * Further readings of the loops *)
(* ===================================================================== *)

Module Reading.
Import Ast DependencyResolver SmartCompiler.







(** The import a visited node contributes, as a list. *)
Definition importsAt (pn : option Node * Node) : list ImportInfo :=
  match importOf (snd pn) with
  | Some info => [info]
  | None => []
  end.

(** What the suggestion loop computes for one identifier. *)
Definition possibleImports (h : Host) (r : Resolver)
    (projectFiles : list ProjectFile) (identifier : string)
  : list ImportInfo :=
  match getCommonPackagesForIdentifier identifier with
  | Some packages =>
      importsFromProject h r identifier projectFiles
      ++ importsFromPackages identifier packages
  | None => []
  end.

(** An import without the specifiers that are namespace specifiers only. *)
Definition withoutNamespace (imp : ImportInfo) : ImportInfo :=
  {| module := module imp;
     specifiers :=
       List.filter (fun s => isDefault s || negb (isNamespace s))
                   (specifiers imp);
     isRelative := isRelative imp;
     resolvedPath := resolvedPath imp |}.

(** [Some l] for a list with an element, [None] for the empty list. *)
Definition nonEmpty {A : Type} (l : list A) : option (list A) :=
  match l with
  | [] => None
  | _ :: _ => Some l
  end.

(** [import React, * as All from 'x';] and [import './styles.css';] as
    the parser gives them. *)
Definition defaultAndNamespaceImport : Node :=
  mkNode ImportDeclaration ""
    [ (f_importClause,
        mkNode ImportClause ""
          [ (f_name, ident "React");
            (f_namedBindings,
              mkNode NamespaceImport "" [ (f_name, ident "All") ]) ]);
      (f_moduleSpecifier, str "x") ].

Definition sideEffectImport : Node :=
  mkNode ImportDeclaration "" [ (f_moduleSpecifier, str "./styles.css") ].

(** [export default function Card() {}] in a project file. *)
Definition cardFile : ProjectFile :=
  {| path := "src/Card.tsx";
     content := "export default function Card() {}" |}.

Definition cardTree : Node :=
  sourceFile
    [ functionDecl [ExportKeyword; DefaultKeyword] "Card" [ other [] ] ].

(** The entry the suggestion loop stores for one identifier, and the
    import [compile] takes from it. *)
Definition suggestionEntry (h : Host) (r : Resolver)
    (projectFiles : list ProjectFile) (identifier : string)
  : list (string * list ImportInfo) :=
  match possibleImports h r projectFiles identifier with
  | [] => []
  | found => [(identifier, found)]
  end.

Definition firstSuggestion (h : Host) (r : Resolver)
    (projectFiles : list ProjectFile) (identifier : string)
  : list ImportInfo :=
  match possibleImports h r projectFiles identifier with
  | [] => []
  | first :: _ => [first]
  end.

(** [import _ from 'lodash'; _;] on a host on which Node finds lodash. *)
Definition lodashCode : string := "import _ from 'lodash'; _;".
Definition lodashTree : Node :=
  sourceFile
    [ mkNode ImportDeclaration ""
        [ (f_importClause, mkNode ImportClause "" [ (f_name, ident "_") ]);
          (f_moduleSpecifier, str "lodash") ];
      other [ ident "_" ] ].

Definition lodashHost : Host :=
  {| createSourceFile := fun _ _ _ => lodashTree;
     ts_resolveModuleName := fun _ _ => TsUnresolved;
     require_resolve :=
       fun m _ => if String.eqb m "lodash" then Some Examples.lodashPath
                  else None;
     path_join := fun a b => (a ++ "/" ++ b)%string;
     path_dirname := fun p => p;
     path_relative := fun _ p => p |}.

Definition lodashOptions : SmartCompileOptions unit :=
  {| code := lodashCode; filePath := None; mockProps := None;
     additionalImports := None; wrapComponent := None |}.

(** The state the loop over the imports keeps: what [resolvedModules]
    holds for a module is a path that is not empty and that the cache
    holds for the key of that module. *)
Definition agrees (f : option string) (r : Resolver)
    (resolved : gmap string string) : Prop :=
  forall m p,
    resolved !! m = Some p ->
    moduleResolutionCache r !! cacheKey m f = Some p
    /\ JsString.truthy p = true.

(** No call for [m] answers a path at [r]. *)
Definition unresolvable (h : Host) (r : Resolver) (m : string)
    (f : option string) : Prop :=
  match fst (resolveModulePath h r m f) with
  | Some p => JsString.truthy p = false
  | None => True
  end.

(** Every export recorded so far is recorded as named. *)
Definition allNamed (exports : JsMap.t string) : Prop :=
  Forall (fun entry => snd entry = "named"%string) exports.

(** A host that parses the content of [cardFile] to [cardTree]. *)
Definition cardHost : Host := Examples.hostParsing cardTree.

(** Whether every character of a name may stand in an import name. *)
Fixpoint nameOnly (s : string) : bool :=
  match s with
  | EmptyString => true
  | String c rest => JSXCompiler.isNameChar c && nameOnly rest
  end.

(** Whether a text holds a dot. *)
Fixpoint hasDot (s : string) : bool :=
  match s with
  | EmptyString => false
  | String c rest => Ascii.eqb c "."%char || hasDot rest
  end.

End Reading.

(* ===================================================================== *)
(** * Facts about strings, sets and maps *)
(* ===================================================================== *)

Section StringFacts.
Local Open Scope string_scope.

Lemma append_cons (c : ascii) (s t : string) :
  String c s ++ t = String c (s ++ t).
Proof. reflexivity. Qed.

Lemma append_empty_l (s : string) : "" ++ s = s.
Proof. reflexivity. Qed.

Lemma append_empty_r (s : string) : s ++ "" = s.
Proof.
  induction s as [|c s IH]; [reflexivity |].
  now rewrite append_cons, IH.
Qed.

Lemma append_assoc (a b c : string) : (a ++ b) ++ c = a ++ (b ++ c).
Proof.
  induction a as [|x a IH]; [reflexivity |].
  now rewrite !append_cons, IH.
Qed.

Lemma prefix_append (p s : string) : String.prefix p (p ++ s) = true.
Proof.
  induction p as [|c p IH].
  - rewrite append_empty_l. now destruct s.
  - rewrite append_cons. simpl.
    destruct (ascii_dec c c) as [_|ne]; [exact IH | now destruct ne].
Qed.

Lemma prefix_split (p s : string) :
  String.prefix p s = true -> exists rest, s = p ++ rest.
Proof.
  revert s; induction p as [|c p IH]; intros s H.
  - now exists s.
  - destruct s as [|d s]; simpl in H; [discriminate |].
    destruct (ascii_dec c d) as [->|]; [| discriminate].
    destruct (IH _ H) as [rest ->]. now exists rest.
Qed.

Lemma includes_empty (sub : string) :
  JsString.includes "" sub = String.prefix sub "" || false.
Proof. reflexivity. Qed.

Lemma includes_cons (c : ascii) (s sub : string) :
  JsString.includes (String c s) sub
  = String.prefix sub (String c s) || JsString.includes s sub.
Proof. reflexivity. Qed.

Lemma includes_prefix (s sub : string) :
  String.prefix sub s = true -> JsString.includes s sub = true.
Proof.
  intros H. destruct s as [|c s].
  - now rewrite includes_empty, H.
  - now rewrite includes_cons, H.
Qed.

(** [includes] finds exactly the strings that occur inside. *)
Lemma includes_occurs (before sub after : string) :
  JsString.includes (before ++ sub ++ after) sub = true.
Proof.
  induction before as [|c before IH].
  - rewrite append_empty_l. apply includes_prefix, prefix_append.
  - rewrite append_cons, includes_cons, IH. apply orb_true_r.
Qed.

Lemma includes_split (s sub : string) :
  JsString.includes s sub = true ->
  exists before after, s = before ++ sub ++ after.
Proof.
  induction s as [|c s IH]; intros H.
  - rewrite includes_empty, orb_false_r in H.
    destruct (prefix_split _ _ H) as [rest E]. now exists "", rest.
  - rewrite includes_cons in H. apply orb_true_iff in H as [H|H].
    + destruct (prefix_split _ _ H) as [rest E]. now exists "", rest.
    + destruct (IH H) as (before & after & ->).
      now exists (String c before), after.
Qed.

Lemma includes_trans (s t u : string) :
  JsString.includes s t = true -> JsString.includes t u = true ->
  JsString.includes s u = true.
Proof.
  intros Hst Htu.
  destruct (includes_split _ _ Hst) as (a & b & ->).
  destruct (includes_split _ _ Htu) as (c & d & ->).
  replace (a ++ (c ++ u ++ d) ++ b) with ((a ++ c) ++ u ++ (d ++ b)).
  - apply includes_occurs.
  - now rewrite !append_assoc.
Qed.

Lemma includes_refl (s : string) : JsString.includes s s = true.
Proof.
  pose proof (includes_occurs "" s "") as H.
  now rewrite append_empty_l, append_empty_r in H.
Qed.

(** A joined string contains each of its parts. *)
Lemma join_occurs (sep x : string) (parts : list string) :
  In x parts ->
  exists before after, JsString.join sep parts = before ++ x ++ after.
Proof.
  unfold JsString.join.
  induction parts as [|y parts IH]; intros Hin; [destruct Hin |].
  destruct Hin as [->|Hin].
  - exists "". destruct parts as [|z parts].
    + exists "". now rewrite append_empty_r.
    + now exists (sep ++ String.concat sep (z :: parts)).
  - destruct (IH Hin) as (before & after & E).
    destruct parts as [|z parts]; [destruct Hin |].
    change (String.concat sep (y :: z :: parts))
      with (y ++ sep ++ String.concat sep (z :: parts)).
    rewrite E. exists (y ++ sep ++ before), after.
    now rewrite !append_assoc.
Qed.

Lemma includes_join (sep x : string) (parts : list string) :
  In x parts -> JsString.includes (JsString.join sep parts) x = true.
Proof.
  intros Hin. destruct (join_occurs sep x parts Hin) as (before & after & ->).
  apply includes_occurs.
Qed.

End StringFacts.

Section SetFacts.

Lemma has_In (s : JsSet.t) (x : string) : JsSet.has s x = true <-> In x s.
Proof.
  unfold JsSet.has. rewrite existsb_exists. split.
  - intros (y & Hy & E). apply String.eqb_eq in E. now subst.
  - intros H. exists x. split; [exact H | apply String.eqb_refl].
Qed.

Lemma has_false (s : JsSet.t) (x : string) : JsSet.has s x = false <-> ~ In x s.
Proof.
  rewrite <- has_In. destruct (JsSet.has s x); split; congruence.
Qed.

Lemma add_In (s : JsSet.t) (x y : string) :
  In y (JsSet.add s x) <-> In y s \/ y = x.
Proof.
  unfold JsSet.add. destruct (JsSet.has s x) eqn:E.
  - apply has_In in E. split; [now left | intros [H| ->]; assumption].
  - rewrite in_app_iff. simpl. intuition.
Qed.

Lemma add_NoDup (s : JsSet.t) (x : string) : NoDup s -> NoDup (JsSet.add s x).
Proof.
  intros Hs. unfold JsSet.add. destruct (JsSet.has s x) eqn:E; [exact Hs |].
  apply has_false in E. apply NoDup_app; [exact Hs | repeat constructor; easy |].
  intros y Hy [<-|[]]. contradiction.
Qed.

(** A loop that adds the selected elements of a list to a set. *)
Lemma fold_add_In {A : Type} (select : A -> option string) (l : list A)
    (s : JsSet.t) (x : string) :
  In x (fold_left (fun acc a => match select a with
                                | Some y => JsSet.add acc y
                                | None => acc
                                end) l s)
  <-> In x s \/ exists a, In a l /\ select a = Some x.
Proof.
  revert s; induction l as [|a l IH]; intros s; simpl.
  - split; [now left | intros [H|(a & [] & _)]; exact H].
  - rewrite IH. destruct (select a) as [y|] eqn:E.
    + rewrite add_In. split.
      * intros [[H| ->]|(b & Hb & Eb)]; eauto.
      * intros [H|(b & [<-|Hb] & Eb)]; eauto.
        rewrite E in Eb. injection Eb as ->. now left; right.
    + split.
      * intros [H|(b & Hb & Eb)]; eauto.
      * intros [H|(b & [<-|Hb] & Eb)]; eauto. congruence.
Qed.

Lemma fold_add_NoDup {A : Type} (select : A -> option string) (l : list A)
    (s : JsSet.t) :
  NoDup s ->
  NoDup (fold_left (fun acc a => match select a with
                                 | Some y => JsSet.add acc y
                                 | None => acc
                                 end) l s).
Proof.
  revert s; induction l as [|a l IH]; intros s Hs; simpl; [exact Hs |].
  apply IH. destruct (select a); [now apply add_NoDup | exact Hs].
Qed.

End SetFacts.

(* ===================================================================== *)
(** * The analyzer *)
(* ===================================================================== *)

Section AnalyzerFacts.
Import Ast DependencyResolver Contribution.

(** A walk is a left fold of its step over the visited nodes. *)
Lemma walk_preorder {S : Type} (step : option Node -> Node -> S -> S) :
  forall node parent st,
    walk step parent node st
    = fold_left (fun acc pn => step (fst pn) (snd pn) acc)
                (preorder parent node) st.
Proof.
  fix IH 1. intros [k t cs] parent st. simpl.
  generalize (step parent (mkNode k t cs) st) as acc.
  generalize (Some (mkNode k t cs)) as p.
  induction cs as [|[f c] cs IHcs]; intros p acc; simpl; [reflexivity |].
  rewrite fold_left_app, <- IH. apply IHcs.
Qed.

Lemma fold_left_pair {A : Type} (f : JsSet.t -> A -> JsSet.t)
    (g : JsSet.t -> A -> JsSet.t) (l : list A) (u d : JsSet.t) :
  fold_left (fun st a => (f (fst st) a, g (snd st) a)) l (u, d)
  = (fold_left f l u, fold_left g l d).
Proof.
  revert u d; induction l as [|a l IH]; intros u d; simpl; [reflexivity |].
  apply IH.
Qed.

Lemma fold_left_ext {A B : Type} (f g : B -> A -> B) (l : list A) (b : B) :
  (forall acc a, f acc a = g acc a) -> fold_left f l b = fold_left g l b.
Proof.
  intros E. revert b; induction l as [|a l IH]; intros b; simpl;
    [reflexivity | now rewrite E, IH].
Qed.

Lemma extractIdentifiers_sets (sourceFile : Node) :
  extractIdentifiers sourceFile JsSet.empty JsSet.empty
  = (fold_left (fun acc pn => match usedAt pn with
                              | Some y => JsSet.add acc y
                              | None => acc
                              end) (preorder None sourceFile) [],
     fold_left (fun acc pn => match declaredAt pn with
                              | Some y => JsSet.add acc y
                              | None => acc
                              end) (preorder None sourceFile) []).
Proof.
  unfold extractIdentifiers. rewrite walk_preorder.
  rewrite <- fold_left_pair. apply fold_left_ext.
  intros [u d] [p n]. unfold extractIdentifiers_visit, usedAt, declaredAt.
  simpl. destruct (recordedAsUsed p n), (declaredBy n); reflexivity.
Qed.



End AnalyzerFacts.

Section AnalyzerTheorems.
Import Ast DependencyResolver Contribution Examples.

Lemma analyzeDependencies_sets (h : Host) (r : Resolver) (code : string)
    (filePath : option string) :
  let ctx := fst (analyzeDependencies h r code filePath) in
  let sets :=
    extractIdentifiers
      (createSourceFile h (JsString.orElse filePath "snippet.tsx") code
         (Some TSX)) JsSet.empty JsSet.empty in
  usedIdentifiers ctx = fst sets
  /\ missingIdentifiers ctx = missingOf (fst sets) (snd sets).
Proof.
  unfold analyzeDependencies.
  destruct (extractIdentifiers _ _ _) as [used declared].
  destruct (resolveImports _ _ _ _ _) as [[imports1 resolved] r1].
  now split.
Qed.




(** The identifiers the walk records as used: the text of every
    identifier node whose parent is not a property access. *)
Lemma used_characterised (sourceFile : Node) (x : string) :
  In x (fst (extractIdentifiers sourceFile JsSet.empty JsSet.empty))
  <-> exists parent node,
        In (parent, node) (preorder None sourceFile)
        /\ isKind Identifier node = true
        /\ isOpt PropertyAccessExpression parent = false
        /\ text node = x.
Proof.
  rewrite extractIdentifiers_sets. simpl fst. rewrite fold_add_In.
  unfold usedAt, recordedAsUsed. split.
  - intros [[]|([p n] & Hin & E)]. exists p, n. simpl in E.
    destruct (isKind Identifier n), (isOpt PropertyAccessExpression p);
      simpl in E; try discriminate.
    injection E as <-. auto.
  - intros (p & n & Hin & K & P & <-). right. exists (p, n).
    split; [exact Hin |]. simpl. now rewrite K, P.
Qed.




(** C6: on the fragment [a.b;] the walk records neither [b] nor the object
    [a]: the test looks at the kind of the parent, and the parent of both
    identifiers is the property access. *)
Theorem C6_member_object_not_recorded :
  usedIdentifiers
    (fst (analyzeDependencies (hostParsing memberTree) freshResolver
            memberCode None)) = [].
Proof. reflexivity. Qed.

End AnalyzerTheorems.

(* ===================================================================== *)
(** * The assembler *)
(* ===================================================================== *)

Section MapFacts.
Context {V : Type}.
Implicit Types (m : JsMap.t V) (k : string) (v : V).

Lemma get_set_same m k v : JsMap.get (JsMap.set m k v) k = Some v.
Proof.
  induction m as [|[k' v'] m IH]; simpl.
  - now rewrite String.eqb_refl.
  - destruct (String.eqb k k') eqn:E; simpl; rewrite E; [reflexivity | exact IH].
Qed.

Lemma get_set_other m k k' v :
  k <> k' -> JsMap.get (JsMap.set m k v) k' = JsMap.get m k'.
Proof.
  intros Hne. induction m as [|[k0 v0] m IH]; simpl.
  - destruct (String.eqb k' k) eqn:E; [| reflexivity].
    apply String.eqb_eq in E. congruence.
  - destruct (String.eqb k k0) eqn:E; simpl.
    + apply String.eqb_eq in E. subst k0.
      destruct (String.eqb k' k) eqn:E'; [| reflexivity].
      apply String.eqb_eq in E'. congruence.
    + now rewrite IH.
Qed.

Lemma get_keys m k : JsMap.get m k <> None <-> In k (JsMap.keys m).
Proof.
  induction m as [|[k' v'] m IH]; simpl; [tauto |].
  destruct (String.eqb k k') eqn:E.
  - apply String.eqb_eq in E. subst. split; [now left | discriminate].
  - apply String.eqb_neq in E. rewrite IH. split; [now right |].
    intros [->|H]; [contradiction | exact H].
Qed.

Lemma keys_set m k v :
  JsMap.keys (JsMap.set m k v)
  = if JsMap.has m k then JsMap.keys m else JsMap.keys m ++ [k].
Proof.
  unfold JsMap.has.
  induction m as [|[k' v'] m IH]; simpl; [reflexivity |].
  destruct (String.eqb k k') eqn:E; simpl; [reflexivity |].
  rewrite IH. now destruct (JsMap.get m k).
Qed.

Lemma keys_set_NoDup m k v :
  NoDup (JsMap.keys m) -> NoDup (JsMap.keys (JsMap.set m k v)).
Proof.
  intros Hm. rewrite keys_set. unfold JsMap.has.
  destruct (JsMap.get m k) eqn:E; [exact Hm |].
  apply NoDup_app; [exact Hm | repeat constructor; easy |].
  intros x Hx [<-|[]]. apply get_keys in Hx. contradiction.
Qed.

Lemma keys_set_incl m k v x :
  In x (JsMap.keys m) -> In x (JsMap.keys (JsMap.set m k v)).
Proof.
  rewrite keys_set. destruct (JsMap.has m k); [easy |].
  rewrite in_app_iff. now left.
Qed.

Lemma keys_set_In m k v : In k (JsMap.keys (JsMap.set m k v)).
Proof. apply get_keys. now rewrite get_set_same. Qed.

Lemma values_set_In m k v : In v (JsMap.values (JsMap.set m k v)).
Proof.
  induction m as [|[k' v'] m IH]; simpl; [now left |].
  destruct (String.eqb k k'); simpl; [now left | now right].
Qed.

Lemma count_once (l : list string) (x : string) :
  NoDup l -> In x l -> count_occ string_dec l x = 1.
Proof.
  intros Hnd Hin. apply (proj1 (NoDup_count_occ string_dec l)) with (x := x) in Hnd.
  apply (count_occ_In string_dec) in Hin. lia.
Qed.

End MapFacts.

Section MergeFacts.
Import DependencyResolver SmartCompiler Contribution.

Lemma find_append {A : Type} (f : A -> bool) (l1 l2 : list A) :
  find f (l1 ++ l2)
  = match find f l1 with Some x => Some x | None => find f l2 end.
Proof.
  induction l1 as [|a l1 IH]; simpl; [reflexivity |].
  now destruct (f a).
Qed.

Lemma store_all_NoDup (sources : list ImportInfo) (m : JsMap.t ImportInfo) :
  NoDup (JsMap.keys m) -> NoDup (JsMap.keys (fold_left store sources m)).
Proof.
  revert m; induction sources as [|imp sources IH]; intros m Hm; simpl;
    [exact Hm |].
  apply IH, keys_set_NoDup, Hm.
Qed.

Lemma store_all_keeps (sources : list ImportInfo) (m : JsMap.t ImportInfo)
    (k : string) :
  In k (JsMap.keys m) -> In k (JsMap.keys (fold_left store sources m)).
Proof.
  revert m; induction sources as [|imp sources IH]; intros m Hk; simpl;
    [exact Hk |].
  apply IH, keys_set_incl, Hk.
Qed.

Lemma store_all_covers (sources : list ImportInfo) (m : JsMap.t ImportInfo)
    (imp : ImportInfo) :
  In imp sources ->
  In (importKey imp) (JsMap.keys (fold_left store sources m)).
Proof.
  revert m; induction sources as [|imp' sources IH]; intros m Hin; simpl;
    [destruct Hin |].
  destruct Hin as [->|Hin]; [| now apply IH].
  apply store_all_keeps, keys_set_In.
Qed.

Lemma store_all_get (sources : list ImportInfo) (m : JsMap.t ImportInfo)
    (k : string) :
  JsMap.get (fold_left store sources m) k
  = match lastWithKey k sources with
    | Some imp => Some imp
    | None => JsMap.get m k
    end.
Proof.
  revert m; induction sources as [|imp sources IH]; intros m; simpl;
    [reflexivity |].
  rewrite IH. unfold lastWithKey. simpl rev. rewrite find_append.
  destruct (find _ (rev sources)) as [later|]; [reflexivity |].
  simpl. unfold store at 1.
  destruct (String.eqb (importKey imp) k) eqn:E.
  - apply String.eqb_eq in E. subst k. apply get_set_same.
  - apply String.eqb_neq in E. now apply get_set_other.
Qed.

Lemma mergeImports_keys_NoDup (sources : list ImportInfo) :
  NoDup (JsMap.keys (mergeImports sources)).
Proof. apply store_all_NoDup. constructor. Qed.

Lemma mergeImports_covers (sources : list ImportInfo) (imp : ImportInfo) :
  In imp sources -> In (importKey imp) (JsMap.keys (mergeImports sources)).
Proof. apply store_all_covers. Qed.

Lemma mergeImports_get (sources : list ImportInfo) (k : string) :
  JsMap.get (mergeImports sources) k = lastWithKey k sources.
Proof.
  unfold mergeImports. fold store. rewrite store_all_get.
  now destruct (lastWithKey k sources).
Qed.

(** Storing an import whose key is already stored adds no entry. *)
Lemma mergeImports_again (sources : list ImportInfo) (imp : ImportInfo) :
  In imp sources ->
  JsMap.keys (mergeImports (sources ++ [imp]))
  = JsMap.keys (mergeImports sources).
Proof.
  intros Hin. unfold mergeImports. rewrite fold_left_app. simpl.
  rewrite keys_set. unfold JsMap.has.
  pose proof (mergeImports_covers sources imp Hin) as Hk.
  apply get_keys in Hk. unfold mergeImports in Hk.
  now destruct (JsMap.get _ (importKey imp)).
Qed.

Lemma ensureReact_keys_NoDup (m : JsMap.t ImportInfo) :
  NoDup (JsMap.keys m) -> NoDup (JsMap.keys (ensureReact m)).
Proof.
  intros Hm. unfold ensureReact.
  destruct (existsb isReactDefault (JsMap.values m)); [exact Hm |].
  now apply keys_set_NoDup.
Qed.

Lemma ensureReact_keeps (m : JsMap.t ImportInfo) (k : string) :
  In k (JsMap.keys m) -> In k (JsMap.keys (ensureReact m)).
Proof.
  intros Hk. unfold ensureReact.
  destruct (existsb isReactDefault (JsMap.values m)); [exact Hk |].
  now apply keys_set_incl.
Qed.

Lemma ensureReact_has_react (m : JsMap.t ImportInfo) :
  exists imp, In imp (JsMap.values (ensureReact m))
              /\ isReactDefault imp = true.
Proof.
  unfold ensureReact.
  destruct (existsb isReactDefault (JsMap.values m)) eqn:E.
  - apply existsb_exists in E. exact E.
  - exists reactImport. split; [apply values_set_In | reflexivity].
Qed.

End MergeFacts.

Section PatternFacts.
Import SmartCompiler Contribution.
Local Open Scope string_scope.

Lemma lit_append (p s : string) : lit p (p ++ s) = Some s.
Proof.
  induction p as [|c p IH]; [reflexivity |].
  rewrite append_cons. simpl. now rewrite Ascii.eqb_refl.
Qed.

Lemma word_is_not_space (c : ascii) : isWord c = true -> isSpace c = false.
Proof. destruct c as [[] [] [] [] [] [] [] []]; vm_compute; congruence. Qed.

Lemma takeWord_append (w rest : string) :
  wordOnly w = true -> startsWithWord rest = false ->
  takeWord (w ++ rest) = w.
Proof.
  intros Hw Hrest. induction w as [|c w IH].
  - rewrite append_empty_l. destruct rest as [|d rest]; [reflexivity |].
    simpl in *. now rewrite Hrest.
  - rewrite append_cons. simpl in *. apply andb_true_iff in Hw as [Hc Hw].
    now rewrite Hc, IH.
Qed.

Lemma componentMatch_here (code w : string) :
  patternAt code = Some w -> componentMatch code = Some w.
Proof.
  intros H.
  assert (E : componentMatch code
              = orTry (patternAt code)
                  match code with
                  | String _ rest => componentMatch rest
                  | EmptyString => None
                  end) by now destruct code.
  now rewrite E, H.
Qed.

(** The pattern on a fragment that starts with a function declaration:
    the capture is the declared name. *)
Lemma componentMatch_function (c : ascii) (w rest : string) :
  wordOnly (String c w) = true -> startsWithWord rest = false ->
  componentMatch ("function " ++ String c w ++ rest) = Some (String c w).
Proof.
  intros Hw Hrest. apply componentMatch_here.
  assert (Hc : isWord c = true) by (simpl in Hw; now apply andb_true_iff in Hw).
  unfold patternAt, defaultAt, declarationAt.
  change (lit "export" ("function " ++ String c w ++ rest)) with (@None string).
  change (lit "default" ("function " ++ String c w ++ rest)) with (@None string).
  change ("function " ++ String c w ++ rest)
    with ("function" ++ String " " (String c w ++ rest)).
  rewrite lit_append. simpl orTry. simpl andThen.
  rewrite (word_is_not_space c Hc).
  rewrite <- append_cons, (takeWord_append (String c w) rest Hw Hrest).
  reflexivity.
Qed.

Example componentMatch_export_default_class :
  componentMatch "export default class Card extends Base {}" = Some "Card".
Proof. reflexivity. Qed.

Example componentMatch_const_arrow :
  componentMatch "// a button
const Button = () => null;" = Some "Button".
Proof. reflexivity. Qed.

Example componentMatch_nothing_declared :
  componentMatch "let x = 1; x + 1" = None.
Proof. reflexivity. Qed.

End PatternFacts.

Section AssemblerTheorems.
Import DependencyResolver SmartCompiler Contribution.
Local Open Scope string_scope.

Variable MockProps : Type.
Variable JSON_stringify : MockProps -> string.

Abbreviation Options := (FullCodeOptions MockProps).
Abbreviation fullCode := (generateFullCode MockProps JSON_stringify).

Lemma fullCode_includes_statement (o : Options) (statement : string) :
  In statement (importStatements MockProps o) ->
  JsString.includes (fullCode o) statement = true.
Proof.
  intros Hin. unfold generateFullCode.
  apply includes_trans with (t := JsString.join nl (importStatements MockProps o)).
  - apply includes_join. simpl. auto.
  - now apply includes_join.
Qed.

Lemma fullCode_includes_component (o : Options) :
  JsString.includes (fullCode o) (componentCode MockProps JSON_stringify o)
  = true.
Proof. unfold generateFullCode. apply includes_join. simpl. auto 6. Qed.

(** C3, as the code has it: the imports of the three sources are stored
    under the key [module:names], the names in the order written; a later
    import replaces the entry stored under its key; so the keys of the
    emitted entries are distinct, the key of every supplied import occurs
    exactly once among them, and supplying an import once more adds no
    entry. *)
Theorem C3_one_entry_per_written_key (o : Options) :
  let sources :=
    (existingImports MockProps o ++ suggestedImports MockProps o
     ++ fc_additionalImports MockProps o)%list in
  NoDup (JsMap.keys (allImports MockProps o))
  /\ (forall k, JsMap.get (mergeImports sources) k = lastWithKey k sources)
  /\ Forall (fun imp =>
               count_occ string_dec (JsMap.keys (allImports MockProps o))
                         (importKey imp) = 1
               /\ JsMap.keys (mergeImports (sources ++ [imp]))
                  = JsMap.keys (mergeImports sources))
            sources.
Proof.
  intros sources.
  assert (Hnd : NoDup (JsMap.keys (allImports MockProps o)))
    by apply ensureReact_keys_NoDup, mergeImports_keys_NoDup.
  split; [exact Hnd |]. split; [apply mergeImports_get |].
  apply Forall_forall. intros imp Hin. split.
  - apply count_once; [exact Hnd |].
    apply ensureReact_keeps, mergeImports_covers, Hin.
  - now apply mergeImports_again.
Qed.

(** The statement of an import of [react] whose default specifiers are
    all named [React] (an import statement has at most one). *)
Lemma react_statement_text (imp : ImportInfo) :
  isReactDefault imp = true ->
  (forall s, In s (specifiers imp) -> isDefault s = true -> name s = "React") ->
  exists tail,
    generateImportStatement imp = "import React" ++ tail ++ " from 'react';".
Proof.
  intros Hreact Hone. unfold isReactDefault in Hreact.
  apply andb_true_iff in Hreact as [Hm Hs]. apply String.eqb_eq in Hm.
  apply existsb_exists in Hs as (s & Hin & Hd).
  apply andb_true_iff in Hd as [Hd _].
  unfold generateImportStatement. rewrite Hm.
  destruct (find isDefault (specifiers imp)) as [d|] eqn:F.
  - apply find_some in F as [Hdin Hdd]. rewrite (Hone d Hdin Hdd).
    eexists. rewrite append_assoc. reflexivity.
  - rewrite (find_none _ _ F s Hin) in Hd. discriminate.
Qed.

(** C8: the emitted imports always hold an import of the module [react]
    with a default specifier named [React], and its statement is part of
    the output; when no merged import is one, the statement
    [import React from 'react';] is emitted; and the statement of such an
    import reads [import React ... from 'react';]. *)
Theorem C8_react_default_import_present (o : Options) :
  (exists imp,
      In imp (JsMap.values (allImports MockProps o))
      /\ module imp = "react"
      /\ (exists s, In s (specifiers imp)
                    /\ isDefault s = true /\ name s = "React")
      /\ JsString.includes (fullCode o) (generateImportStatement imp) = true
      /\ ((forall s, In s (specifiers imp) -> isDefault s = true ->
                      name s = "React") ->
          exists tail,
            generateImportStatement imp
            = "import React" ++ tail ++ " from 'react';"))
  /\ (existsb isReactDefault
        (JsMap.values
           (mergeImports
              (existingImports MockProps o ++ suggestedImports MockProps o
               ++ fc_additionalImports MockProps o))) = true
      \/ JsString.includes (fullCode o) "import React from 'react';" = true).
Proof.
  split.
  - destruct (ensureReact_has_react
                (mergeImports
                   (existingImports MockProps o ++ suggestedImports MockProps o
                    ++ fc_additionalImports MockProps o)))
      as (imp & Hin & Hreact).
    exists imp. split; [exact Hin |].
    pose proof (react_statement_text imp Hreact) as Htext.
    unfold isReactDefault in Hreact.
    apply andb_true_iff in Hreact as [Hm Hs].
    apply String.eqb_eq in Hm. apply existsb_exists in Hs as (s & Hs & Hd).
    apply andb_true_iff in Hd as [Hd Hn]. apply String.eqb_eq in Hn.
    split; [exact Hm |]. split; [now exists s |]. split; [| exact Htext].
    apply fullCode_includes_statement. unfold importStatements.
    now apply in_map.
  - destruct (existsb isReactDefault _) eqn:E; [now left | right].
    apply fullCode_includes_statement.
    unfold importStatements, allImports, ensureReact. rewrite E.
    change "import React from 'react';"
      with (generateImportStatement reactImport).
    apply in_map, values_set_In.
Qed.

(** C4, as the code has it: a fragment whose text contains
    [export default] or [export {] is passed through as it is, whatever
    [mockProps] and [wrapComponent] are. *)
Theorem C4_literal_export_passes_through (code : string) :
  hasExport code = true ->
  (forall mockProps,
      wrapComponentCode MockProps JSON_stringify code mockProps = code)
  /\ (forall o : Options,
         fc_code MockProps o = code ->
         fullCode o
         = JsString.join nl
             [ ""; JsString.join nl (importStatements MockProps o); "";
               code; "" ]).
Proof.
  intros Hexport.
  assert (Hwrap : forall mockProps,
             wrapComponentCode MockProps JSON_stringify code mockProps = code).
  { intros mockProps. unfold wrapComponentCode. now rewrite Hexport. }
  split; [exact Hwrap |].
  intros o <-. unfold generateFullCode, componentCode.
  destruct (fc_wrapComponent MockProps o) as [[|]|]; now rewrite ?Hwrap.
Qed.

(** C9, as the code has it: for a fragment whose text contains neither
    [export default] nor [export {], assembled with [wrapComponent] not
    [false], the output holds the preview wrapper, and the wrapper renders
    the name the pattern captures, or [Component] when it captures none. *)
Theorem C9_wrapper_renders_detected_name (o : Options) :
  hasExport (fc_code MockProps o) = false ->
  fc_wrapComponent MockProps o <> Some false ->
  JsString.includes (fullCode o)
    "export default function PreviewWrapper() {" = true
  /\ JsString.includes (fullCode o)
       ("    return <"
        ++ match componentMatch (fc_code MockProps o) with
           | Some detected => detected
           | None => "Component"
           end
        ++ " {...mockProps} />;") = true.
Proof.
  intros Hexport Hwrap.
  assert (Hcc : componentCode MockProps JSON_stringify o
                = wrapper (fc_code MockProps o)
                    match fc_mockProps MockProps o with
                    | Some props => JSON_stringify props
                    | None => "{}"
                    end
                    match componentMatch (fc_code MockProps o) with
                    | Some detected => detected
                    | None => "Component"
                    end).
  { unfold componentCode, wrapComponentCode. rewrite Hexport.
    destruct (fc_wrapComponent MockProps o) as [[|]|]; congruence. }
  pose proof (fullCode_includes_component o) as Hin. rewrite Hcc in Hin.
  split; (eapply includes_trans; [exact Hin |]);
    unfold wrapper; apply includes_join; simpl; auto 12.
Qed.

End AssemblerTheorems.

Section AssemblerExamples.
Import DependencyResolver SmartCompiler Contribution Examples.
Local Open Scope string_scope.

(** C3 fails as stated: two imports of one module with the same names in
    another order share the sorted key of the specification and are both
    emitted; and an import of a later source replaces the stored import
    that has its key. *)
Lemma C3_sorted_key_counterexample :
  ~ NoDup
      (map Spec.sortedKey
         (JsMap.values
            (allImports unit
               (options "" [importNamed "m" ["a"; "b"]]
                        [importNamed "m" ["b"; "a"]] None))))
  /\ importStatements unit
       (options "" [importNamed "m" ["a"; "b"]] [importNamed "m" ["b"; "a"]]
                None)
     = [ "import { a, b } from 'm';"; "import { b, a } from 'm';";
         "import React from 'react';" ]
  /\ importStatements unit
       (options "" [importNamed "lib" ["x"]] [importAliased "lib" "x" "y"]
                None)
     = [ "import { x as y } from 'lib';"; "import React from 'react';" ].
Proof.
  split; [| split; reflexivity].
  intros H. vm_compute in H. apply NoDup_cons_iff in H as [Hfresh _].
  apply Hfresh. now left.
Qed.

Lemma C3_one_entry_per_written_key_witness :
  JsMap.keys
    (allImports unit
       (options "" [importNamed "m" ["a"; "b"]] [importNamed "m" ["a"; "b"]]
                None))
  = [ "m:a,b"; "react:React" ]
  /\ NoDup
       (JsMap.keys
          (allImports unit
             (options "" [importNamed "m" ["a"; "b"]]
                      [importNamed "m" ["a"; "b"]] None))).
Proof.
  split; [reflexivity |].
  exact (proj1 (C3_one_entry_per_written_key unit
                  (options "" [importNamed "m" ["a"; "b"]]
                           [importNamed "m" ["a"; "b"]] None))).
Defined.

(** A fragment that imports a hook from [react] gets the default import
    of [React] as a statement of its own. *)
Lemma C8_react_default_import_present_witness :
  JsString.includes
    (generateFullCode unit noProps
       (options bareCode [importNamed "react" ["useState"]] [] None))
    "import React from 'react';" = true.
Proof.
  destruct (proj2 (C8_react_default_import_present unit noProps
                     (options bareCode [importNamed "react" ["useState"]] []
                              None))) as [H|H].
  - discriminate H.
  - exact H.
Defined.

(** C4 fails as stated: a fragment with a named export is wrapped. *)
Lemma C4_named_export_counterexample :
  JsString.includes namedExportCode "export function Foo" = true
  /\ wrapComponentCode unit noProps namedExportCode None <> namedExportCode
  /\ JsString.includes
       (generateFullCode unit noProps (options namedExportCode [] [] None))
       "// Auto-generated preview wrapper" = true.
Proof.
  split; [reflexivity |]. split; [| reflexivity].
  intros H. vm_compute in H. discriminate H.
Qed.

Lemma C4_literal_export_witness :
  hasExport defaultExportCode = true
  /\ wrapComponentCode unit noProps defaultExportCode (Some tt)
     = defaultExportCode.
Proof.
  split; [reflexivity |].
  exact (proj1 (C4_literal_export_passes_through unit noProps
                  defaultExportCode eq_refl) (Some tt)).
Defined.

(** With [wrapComponent] set to [false] a fragment is emitted as it is,
    whatever it exports. *)
Example unwrapped_fragment_is_emitted_bare :
  generateFullCode unit noProps (options bareCode [] [] (Some false))
  = JsString.join nl [ ""; "import React from 'react';"; ""; bareCode; "" ].
Proof. reflexivity. Qed.

(** C9 fails as stated: the fragment
    [function Foo() { return null; } // export default] has zero exports
    and the pattern captures [Foo] from it, yet, assembled with wrapping
    on, it is emitted as it is: the output has no wrapper and renders no
    [Foo], because the text of the comment holds [export default]. *)
Lemma C9_export_in_comment_counterexample :
  Spec.exportsNothing commentedTree = true
  /\ componentMatch commentedCode = Some "Foo"
  /\ generateFullCode unit noProps (options commentedCode [] [] (Some true))
     = JsString.join nl
         [ ""; "import React from 'react';"; ""; commentedCode; "" ]
  /\ JsString.includes
       (generateFullCode unit noProps
          (options commentedCode [] [] (Some true)))
       "PreviewWrapper" = false
  /\ JsString.includes
       (generateFullCode unit noProps
          (options commentedCode [] [] (Some true)))
       "<Foo" = false.
Proof. repeat split. Qed.

Lemma C9_wrapper_renders_detected_name_witness :
  hasExport bareCode = false
  /\ fc_wrapComponent unit (options bareCode [] [] None) <> Some false
  /\ JsString.includes
       (generateFullCode unit noProps (options bareCode [] [] None))
       "    return <Foo {...mockProps} />;" = true.
Proof.
  split; [reflexivity |]. split; [discriminate |].
  exact (proj2 (C9_wrapper_renders_detected_name unit noProps
                  (options bareCode [] [] None) eq_refl
                  (fun H => eq_ind None
                              (fun w => match w with
                                        | None => True
                                        | Some _ => False
                                        end) I _ H))).
Defined.

End AssemblerExamples.

(* ===================================================================== *)
(** * The module resolver *)
(* ===================================================================== *)

Section ResolverFacts.
Import DependencyResolver Contribution.

Implicit Types (h : Host) (r : Resolver) (m : string) (f : option string).

Lemma withCache_same r : withCache r (moduleResolutionCache r) = r.
Proof. now destruct r. Qed.

(** A cached key answers from the cache alone. *)
Lemma resolveModulePath_hit h r m f cached :
  moduleResolutionCache r !! cacheKey m f = Some cached ->
  resolveModulePath h r m f
  = ((if JsString.truthy cached then Some cached else None), r).
Proof. intros Hc. unfold resolveModulePath. now rewrite Hc. Qed.

(** Every call either fails and leaves the resolver as it was, or answers
    [p] and leaves [p] stored under the key. *)
Lemma resolveModulePath_outcome h r m f :
  match fst (resolveModulePath h r m f) with
  | None => snd (resolveModulePath h r m f) = r
  | Some p =>
      snd (resolveModulePath h r m f)
      = withCache r (<[cacheKey m f := p]> (moduleResolutionCache r))
  end.
Proof.
  unfold resolveModulePath.
  destruct (moduleResolutionCache r !! cacheKey m f) as [cached|] eqn:Hc.
  - destruct (JsString.truthy cached); simpl; [| reflexivity].
    now rewrite (insert_id _ _ _ Hc), withCache_same.
  - destruct (tsProgram r);
      [destruct (ts_resolveModuleName h m _) |];
      try destruct (require_resolve h m _); reflexivity.
Qed.

Lemma resolveModulePath_miss_node h r m f :
  moduleResolutionCache r !! cacheKey m f = None ->
  tsProgram r = false
  \/ ts_resolveModuleName h m
       (JsString.orElse f (path_join h (projectRoot r) "index.ts"))
     = TsUnresolved ->
  resolveModulePath h r m f
  = match require_resolve h m (resolveFrom h r f) with
    | Some p =>
        (Some p, withCache r (<[cacheKey m f := p]> (moduleResolutionCache r)))
    | None => (None, r)
    end.
Proof.
  intros Hc Hts. unfold resolveModulePath, resolveFrom. rewrite Hc.
  destruct (tsProgram r); [| reflexivity].
  destruct Hts as [Hts|Hts]; [discriminate | now rewrite Hts].
Qed.

End ResolverFacts.

Section ResolverTheorems.
Import DependencyResolver SmartCompiler Contribution Examples.
Local Open Scope string_scope.

Lemma resolveImports_keeps (h : Host) (filePath : option string)
    (todo : list ImportInfo) :
  forall r resolved,
    map module (fst (fst (resolveImports h filePath todo r resolved)))
    = map module todo
    /\ map specifiers (fst (fst (resolveImports h filePath todo r resolved)))
       = map specifiers todo.
Proof.
  induction todo as [|imp todo IH]; intros r resolved; simpl; [now split |].
  destruct (resolveModulePath h r (module imp) filePath) as [found r1].
  destruct found as [p|]; [destruct (JsString.truthy p) |];
    match goal with
    | |- context [resolveImports h filePath todo ?r' ?res'] =>
        destruct (IH r' res') as [Hm Hs];
        destruct (resolveImports h filePath todo r' res') as [[rest1 res2] r2]
    end; simpl in *; now rewrite Hm, Hs.
Qed.

Lemma analyzeDependencies_imports (h : Host) (r : Resolver) (code : string)
    (filePath : option string) :
  let found :=
    extractImports
      (createSourceFile h (JsString.orElse filePath "snippet.tsx") code
         (Some TSX)) in
  map module (imports (fst (analyzeDependencies h r code filePath)))
  = map module found
  /\ map specifiers (imports (fst (analyzeDependencies h r code filePath)))
     = map specifiers found.
Proof.
  intros found. unfold analyzeDependencies. fold found.
  destruct (extractIdentifiers _ _ _) as [used declared].
  pose proof (resolveImports_keeps h filePath found r ∅) as H.
  destruct (resolveImports h filePath found r ∅) as [[imports1 resolved] r1].
  exact H.
Qed.

(** C10: a call that fails leaves the resolver as it was, and a call that
    answers [p] leaves [p] stored under its key and nothing else changed;
    so after a failure on a key that is not cached the next call asks the
    resolvers again, and succeeds when they do; a cached path is answered
    whatever the resolvers would say; and every entry of the cache after a
    call was there before or is the answer of the call. *)
Theorem C10_only_successes_are_cached :
  (forall h r m f,
      match fst (resolveModulePath h r m f) with
      | None => snd (resolveModulePath h r m f) = r
      | Some p =>
          snd (resolveModulePath h r m f)
          = withCache r (<[cacheKey m f := p]> (moduleResolutionCache r))
      end)
  /\ (forall h r m f,
         fst (resolveModulePath h r m f) = None ->
         moduleResolutionCache r !! cacheKey m f = None ->
         forall h' p,
           tsProgram r = false ->
           require_resolve h' m (resolveFrom h' r f) = Some p ->
           fst (resolveModulePath h' (snd (resolveModulePath h r m f)) m f)
           = Some p)
  /\ (forall r m f cached,
         moduleResolutionCache r !! cacheKey m f = Some cached ->
         JsString.truthy cached = true ->
         forall h, resolveModulePath h r m f = (Some cached, r))
  /\ (forall h r m f k v,
         moduleResolutionCache (snd (resolveModulePath h r m f)) !! k = Some v ->
         moduleResolutionCache r !! k = Some v
         \/ (k = cacheKey m f /\ fst (resolveModulePath h r m f) = Some v)).
Proof.
  split; [| split; [| split]]; cycle 3.
  { intros h r m f k v.
    pose proof (resolveModulePath_outcome h r m f) as Hout.
    destruct (fst (resolveModulePath h r m f)) as [p|]; rewrite Hout.
    - simpl. destruct (decide (cacheKey m f = k)) as [<-|Hne].
      + rewrite lookup_insert_eq. intros E. injection E as <-. now right.
      + rewrite lookup_insert_ne by exact Hne. now left.
    - now left. }
  - apply resolveModulePath_outcome.
  - intros h r m f Hfail Hc h' p Hts Hnode.
    pose proof (resolveModulePath_outcome h r m f) as Hout.
    rewrite Hfail in Hout. rewrite Hout.
    rewrite (resolveModulePath_miss_node h' r m f Hc (or_introl Hts)).
    now rewrite Hnode.
  - intros r m f cached Hc Ht h.
    rewrite (resolveModulePath_hit h r m f cached Hc). now rewrite Ht.
Qed.

End ResolverTheorems.

Section ResolverExamples.
Import DependencyResolver SmartCompiler Contribution Examples.
Local Open Scope string_scope.

(** A failed resolution of [lodash] is followed by a successful one as
    soon as Node finds the package. *)
Lemma C10_only_successes_are_cached_witness :
  fst (resolveModulePath (hostParsing unknownTree) freshResolver "lodash" None)
  = None
  /\ fst (resolveModulePath (hostResolving "lodash" lodashPath)
            (snd (resolveModulePath (hostParsing unknownTree) freshResolver
                    "lodash" None))
            "lodash" None)
     = Some lodashPath.
Proof.
  split; [reflexivity |].
  exact (proj1 (proj2 C10_only_successes_are_cached)
           (hostParsing unknownTree) freshResolver "lodash" None
           eq_refl eq_refl (hostResolving "lodash" lodashPath) lodashPath
           eq_refl eq_refl).
Defined.

End ResolverExamples.

(* ===================================================================== *)
(** * The [compile] boundary *)
(* ===================================================================== *)

Section CompileTheorems.
Import DependencyResolver SmartCompiler Contribution Outcome.
Local Open Scope string_scope.

Variable MockProps : Type.
Variable JSON_stringify : MockProps -> string.
Variable JSON_stringify_throws : MockProps -> option Exn.
Variable esbuild_build : BuildOptions -> Result BuildResult.

Abbreviation steps :=
  (compileSteps MockProps JSON_stringify JSON_stringify_throws esbuild_build).
Abbreviation compiled :=
  (compile MockProps JSON_stringify JSON_stringify_throws esbuild_build).

(** What the [catch] clause returns. *)
Lemma compile_catches (h : Host) (r : Resolver) (codeContext : CodeContext)
    (options : SmartCompileOptions MockProps) :
  let analysed :=
    analyzeDependencies h r (code MockProps options)
                        (filePath MockProps options) in
  compiled h r codeContext options
  = match steps h (snd analysed) codeContext options (fst analysed) with
    | Ok result => (result, snd analysed)
    | Throw e =>
        ({| success := false; result_code := None;
            error := Some (errorMessage e); result_warnings := None |},
         snd analysed)
    end.
Proof.
  unfold compile.
  destruct (analyzeDependencies _ _ _ _) as [depContext r1]. simpl.
  now destruct (steps h r1 codeContext options depContext).
Qed.

(** A result the steps return carries what its [success] flag promises. *)
Lemma compileSteps_result (h : Host) (r : Resolver)
    (codeContext : CodeContext) (options : SmartCompileOptions MockProps)
    (depContext : DependencyContext) (result : CompilationResult) :
  steps h r codeContext options depContext = Ok result ->
  (success result = true /\ exists text, result_code result = Some text)
  \/ (success result = false /\ exists message, error result = Some message).
Proof.
  unfold compileSteps, mbind, Result_bind, mret, Result_ret.
  destruct (inferImports h r codeContext depContext) as [suggested|e];
    [| discriminate].
  destruct (generateFullCodeOrThrow _ _ _ _) as [fullCode|e];
    [| discriminate].
  destruct (esbuild_build _) as [built|e]; [| discriminate].
  destruct (Nat.ltb 0 (length (errors built))).
  - intros E. injection E as <-. right. simpl. eauto.
  - destruct (firstOutputText built) as [text|e]; [| discriminate].
    intros E. injection E as <-. left. simpl. eauto.
Qed.

(** The outcome of the steps, cause by cause. *)
Lemma compileSteps_cases (h : Host) (r : Resolver)
    (codeContext : CodeContext) (options : SmartCompileOptions MockProps)
    (depContext : DependencyContext) :
  steps h r codeContext options depContext
  = match inferImports h r codeContext depContext with
    | Throw e => Throw e
    | Ok suggested =>
        let o := fullCodeOptions MockProps options depContext suggested in
        match generateFullCodeOrThrow MockProps JSON_stringify
                JSON_stringify_throws o with
        | Throw e => Throw e
        | Ok fullCode =>
            match esbuild_build
                    (buildOptions MockProps h r options depContext fullCode)
            with
            | Throw e => Throw e
            | Ok build =>
                match errors build with
                | _ :: _ =>
                    Ok (failure (JsString.join nl
                                   (map msg_text (errors build))))
                | [] =>
                    match firstOutputText build with
                    | Ok text =>
                        Ok (built text (map msg_text (warnings build)))
                    | Throw e => Throw e
                    end
                end
            end
        end
    end.
Proof.
  unfold compileSteps, mbind, Result_bind, mret, Result_ret.
  destruct (inferImports h r codeContext depContext) as [suggested|e];
    [| reflexivity].
  cbv zeta.
  destruct (generateFullCodeOrThrow _ _ _ _) as [fullCode|e];
    [| reflexivity].
  destruct (esbuild_build _) as [build|e]; [| reflexivity].
  destruct (errors build) as [|m ms]; [| reflexivity].
  simpl. now destruct (firstOutputText build).
Qed.

End CompileTheorems.

Section CompileBoundary.
Import DependencyResolver SmartCompiler Contribution Outcome.
Local Open Scope string_scope.

Variable MockProps : Type.
Variable JSON_stringify : MockProps -> string.
Variable JSON_stringify_throws : MockProps -> option Exn.
Variable esbuild_build : BuildOptions -> Result BuildResult.
Variable jsx_esbuild_build :
  JSXCompiler.BuildOptions -> Result BuildResult.
Variable process_cwd : string.


End CompileBoundary.

Section CompileExamples.
Import DependencyResolver SmartCompiler Contribution Examples.
Local Open Scope string_scope.


(** A build that throws is reported, not thrown. *)
Example compile_reports_a_thrown_build :
  fst (compile unit noProps serialisable failingBuild (hostParsing counterTree)
         freshResolver emptyProject counterOptions)
  = {| success := false; result_code := None;
       error := Some "Build failed with 1 error"; result_warnings := None |}.
Proof. reflexivity. Qed.

(** C2: on the fragment of the second example the code reports the
    imported [useState] as missing, infers an import of it from [react],
    and assembles three import statements where the fragment has one. *)
Theorem C2_imported_name_is_reported_missing :
  missingIdentifiers
    (fst (analyzeDependencies (hostParsing counterTree) freshResolver
            counterCode None))
  = ["useState"]
  /\ inferImports (hostParsing counterTree) freshResolver emptyProject
       (fst (analyzeDependencies (hostParsing counterTree) freshResolver
               counterCode None))
     = Ok [importNamed "react" ["useState"]]
  /\ result_code
       (fst (compile unit noProps serialisable echoBuild (hostParsing counterTree)
               freshResolver emptyProject counterOptions))
     = Some (JsString.join nl
               [ "";
                 "import { useState } from 'state-lib';";
                 "import { useState } from 'react';";
                 "import React from 'react';";
                 "";
                 counterCode;
                 "" ]).
Proof. repeat split. Qed.

End CompileExamples.

(* ===================================================================== *)
(** * More of the analyzer *)
(* ===================================================================== *)

Section ImportExtraction.
Import Ast DependencyResolver SmartCompiler Contribution Reading Examples.

Lemma fold_collect {A B : Type} (f : A -> list B) (l : list A) (acc : list B) :
  fold_left (fun acc a => acc ++ f a) l acc = acc ++ flat_map f l.
Proof.
  revert acc; induction l as [|a l IH]; intros acc; simpl.
  - now rewrite app_nil_r.
  - now rewrite IH, app_assoc.
Qed.

(** The imports of a tree are those of its import declarations, at any
    depth, in document order. *)
Lemma extractImports_preorder (tree : Node) :
  extractImports tree = flat_map importsAt (preorder None tree).
Proof.
  unfold extractImports. rewrite walk_preorder.
  rewrite (fold_left_ext _ (fun acc pn => acc ++ importsAt pn)).
  - now rewrite fold_collect.
  - intros acc [p n]. unfold extractImports_visit, importsAt. simpl.
    destruct (importOf n); [reflexivity | now rewrite app_nil_r].
Qed.

Lemma defaultSpecifier_shape (clause : Node) :
  defaultSpecifier clause = []
  \/ exists n, defaultSpecifier clause
               = [ {| name := n; alias := None;
                      isDefault := true; isNamespace := false |} ].
Proof.
  unfold defaultSpecifier. destruct (field f_name clause); eauto.
Qed.

Lemma bindingSpecifiers_shape (clause : Node) :
  (exists n, bindingSpecifiers clause
             = [ {| name := n; alias := None;
                    isDefault := false; isNamespace := true |} ])
  \/ Forall (fun s => isDefault s = false /\ isNamespace s = false)
            (bindingSpecifiers clause).
Proof.
  unfold bindingSpecifiers.
  destruct (field f_namedBindings clause) as [nb|]; [| now right].
  destruct (isKind NamespaceImport nb); [left; eauto | right].
  destruct (isKind NamedImports nb); [| constructor].
  apply Forall_forall. intros s Hs. apply in_map_iff in Hs as (e & <- & _).
  now split.
Qed.

Lemma filter_nothing {A : Type} (p : A -> bool) (l : list A) :
  Forall (fun x => p x = false) l -> List.filter p l = [].
Proof.
  induction 1 as [|x l Hx _ IH]; simpl; [reflexivity | now rewrite Hx].
Qed.

Lemma existsb_nothing {A : Type} (p : A -> bool) (l : list A) :
  Forall (fun x => p x = false) l -> existsb p l = false.
Proof.
  induction 1 as [|x l Hx _ IH]; simpl; [reflexivity | now rewrite Hx].
Qed.

(** The shape of the specifier list of an extracted import: nothing, a
    namespace specifier or named specifiers, after at most one default
    specifier. *)
Lemma importOf_specifiers (node : Node) (imp : ImportInfo) :
  importOf node = Some imp ->
  exists first rest,
    specifiers imp = first ++ rest
    /\ (first = []
        \/ exists n, first = [ {| name := n; alias := None;
                                  isDefault := true; isNamespace := false |} ])
    /\ ((exists n, rest = [ {| name := n; alias := None;
                               isDefault := false; isNamespace := true |} ])
        \/ Forall (fun s => isDefault s = false /\ isNamespace s = false) rest).
Proof.
  unfold importOf.
  destruct (isKind ImportDeclaration node); [| discriminate].
  destruct (field f_moduleSpecifier node) as [ms|]; [| discriminate].
  destruct (isKind StringLiteral ms); [| discriminate].
  intros E. injection E as <-. simpl.
  destruct (field f_importClause node) as [clause|].
  - exists (defaultSpecifier clause), (bindingSpecifiers clause).
    split; [reflexivity |].
    split; [apply defaultSpecifier_shape | apply bindingSpecifiers_shape].
  - exists [], []. split; [reflexivity |]. split; [now left | right; constructor].
Qed.

(** Every import the analysis extracts is relative exactly when its module
    starts with a dot or a slash, carries no resolved path yet, has at most
    one default specifier, which then comes first, and at most one
    namespace specifier, which then excludes named ones; no specifier is
    both, and only named specifiers carry an alias. *)
Theorem extractImports_well_formed (tree : Node) (imp : ImportInfo) :
  In imp (extractImports tree) ->
  isRelative imp
  = (JsString.startsWith (module imp) "."
     || JsString.startsWith (module imp) "/")
  /\ resolvedPath imp = None
  /\ length (List.filter isDefault (specifiers imp)) <= 1
  /\ length (List.filter isNamespace (specifiers imp)) <= 1
  /\ Forall (fun s => isDefault s = false) (List.tl (specifiers imp))
  /\ Forall (fun s => isDefault s && isNamespace s = false
                      /\ (alias s <> None ->
                          isDefault s = false /\ isNamespace s = false))
            (specifiers imp)
  /\ (existsb isNamespace (specifiers imp) = true ->
      Forall (fun s => isDefault s || isNamespace s = true) (specifiers imp)).
Proof.
  rewrite extractImports_preorder. intros Hin.
  apply in_flat_map in Hin as ([p node] & _ & Hin).
  unfold importsAt in Hin. simpl in Hin.
  destruct (importOf node) as [info|] eqn:E; [| destruct Hin].
  destruct Hin as [<-|[]].
  destruct (importOf_specifiers node info E) as (first & rest & -> & Hf & Hr).
  assert (Hhead : isRelative info
                  = (JsString.startsWith (module info) "."
                     || JsString.startsWith (module info) "/")
                  /\ resolvedPath info = None).
  { unfold importOf in E.
    destruct (isKind ImportDeclaration node); [| discriminate].
    destruct (field f_moduleSpecifier node) as [ms|]; [| discriminate].
    destruct (isKind StringLiteral ms); [| discriminate].
    injection E as <-. now split. }
  destruct Hhead as [Hrel Hres]. split; [exact Hrel |]. split; [exact Hres |].
  destruct Hr as [[n ->]|Hnamed].
  - destruct Hf as [->|[d ->]]; simpl;
      repeat split; try lia; repeat constructor; try discriminate; easy.
  - assert (Hd : Forall (fun s => isDefault s = false) rest)
      by (eapply Forall_impl; [| exact Hnamed]; now intros s [H _]).
    assert (Hn : Forall (fun s => isNamespace s = false) rest)
      by (eapply Forall_impl; [| exact Hnamed]; now intros s [_ H]).
    assert (Hboth : Forall
                      (fun s => isDefault s && isNamespace s = false
                                /\ (alias s <> None ->
                                    isDefault s = false
                                    /\ isNamespace s = false)) rest).
    { eapply Forall_impl; [| exact Hnamed]. intros s [H1 H2].
      rewrite H1, H2. now repeat split. }
    destruct Hf as [->|[d ->]]; simpl;
      rewrite ?(filter_nothing _ _ Hd), ?(filter_nothing _ _ Hn),
              ?(existsb_nothing _ _ Hn); simpl.
    + split; [lia |]. split; [lia |]. split.
      { destruct Hd; simpl; [constructor | assumption]. }
      split; [exact Hboth | discriminate].
    + split; [lia |]. split; [lia |]. split; [exact Hd |].
      split; [| discriminate].
      constructor; [simpl; split; [reflexivity | easy] | exact Hboth].
Qed.

Lemma extractImports_well_formed_witness :
  In {| module := "x";
        specifiers :=
          [ {| name := "React"; alias := None;
               isDefault := true; isNamespace := false |};
            {| name := "All"; alias := None;
               isDefault := false; isNamespace := true |} ];
        isRelative := false; resolvedPath := None |}
     (extractImports (sourceFile [defaultAndNamespaceImport]))
  /\ length (List.filter isDefault
               [ {| name := "React"; alias := None;
                    isDefault := true; isNamespace := false |};
                 {| name := "All"; alias := None;
                    isDefault := false; isNamespace := true |} ]) <= 1.
Proof.
  split; [now left |].
  exact (proj1 (proj2 (proj2
           (extractImports_well_formed
              (sourceFile [defaultAndNamespaceImport]) _
              (or_introl eq_refl))))).
Defined.

End ImportExtraction.

Section StatementFacts.
Import Ast DependencyResolver SmartCompiler Contribution Reading Examples.

Lemma find_filter_implied {A : Type} (p q : A -> bool) (l : list A) :
  (forall x, p x = true -> q x = true) ->
  find p (List.filter q l) = find p l.
Proof.
  intros Hpq. induction l as [|x l IH]; simpl; [reflexivity |].
  destruct (q x) eqn:Q; simpl.
  - now destruct (p x).
  - destruct (p x) eqn:P; [| exact IH].
    rewrite (Hpq x P) in Q. discriminate.
Qed.

Lemma filter_filter_implied {A : Type} (p q : A -> bool) (l : list A) :
  (forall x, p x = true -> q x = true) ->
  List.filter p (List.filter q l) = List.filter p l.
Proof.
  intros Hpq. induction l as [|x l IH]; simpl; [reflexivity |].
  destruct (q x) eqn:Q; simpl.
  - destruct (p x); now rewrite IH.
  - destruct (p x) eqn:P; [| exact IH].
    rewrite (Hpq x P) in Q. discriminate.
Qed.

Lemma existsb_find {A : Type} (p : A -> bool) (l : list A) :
  existsb p l = true -> exists x, find p l = Some x.
Proof.
  induction l as [|x l IH]; simpl; [discriminate |].
  destruct (p x); [eauto | exact IH].
Qed.

(** When an import has a default specifier, its statement is the one of
    the import without its namespace specifiers: a namespace binding next
    to a default binding is not emitted. *)
Theorem default_import_drops_namespace (imp : ImportInfo) :
  existsb isDefault (specifiers imp) = true ->
  generateImportStatement imp = generateImportStatement (withoutNamespace imp).
Proof.
  intros Hd. apply existsb_find in Hd as [d Hd].
  unfold generateImportStatement, withoutNamespace. simpl.
  rewrite (find_filter_implied isDefault).
  2: { intros x Hx. now rewrite Hx. }
  rewrite (filter_filter_implied
             (fun s => negb (isDefault s) && negb (isNamespace s))).
  2: { intros x Hx. apply andb_true_iff in Hx as [_ Hx]. rewrite Hx.
       apply orb_true_r. }
  now rewrite Hd.
Qed.

Lemma default_import_drops_namespace_witness :
  generateImportStatement
    {| module := "x";
       specifiers :=
         [ {| name := "React"; alias := None;
              isDefault := true; isNamespace := false |};
           {| name := "All"; alias := None;
              isDefault := false; isNamespace := true |} ];
       isRelative := false; resolvedPath := None |}
  = "import React from 'x';"%string.
Proof.
  exact (eq_trans
           (default_import_drops_namespace
              {| module := "x";
                 specifiers :=
                   [ {| name := "React"; alias := None;
                        isDefault := true; isNamespace := false |};
                     {| name := "All"; alias := None;
                        isDefault := false; isNamespace := true |} ];
                 isRelative := false; resolvedPath := None |} eq_refl)
           eq_refl).
Defined.

(** An import declaration without an import clause (an import for its
    side effects) is extracted with no specifier, and its statement has an
    empty clause before [from]. *)
Theorem side_effect_import_statement (node moduleSpecifier : Node) :
  isKind ImportDeclaration node = true ->
  field f_moduleSpecifier node = Some moduleSpecifier ->
  isKind StringLiteral moduleSpecifier = true ->
  field f_importClause node = None ->
  exists imp,
    importOf node = Some imp
    /\ specifiers imp = []
    /\ generateImportStatement imp
       = ("import  from '" ++ text moduleSpecifier ++ "';")%string.
Proof.
  intros Hk Hm Hs Hc. unfold importOf. rewrite Hk, Hm, Hs, Hc.
  eexists. split; [reflexivity |]. now split.
Qed.

Lemma side_effect_import_statement_witness :
  map generateImportStatement (extractImports (sourceFile [sideEffectImport]))
  = [ "import  from './styles.css';"%string ].
Proof.
  destruct (side_effect_import_statement sideEffectImport
              (str "./styles.css") eq_refl eq_refl eq_refl eq_refl)
    as (imp & Himp & _ & Hstatement).
  injection Himp as <-. reflexivity.
Defined.

End StatementFacts.

Section AnalysisOrder.
Import Ast DependencyResolver SmartCompiler Contribution Reading Examples.

Lemma fold_add_filter (p : string -> bool) (l : list string) (acc : JsSet.t) :
  NoDup (acc ++ l) ->
  fold_left (fun acc a => if p a then JsSet.add acc a else acc) l acc
  = acc ++ List.filter p l.
Proof.
  revert acc; induction l as [|a l IH]; intros acc Hnd; simpl.
  - now rewrite app_nil_r.
  - assert (Ha : ~ In a acc).
    { apply NoDup_remove_2 in Hnd. intros Hin. apply Hnd, in_or_app. now left. }
    destruct (p a).
    + unfold JsSet.add. rewrite (proj2 (has_false acc a) Ha).
      rewrite IH; [now rewrite <- app_assoc |].
      now rewrite <- app_assoc.
    + apply IH. apply NoDup_remove_1 in Hnd. exact Hnd.
Qed.

(** The used identifiers of an analysis are the texts of the identifier
    nodes whose parent is not a property access, each once, and the
    missing identifiers are the used ones that pass the two tests, in the
    order in which they were first used. *)
Theorem analysis_sets_in_order (h : Host) (r : Resolver) (code : string)
    (filePath : option string) :
  let ctx := fst (analyzeDependencies h r code filePath) in
  let tree :=
    createSourceFile h (JsString.orElse filePath "snippet.tsx") code
      (Some TSX) in
  NoDup (usedIdentifiers ctx)
  /\ (forall x,
         In x (usedIdentifiers ctx)
         <-> exists parent node,
               In (parent, node) (preorder None tree)
               /\ isKind Identifier node = true
               /\ isOpt PropertyAccessExpression parent = false
               /\ text node = x)
  /\ missingIdentifiers ctx
     = List.filter
         (fun id =>
            negb (JsSet.has
                    (snd (extractIdentifiers tree JsSet.empty JsSet.empty)) id)
            && negb (isBuiltinIdentifier id))
         (usedIdentifiers ctx).
Proof.
  intros ctx tree.
  destruct (analyzeDependencies_sets h r code filePath) as [Hused Hmissing].
  fold ctx tree in Hused, Hmissing.
  assert (Hnd : NoDup (usedIdentifiers ctx)).
  { rewrite Hused, extractIdentifiers_sets. simpl fst.
    apply fold_add_NoDup. constructor. }
  split; [exact Hnd |]. split.
  - intros x. rewrite Hused. apply used_characterised.
  - rewrite Hmissing, <- Hused. unfold missingOf.
    now rewrite fold_add_filter.
Qed.

End AnalysisOrder.

(* ===================================================================== *)
(** * More of the assembler *)
(* ===================================================================== *)

Section WrapperFacts.
Import DependencyResolver SmartCompiler Contribution Reading Examples.
Local Open Scope string_scope.

Variable MockProps : Type.
Variable JSON_stringify : MockProps -> string.

Abbreviation wrap := (wrapComponentCode MockProps JSON_stringify).

Lemma wrapper_has_export (code propsJson componentName : string) :
  hasExport (wrapper code propsJson componentName) = true.
Proof.
  unfold hasExport. apply orb_true_iff. left.
  apply includes_trans with (t := "export default function PreviewWrapper() {").
  - unfold wrapper. apply includes_join. simpl. auto 6.
  - apply (includes_occurs "" "export default" " function PreviewWrapper() {").
Qed.

(** Wrapping is idempotent: what [wrapComponentCode] returns is returned
    unchanged when it is wrapped again, whatever the mock props. *)
Theorem wrapComponentCode_idempotent (code : string)
    (mockProps again : option MockProps) :
  wrapComponentCode MockProps JSON_stringify
    (wrapComponentCode MockProps JSON_stringify code mockProps) again
  = wrapComponentCode MockProps JSON_stringify code mockProps.
Proof.
  assert (H : hasExport (wrap code mockProps) = true).
  { unfold wrapComponentCode. destruct (hasExport code) eqn:E;
      [exact E | apply wrapper_has_export]. }
  generalize dependent (wrap code mockProps). intros wrapped H.
  unfold wrapComponentCode. now rewrite H.
Qed.

(** The assembled unit always holds the fragment text as it was given. *)
Theorem generateFullCode_keeps_fragment (o : FullCodeOptions MockProps) :
  JsString.includes (generateFullCode MockProps JSON_stringify o)
                    (fc_code MockProps o) = true.
Proof.
  eapply includes_trans; [apply fullCode_includes_component |].
  unfold componentCode.
  assert (Hwrap : JsString.includes
                    (wrap (fc_code MockProps o) (fc_mockProps MockProps o))
                    (fc_code MockProps o) = true).
  { unfold wrapComponentCode.
    destruct (hasExport (fc_code MockProps o)); [apply includes_refl |].
    unfold wrapper. apply includes_join. simpl. auto. }
  destruct (fc_wrapComponent MockProps o) as [[|]|];
    [exact Hwrap | apply includes_refl | exact Hwrap].
Qed.

End WrapperFacts.

Section CaptureFacts.
Import SmartCompiler Contribution Reading.
Local Open Scope string_scope.

Lemma lit_split (p s rest : string) : lit p s = Some rest -> s = p ++ rest.
Proof.
  revert s; induction p as [|a p IH]; intros s H.
  - simpl in H. now injection H as ->.
  - destruct s as [|b s]; simpl in H; [discriminate |].
    destruct (Ascii.eqb a b) eqn:E; [| discriminate].
    apply Ascii.eqb_eq in E. subst b.
    now rewrite append_cons, (IH s H).
Qed.

Lemma skipSpaces_split (s : string) :
  exists spaces, s = spaces ++ skipSpaces s.
Proof.
  induction s as [|c s [spaces IH]]; [now exists "" |].
  simpl. destruct (isSpace c).
  - exists (String c spaces). now rewrite append_cons, <- IH.
  - now exists "".
Qed.

Lemma spaces1_split (s rest : string) :
  spaces1 s = Some rest -> exists spaces, s = spaces ++ rest.
Proof.
  destruct s as [|c s]; simpl; [discriminate |].
  destruct (isSpace c); [| discriminate].
  intros H. injection H as <-.
  destruct (skipSpaces_split s) as [spaces E].
  exists (String c spaces). now rewrite append_cons, <- E.
Qed.

Lemma takeWord_split (s : string) :
  wordOnly (takeWord s) = true /\ exists rest, s = takeWord s ++ rest.
Proof.
  induction s as [|c s [IHw [rest IH]]]; [split; [reflexivity | now exists ""] |].
  simpl. destruct (isWord c) eqn:E.
  - simpl. rewrite E, IHw. split; [reflexivity |].
    exists rest. now rewrite append_cons, <- IH.
  - split; [reflexivity |]. now exists (String c s).
Qed.

Lemma includes_after (before s w : string) :
  JsString.includes s w = true -> JsString.includes (before ++ s) w = true.
Proof.
  intros H. eapply includes_trans; [| exact H].
  pose proof (includes_occurs before s "") as Ho.
  now rewrite append_empty_r in Ho.
Qed.

(** What a capture is: a name of the pattern that occurs in the text. *)
Lemma declarationAt_capture (s w : string) :
  declarationAt s = Some w ->
  w <> "" /\ wordOnly w = true /\ JsString.includes s w = true.
Proof.
  unfold declarationAt.
  destruct (orTry (lit "function" s) (orTry (lit "const" s) (lit "class" s)))
    as [s1|] eqn:K; [| discriminate].
  assert (Hk : exists keyword, s = keyword ++ s1).
  { destruct (lit "function" s) eqn:K1;
      [injection K as <-; eexists; exact (lit_split _ _ _ K1) |].
    destruct (lit "const" s) eqn:K2;
      [injection K as <-; eexists; exact (lit_split _ _ _ K2) |].
    unfold orTry in K. eexists; exact (lit_split _ _ _ K). }
  destruct Hk as [keyword ->]. simpl andThen.
  destruct (spaces1 s1) as [s2|] eqn:Sp; [| discriminate].
  destruct (spaces1_split _ _ Sp) as [spaces ->]. simpl andThen.
  destruct (takeWord_split s2) as [Hw [rest Hrest]].
  destruct (takeWord s2) as [|c w'] eqn:T; [discriminate |].
  intros H. injection H as <-.
  split; [discriminate |]. split; [exact Hw |].
  rewrite Hrest. do 2 apply includes_after.
  apply includes_prefix, prefix_append.
Qed.

Lemma patternAt_capture (s w : string) :
  patternAt s = Some w ->
  w <> "" /\ wordOnly w = true /\ JsString.includes s w = true.
Proof.
  assert (Hdefault : forall t, defaultAt t = Some w ->
            w <> "" /\ wordOnly w = true /\ JsString.includes t w = true).
  { intros t. unfold defaultAt.
    destruct (lit "default" t) as [t1|] eqn:L; cbn [orTry andThen].
    - apply lit_split in L. subst t.
      destruct (spaces1 t1) as [t2|] eqn:Sp; cbn [orTry andThen].
      + destruct (spaces1_split _ _ Sp) as [spaces ->].
        destruct (declarationAt t2) as [w'|] eqn:D; cbn [orTry andThen].
        * intros H. injection H as ->.
          destruct (declarationAt_capture _ _ D) as (H1 & H2 & H3).
          split; [exact H1 |]. split; [exact H2 |].
          now apply includes_after, includes_after.
        * apply declarationAt_capture.
      + apply declarationAt_capture.
    - apply declarationAt_capture. }
  unfold patternAt.
  destruct (lit "export" s) as [s1|] eqn:L; cbn [orTry andThen]; [| apply Hdefault].
  apply lit_split in L. subst s.
  destruct (spaces1 s1) as [s2|] eqn:Sp; cbn [orTry andThen]; [| apply Hdefault].
  destruct (spaces1_split _ _ Sp) as [spaces ->].
  destruct (defaultAt s2) as [w'|] eqn:D; cbn [orTry andThen]; [| apply Hdefault].
  intros H. injection H as ->.
  destruct (Hdefault _ D) as (H1 & H2 & H3).
  split; [exact H1 |]. split; [exact H2 |].
  now apply includes_after, includes_after.
Qed.

(** The component name the pattern captures is never empty, is made of
    word characters only, and occurs in the fragment. *)
Theorem componentMatch_capture (code w : string) :
  componentMatch code = Some w ->
  w <> "" /\ wordOnly w = true /\ JsString.includes code w = true.
Proof.
  induction code as [|c code IH].
  - intros H. apply patternAt_capture. now destruct (patternAt "").
  - intros H.
    assert (E : componentMatch (String c code)
                = orTry (patternAt (String c code)) (componentMatch code))
      by reflexivity.
    rewrite E in H.
    destruct (patternAt (String c code)) as [w'|] eqn:P; cbn [orTry] in H.
    + injection H as ->. now apply patternAt_capture.
    + destruct (IH H) as (H1 & H2 & H3).
      split; [exact H1 |]. split; [exact H2 |].
      rewrite includes_cons, H3. apply orb_true_r.
Qed.

Lemma componentMatch_capture_witness :
  componentMatch "export const Card = () => null;" = Some "Card"
  /\ wordOnly "Card" = true.
Proof.
  split; [reflexivity |].
  exact (proj1 (proj2 (componentMatch_capture
                         "export const Card = () => null;" "Card" eq_refl))).
Defined.

End CaptureFacts.

Section CompleterFacts.
Import SmartCompiler Contribution Reading.
Local Open Scope string_scope.

Lemma completer_cons (c : ascii) (s : string) :
  CodeCompleter.componentMatch (String c s)
  = orTry (declarationAt (String c s)) (CodeCompleter.componentMatch s).
Proof. reflexivity. Qed.

Lemma completer_here (s w : string) :
  declarationAt s = Some w -> CodeCompleter.componentMatch s = Some w.
Proof.
  intros H. destruct s as [|c s].
  - unfold CodeCompleter.componentMatch. now rewrite H.
  - now rewrite completer_cons, H.
Qed.

(** No declaration of the pattern starts with white space. *)
Lemma declarationAt_space (c : ascii) (s : string) :
  isSpace c = true -> declarationAt (String c s) = None.
Proof.
  intros Hc.
  destruct c as [[] [] [] [] [] [] [] []];
    vm_compute in Hc; try discriminate Hc; reflexivity.
Qed.

Lemma completer_skipSpaces (s : string) :
  CodeCompleter.componentMatch s
  = CodeCompleter.componentMatch (skipSpaces s).
Proof.
  induction s as [|c s IH]; [reflexivity |].
  simpl skipSpaces. destruct (isSpace c) eqn:E; [| reflexivity].
  now rewrite completer_cons, (declarationAt_space c s E).
Qed.

Lemma completer_spaces1 (s rest : string) :
  spaces1 s = Some rest ->
  CodeCompleter.componentMatch s = CodeCompleter.componentMatch rest.
Proof.
  destruct s as [|c s]; simpl spaces1; [discriminate |].
  destruct (isSpace c) eqn:E; [| discriminate].
  intros H. injection H as <-.
  rewrite completer_cons, (declarationAt_space c s E).
  apply completer_skipSpaces.
Qed.

Lemma completer_export (s : string) :
  CodeCompleter.componentMatch ("export" ++ s)
  = CodeCompleter.componentMatch s.
Proof. reflexivity. Qed.

Lemma completer_default (s : string) :
  CodeCompleter.componentMatch ("default" ++ s)
  = CodeCompleter.componentMatch s.
Proof. reflexivity. Qed.

Lemma completer_defaultAt (s w : string) :
  defaultAt s = Some w -> CodeCompleter.componentMatch s = Some w.
Proof.
  unfold defaultAt.
  destruct (lit "default" s) as [s1|] eqn:L; cbn [orTry andThen];
    [| apply completer_here].
  destruct (spaces1 s1) as [s2|] eqn:Sp; cbn [orTry andThen];
    [| apply completer_here].
  destruct (declarationAt s2) as [w'|] eqn:D; cbn [orTry andThen];
    [| apply completer_here].
  intros H. injection H as ->.
  rewrite (lit_split _ _ _ L), completer_default.
  rewrite (completer_spaces1 _ _ Sp). now apply completer_here.
Qed.

Lemma completer_patternAt (s w : string) :
  patternAt s = Some w -> CodeCompleter.componentMatch s = Some w.
Proof.
  unfold patternAt.
  destruct (lit "export" s) as [s1|] eqn:L; cbn [orTry andThen];
    [| apply completer_defaultAt].
  destruct (spaces1 s1) as [s2|] eqn:Sp; cbn [orTry andThen];
    [| apply completer_defaultAt].
  destruct (defaultAt s2) as [w'|] eqn:D; cbn [orTry andThen];
    [| apply completer_defaultAt].
  intros H. injection H as ->.
  rewrite (lit_split _ _ _ L), completer_export.
  rewrite (completer_spaces1 _ _ Sp). now apply completer_defaultAt.
Qed.

Lemma patternAt_none (s : string) :
  patternAt s = None -> declarationAt s = None.
Proof.
  unfold patternAt, defaultAt.
  destruct (andThen (lit "export" s) _); cbn [orTry]; [discriminate |].
  destruct (andThen (lit "default" s) _); cbn [orTry]; [discriminate |].
  easy.
Qed.

(** The pattern of the fallback wrapper, which has no optional [export]
    and [default], captures what the pattern of [wrapComponentCode]
    captures, on every text. *)
Lemma componentMatch_agree (code : string) :
  CodeCompleter.componentMatch code = SmartCompiler.componentMatch code.
Proof.
  induction code as [|c code IH]; [reflexivity |].
  assert (E : SmartCompiler.componentMatch (String c code)
              = orTry (patternAt (String c code))
                      (SmartCompiler.componentMatch code)) by reflexivity.
  rewrite E.
  destruct (patternAt (String c code)) as [w|] eqn:P; cbn [orTry].
  - now apply completer_patternAt.
  - now rewrite completer_cons, (patternAt_none _ P), IH.
Qed.

(** The two wrappers decide alike and name the same component: the
    fallback of the completer appends nothing exactly when
    [wrapComponentCode] returns the fragment as it is, and otherwise it
    exports the name that the preview wrapper renders. *)
Theorem wrappers_agree (MockProps : Type)
    (JSON_stringify : MockProps -> string) (code : string)
    (mockProps : option MockProps) :
  (hasExport code = true
   /\ CodeCompleter.generateComponentWrapper code = ""
   /\ wrapComponentCode MockProps JSON_stringify code mockProps = code)
  \/ (hasExport code = false
      /\ exists componentName propsJson,
           CodeCompleter.generateComponentWrapper code
           = nl ++ "export default " ++ componentName ++ ";"
           /\ wrapComponentCode MockProps JSON_stringify code mockProps
              = wrapper code propsJson componentName).
Proof.
  unfold CodeCompleter.generateComponentWrapper, wrapComponentCode.
  rewrite componentMatch_agree. fold (hasExport code).
  destruct (hasExport code); [left; now repeat split | right].
  split; [reflexivity |]. eauto.
Qed.

End CompleterFacts.

Section MergeOrder.
Import DependencyResolver SmartCompiler Contribution Reading Examples.

Lemma has_keys {V : Type} (m : JsMap.t V) (k : string) :
  JsMap.has m k = JsSet.has (JsMap.keys m) k.
Proof.
  unfold JsMap.has, JsSet.has.
  induction m as [|[k' v] m IH]; simpl; [reflexivity |].
  destruct (String.eqb k k'); [reflexivity | exact IH].
Qed.

Lemma keys_set_add {V : Type} (m : JsMap.t V) (k : string) (v : V) :
  JsMap.keys (JsMap.set m k v) = JsSet.add (JsMap.keys m) k.
Proof. rewrite keys_set, has_keys. reflexivity. Qed.

Lemma store_all_keys (sources : list ImportInfo) (m : JsMap.t ImportInfo) :
  JsMap.keys (fold_left store sources m)
  = fold_left JsSet.add (map importKey sources) (JsMap.keys m).
Proof.
  revert m; induction sources as [|imp sources IH]; intros m; simpl;
    [reflexivity |].
  rewrite IH. unfold store. now rewrite keys_set_add.
Qed.

Lemma fold_add_length (l : list string) (acc : JsSet.t) :
  length (fold_left JsSet.add l acc) <= length acc + length l.
Proof.
  revert acc; induction l as [|x l IH]; intros acc; simpl; [lia |].
  specialize (IH (JsSet.add acc x)). unfold JsSet.add in *.
  destruct (JsSet.has acc x); [lia |].
  rewrite length_app in IH. simpl in IH. lia.
Qed.

(** The statements come in the order in which their keys first occur in
    the existing, then the suggested, then the additional imports; the
    import of [React], when it has to be added, comes last or takes the
    place of the entry stored under [react:React]; and there is at least
    one statement and at most one more than there are supplied imports. *)
Theorem statements_in_first_occurrence_order (MockProps : Type)
    (o : FullCodeOptions MockProps) :
  let sources :=
    existingImports MockProps o ++ suggestedImports MockProps o
    ++ fc_additionalImports MockProps o in
  let firstOccurrences :=
    fold_left JsSet.add (map importKey sources) JsSet.empty in
  JsMap.keys (mergeImports sources) = firstOccurrences
  /\ JsMap.keys (allImports MockProps o)
     = (if existsb isReactDefault (JsMap.values (mergeImports sources))
        then firstOccurrences
        else JsSet.add firstOccurrences "react:React")
  /\ 1 <= length (importStatements MockProps o) <= length sources + 1.
Proof.
  intros sources firstOccurrences.
  assert (Hkeys : JsMap.keys (mergeImports sources) = firstOccurrences)
    by apply (store_all_keys sources JsMap.empty).
  split; [exact Hkeys |].
  assert (Hall : JsMap.keys (allImports MockProps o)
                 = (if existsb isReactDefault
                         (JsMap.values (mergeImports sources))
                    then firstOccurrences
                    else JsSet.add firstOccurrences "react:React")).
  { unfold allImports, ensureReact. fold sources.
    destruct (existsb isReactDefault _); [exact Hkeys |].
    now rewrite keys_set_add, Hkeys. }
  split; [exact Hall |].
  assert (Hlen : length (importStatements MockProps o)
                 = length (JsMap.keys (allImports MockProps o))).
  { unfold importStatements, JsMap.values, JsMap.keys.
    now rewrite !length_map. }
  rewrite Hlen. split.
  - destruct (ensureReact_has_react (mergeImports sources)) as (imp & Hin & _).
    unfold allImports. fold sources.
    unfold JsMap.keys. unfold JsMap.values in Hin.
    destruct (ensureReact (mergeImports sources)); [destruct Hin | simpl; lia].
  - rewrite Hall.
    pose proof (fold_add_length (map importKey sources) JsSet.empty) as Hb.
    fold firstOccurrences in Hb. rewrite length_map in Hb. simpl in Hb.
    destruct (existsb isReactDefault _); [lia |].
    unfold JsSet.add. destruct (JsSet.has firstOccurrences _); [lia |].
    rewrite length_app. simpl. lia.
Qed.

End MergeOrder.

(* ===================================================================== *)
(** * Import suggestion *)
(* ===================================================================== *)

Section SuggestionFacts.
Import Ast DependencyResolver SmartCompiler Contribution Reading Examples.

Lemma getCommonPackages_inherited (identifier : string) :
  getCommonPackagesForIdentifier identifier = None
  <-> In identifier objectPrototypeKeys.
Proof.
  unfold getCommonPackagesForIdentifier.
  destruct (JsMap.get commonMappings identifier) as [packages|] eqn:G.
  - split; [discriminate |]. intros Hin. exfalso.
    assert (Hk : In identifier (JsMap.keys commonMappings))
      by (apply get_keys; congruence).
    simpl in Hk, Hin.
    repeat (destruct Hk as [<-|Hk];
            [repeat (destruct Hin as [Hin|Hin]; [discriminate Hin |]);
             exact Hin |]).
    exact Hk.
  - destruct (existsb (String.eqb identifier) objectPrototypeKeys) eqn:E.
    + split; [intros _ | reflexivity].
      apply existsb_exists in E as (k & Hk & Ek).
      apply String.eqb_eq in Ek. now subst.
    + split; [discriminate |]. intros Hin. exfalso.
      assert (existsb (String.eqb identifier) objectPrototypeKeys = true).
      { apply existsb_exists. exists identifier.
        split; [exact Hin | apply String.eqb_refl]. }
      congruence.
Qed.

Lemma suggestLoop_returns (h : Host) (r : Resolver) (todo : list string)
    (files : list ProjectFile) :
  forall acc,
    (exists s, suggestLoop h r todo files acc = Ok s)
    <-> Forall (fun id => ~ In id objectPrototypeKeys) todo.
Proof.
  induction todo as [|id todo IH]; intros acc; simpl.
  - split; [constructor | eauto].
  - destruct (getCommonPackagesForIdentifier id) as [packages|] eqn:G.
    + rewrite IH. split.
      * intros H. constructor; [| exact H].
        intros Hin. apply getCommonPackages_inherited in Hin. congruence.
      * intros H. now inversion H.
    + split; [intros [s Hs]; discriminate |].
      intros H. inversion H as [|? ? Hid _]. exfalso. apply Hid.
      now apply getCommonPackages_inherited.
Qed.

(** Suggesting imports returns exactly when no missing identifier has the
    name of a property every object inherits ([constructor], [toString],
    [valueOf] and the like); with such an identifier it throws. *)
Theorem suggestImports_returns_iff (h : Host) (r : Resolver)
    (missing : JsSet.t) (files : list ProjectFile) :
  (exists suggestions,
      suggestImportsForIdentifiers h r missing files = Ok suggestions)
  <-> Forall (fun id => ~ In id objectPrototypeKeys) missing.
Proof. apply suggestLoop_returns. Qed.

Lemma set_fresh {V : Type} (m : JsMap.t V) (k : string) (v : V) :
  ~ In k (JsMap.keys m) -> JsMap.set m k v = m ++ [(k, v)].
Proof.
  induction m as [|[k' v'] m IH]; simpl; intros Hk; [reflexivity |].
  destruct (String.eqb k k') eqn:E.
  - apply String.eqb_eq in E. subst. exfalso. apply Hk. now left.
  - rewrite IH; [reflexivity |]. intros Hin. apply Hk. now right.
Qed.

Lemma suggestLoop_exact (h : Host) (r : Resolver) (files : list ProjectFile)
    (todo : list string) :
  forall acc,
    NoDup (JsMap.keys acc ++ todo) ->
    Forall (fun id => ~ In id objectPrototypeKeys) todo ->
    suggestLoop h r todo files acc
    = Ok (acc ++ flat_map (suggestionEntry h r files) todo).
Proof.
  induction todo as [|id todo IH]; intros acc Hnd Hok; simpl.
  - now rewrite app_nil_r.
  - inversion Hok as [|? ? Hid Hrest]; subst.
    unfold suggestionEntry at 1, possibleImports.
    destruct (getCommonPackagesForIdentifier id) as [packages|] eqn:G.
    2: { exfalso. apply Hid. now apply getCommonPackages_inherited. }
    assert (Hfresh : ~ In id (JsMap.keys acc)).
    { apply NoDup_remove_2 in Hnd. intros Hin. apply Hnd, in_or_app.
      now left. }
    destruct (importsFromProject h r id files ++ importsFromPackages id packages)
      as [|first more] eqn:P.
    + simpl. apply IH; [| exact Hrest].
      now apply NoDup_remove_1 in Hnd.
    + assert (Hpos : Nat.ltb 0 (length (first :: more)) = true)
        by reflexivity.
      rewrite Hpos, (set_fresh acc id _ Hfresh).
      rewrite IH; [| | exact Hrest].
      * now rewrite <- app_assoc.
      * unfold JsMap.keys. rewrite map_app. simpl.
        rewrite <- app_assoc. exact Hnd.
Qed.

Lemma firstChoices_entries (h : Host) (r : Resolver)
    (files : list ProjectFile) (ids : list string) :
  firstChoices (flat_map (suggestionEntry h r files) ids)
  = flat_map (firstSuggestion h r files) ids.
Proof.
  unfold firstChoices.
  induction ids as [|id ids IH]; simpl; [reflexivity |].
  rewrite flat_map_app, IH. f_equal.
  unfold suggestionEntry, firstSuggestion.
  now destruct (possibleImports h r files id).
Qed.

(** Step 2 of [compile] infers, for the missing identifiers in their
    order, the first import found for each: the first project file that
    exports the name, else the package of the built-in table, else
    nothing. *)
Theorem inferImports_first_match (h : Host) (r : Resolver)
    (codeContext : CodeContext) (depContext : DependencyContext) :
  NoDup (missingIdentifiers depContext) ->
  Forall (fun id => ~ In id objectPrototypeKeys)
         (missingIdentifiers depContext) ->
  inferImports h r codeContext depContext
  = Ok (flat_map (firstSuggestion h r (projectFiles codeContext))
                 (missingIdentifiers depContext))
  /\ forall id,
       In id (missingIdentifiers depContext) ->
       firstSuggestion h r (projectFiles codeContext) id
       = match importsFromProject h r id (projectFiles codeContext) with
         | fromProject :: _ => [fromProject]
         | [] =>
             match getCommonPackagesForIdentifier id with
             | Some (pkg :: _) =>
                 [ {| module := pkg_module pkg;
                      specifiers :=
                        [ {| name := id; alias := None;
                             isDefault := pkg_isDefault pkg;
                             isNamespace := false |} ];
                      isRelative := false;
                      resolvedPath := None |} ]
             | _ => []
             end
         end.
Proof.
  intros Hnd Hok. split.
  - unfold inferImports, suggestImportsForIdentifiers, JsSet.size.
    destruct (missingIdentifiers depContext) as [|id ids] eqn:M;
      [reflexivity |].
    assert (Hpos : Nat.ltb 0 (length (id :: ids)) = true) by reflexivity.
    rewrite Hpos.
    rewrite (suggestLoop_exact h r (projectFiles codeContext) (id :: ids)
               JsMap.empty Hnd Hok).
    unfold mbind, Result_bind, mret, Result_ret, JsMap.empty.
    now rewrite app_nil_l, firstChoices_entries.
  - intros id Hin. unfold firstSuggestion, possibleImports.
    assert (Hid : ~ In id objectPrototypeKeys)
      by (eapply Forall_forall in Hok; eauto).
    destruct (getCommonPackagesForIdentifier id) as [packages|] eqn:G.
    2: { exfalso. apply Hid. now apply getCommonPackages_inherited. }
    destruct (importsFromProject h r id (projectFiles codeContext));
      [| reflexivity].
    simpl. now destruct packages.
Qed.

End SuggestionFacts.

Section ProjectExports.
Import Ast DependencyResolver SmartCompiler Contribution Reading Examples.

Lemma set_named (exports : JsMap.t string) (k : string) :
  allNamed exports -> allNamed (JsMap.set exports k "named").
Proof.
  unfold allNamed. induction 1 as [|[k' v'] m Hv Hm IH]; simpl.
  - now repeat constructor.
  - destruct (String.eqb k k'); constructor; auto.
Qed.

Lemma setAll_named (names : list string) (exports : JsMap.t string) :
  allNamed exports -> allNamed (setAll "named" names exports).
Proof.
  unfold setAll. revert exports.
  induction names as [|x names IH]; intros exports H; simpl; [exact H |].
  apply IH, set_named, H.
Qed.

Lemma extractExports_visit_named (node : Node) (exports : JsMap.t string) :
  (hasModifier DefaultKeyword node = true ->
   hasModifier ExportKeyword node = true) ->
  allNamed exports -> allNamed (extractExports_visit node exports).
Proof.
  intros Hmod H. unfold extractExports_visit.
  destruct (isKind ExportDeclaration node
            && isOpt NamedExports (field f_exportClause node)).
  { destruct (field f_exportClause node); [now apply setAll_named | exact H]. }
  destruct (hasModifier ExportKeyword node) eqn:E.
  { destruct (isKind FunctionDeclaration node && hasName node);
      [now apply set_named |].
    destruct (isKind ClassDeclaration node && hasName node);
      [now apply set_named |].
    destruct (isKind VariableStatement node);
      [now apply setAll_named | exact H]. }
  destruct (hasModifier DefaultKeyword node); [| exact H].
  discriminate (Hmod eq_refl).
Qed.

Lemma get_In_value {V : Type} (m : JsMap.t V) (k : string) (v : V) :
  JsMap.get m k = Some v -> exists k', In (k', v) m.
Proof.
  induction m as [|[k' v'] m IH]; simpl; [discriminate |].
  destruct (String.eqb k k').
  - intros H. injection H as ->. eauto.
  - intros H. destruct (IH H) as [k'' Hin]. eauto.
Qed.

(** In a parsed file the [default] modifier only follows [export]; then
    every export is recorded as named, and a project file is only ever
    suggested as a named import, also for what it exports by default. *)
Theorem project_suggestions_are_named (h : Host) (r : Resolver)
    (identifier : string) (files : list ProjectFile) :
  (forall file parent node,
      In file files ->
      In (parent, node)
         (preorder None (createSourceFile h "temp.ts" (content file) None)) ->
      hasModifier DefaultKeyword node = true ->
      hasModifier ExportKeyword node = true) ->
  Forall (fun imp =>
            Forall (fun s => isDefault s = false /\ name s = identifier)
                   (specifiers imp)
            /\ isRelative imp = true)
         (importsFromProject h r identifier files).
Proof.
  intros Hparsed. unfold importsFromProject.
  apply Forall_flat_map, Forall_forall. intros file Hfile.
  destruct (JsMap.has (extractExportsFromFile h (content file)) identifier);
    [| constructor].
  constructor; [| constructor]. simpl. split; [| reflexivity].
  constructor; [| constructor]. simpl. split; [| reflexivity].
  destruct (JsMap.get (extractExportsFromFile h (content file)) identifier)
    as [e|] eqn:G; [| reflexivity].
  assert (Hall : allNamed (extractExportsFromFile h (content file))).
  { unfold extractExportsFromFile. rewrite walk_preorder.
    assert (Hfold : forall nodes acc,
               (forall pn, In pn nodes ->
                           hasModifier DefaultKeyword (snd pn) = true ->
                           hasModifier ExportKeyword (snd pn) = true) ->
               allNamed acc ->
               allNamed (fold_left
                           (fun acc (pn : option Node * Node) =>
                              extractExports_visit (snd pn) acc)
                           nodes acc)).
    { induction nodes as [|pn nodes IH]; intros acc Hn Ha; simpl; [exact Ha |].
      apply IH; [intros pn' Hin; apply Hn; now right |].
      apply extractExports_visit_named; [apply Hn; now left | exact Ha]. }
    apply Hfold; [| constructor].
    intros [p n] Hin. exact (Hparsed file p n Hfile Hin). }
  destruct (get_In_value _ _ _ G) as [k' Hin].
  unfold allNamed in Hall. rewrite Forall_forall in Hall.
  specialize (Hall _ Hin). simpl in Hall. now subst e.
Qed.

Lemma project_suggestions_are_named_witness :
  importsFromProject cardHost freshResolver "Card" [cardFile]
  = [ {| module := "./src/Card.tsx";
         specifiers := [ {| name := "Card"; alias := None;
                            isDefault := false; isNamespace := false |} ];
         isRelative := true;
         resolvedPath := Some "src/Card.tsx"%string |} ]
  /\ Forall (fun imp =>
               Forall (fun s => isDefault s = false /\ name s = "Card"%string)
                      (specifiers imp)
               /\ isRelative imp = true)
            (importsFromProject cardHost freshResolver "Card" [cardFile]).
Proof.
  split; [reflexivity |].
  apply (project_suggestions_are_named cardHost freshResolver "Card" [cardFile]).
  intros file parent node [<-|[]] Hin Hdefault.
  simpl in Hin.
  repeat (destruct Hin as [Hin|Hin];
          [injection Hin as <- <-; try discriminate Hdefault; reflexivity |]).
  destruct Hin.
Defined.

End ProjectExports.

(* ===================================================================== *)
(** * More of the resolver *)
(* ===================================================================== *)

Section ResolutionInvariants.
Import Ast DependencyResolver SmartCompiler Contribution Reading Examples.

Implicit Types (h : Host) (r : Resolver) (f : option string).

(** A call keeps the fields of the resolver and every cache entry. *)
Lemma resolveModulePath_keeps h r m f :
  projectRoot (snd (resolveModulePath h r m f)) = projectRoot r
  /\ tsProgram (snd (resolveModulePath h r m f)) = tsProgram r
  /\ forall k v,
       moduleResolutionCache r !! k = Some v ->
       moduleResolutionCache (snd (resolveModulePath h r m f)) !! k = Some v.
Proof.
  pose proof (resolveModulePath_outcome h r m f) as Hout.
  destruct (fst (resolveModulePath h r m f)) as [p|] eqn:E;
    rewrite Hout; [| now repeat split].
  split; [reflexivity |]. split; [reflexivity |].
  intros k v Hk. simpl.
  destruct (decide (cacheKey m f = k)) as [<-|Hne].
  - rewrite (resolveModulePath_hit h r m f v Hk) in E. simpl in E.
    destruct (JsString.truthy v); [| discriminate].
    injection E as ->. apply lookup_insert_eq.
  - now rewrite lookup_insert_ne.
Qed.

(** What an answer leaves in the cache. *)
Lemma resolveModulePath_stores h r m f p :
  fst (resolveModulePath h r m f) = Some p ->
  moduleResolutionCache (snd (resolveModulePath h r m f)) !! cacheKey m f
  = Some p.
Proof.
  intros E. pose proof (resolveModulePath_outcome h r m f) as Hout.
  rewrite E in Hout. rewrite Hout. simpl. apply lookup_insert_eq.
Qed.

Lemma resolveImports_invariant h f (todo : list ImportInfo) :
  forall r resolved,
    agrees f r resolved ->
    let out := fst (fst (resolveImports h f todo r resolved)) in
    let resolved' := snd (fst (resolveImports h f todo r resolved)) in
    let r' := snd (resolveImports h f todo r resolved) in
    agrees f r' resolved'
    /\ (forall m p, resolved !! m = Some p -> resolved' !! m = Some p)
    /\ (projectRoot r' = projectRoot r /\ tsProgram r' = tsProgram r
        /\ forall k v, moduleResolutionCache r !! k = Some v ->
                       moduleResolutionCache r' !! k = Some v)
    /\ Forall2 (fun i o =>
                  o = i
                  \/ exists p, o = resolvedAs i p
                               /\ resolved' !! module i = Some p)
               todo out
    /\ (forall m p, resolved' !! m = Some p ->
                    resolved !! m = Some p
                    \/ exists i, In i todo /\ module i = m)
    /\ (forall k v, moduleResolutionCache r' !! k = Some v ->
                    moduleResolutionCache r !! k = Some v
                    \/ exists i, In i todo /\ k = cacheKey (module i) f).
Proof.
  induction todo as [|imp todo IH]; intros r resolved Hag; simpl.
  { split; [exact Hag |]. split; [auto |]. split; [now repeat split |].
    split; [constructor |]. split; auto. }
  pose proof (resolveModulePath_keeps h r (module imp) f) as (Hroot & Hts & Hmono).
  pose proof (resolveModulePath_outcome h r (module imp) f) as Hout.
  pose proof (resolveModulePath_stores h r (module imp) f) as Hstore.
  destruct (resolveModulePath h r (module imp) f) as [found r1] eqn:Call.
  simpl in Hroot, Hts, Hmono, Hout, Hstore.
  assert (Hnew : forall k v, moduleResolutionCache r1 !! k = Some v ->
                   moduleResolutionCache r !! k = Some v
                   \/ k = cacheKey (module imp) f).
  { intros k v Hk. destruct found as [p|]; [| subst r1; now left].
    subst r1. simpl in Hk.
    destruct (decide (cacheKey (module imp) f = k)) as [<-|Hne];
      [now right | left]. now rewrite lookup_insert_ne in Hk. }
  assert (Hcase :
            (exists p, found = Some p /\ JsString.truthy p = true)
            \/ (match found with
                | Some p => JsString.truthy p = false
                | None => True
                end)).
  { destruct found as [p|]; [| now right].
    destruct (JsString.truthy p) eqn:T; [left; eauto | now right]. }
  destruct Hcase as [(p & -> & Hp)|Hfail].
  - rewrite Hp.
    assert (Hag1 : agrees f r1 (<[module imp := p]> resolved)).
    { intros m q Hq.
      destruct (decide (module imp = m)) as [<-|Hne].
      - rewrite lookup_insert_eq in Hq. injection Hq as <-.
        split; [now apply Hstore | exact Hp].
      - rewrite lookup_insert_ne in Hq by exact Hne.
        destruct (Hag m q Hq) as [Hc Ht]. split; [now apply Hmono | exact Ht]. }
    assert (Hext : forall m q, resolved !! m = Some q ->
                     <[module imp := p]> resolved !! m = Some q).
    { intros m q Hq.
      destruct (decide (module imp = m)) as [<-|Hne];
        [| now rewrite lookup_insert_ne].
      destruct (Hag _ _ Hq) as [Hc Ht].
      pose proof (resolveModulePath_hit h r (module imp) f q Hc) as Hhit.
      rewrite Call, Ht in Hhit. injection Hhit as -> _.
      apply lookup_insert_eq. }
    specialize (IH r1 (<[module imp := p]> resolved) Hag1).
    destruct (resolveImports h f todo r1 (<[module imp := p]> resolved))
      as [[rest1 resolved2] r2].
    simpl in IH |- *.
    destruct IH as (A & B & (C1 & C2 & C3) & D & E & F).
    split; [exact A |].
    split; [intros m q Hq; apply B, Hext, Hq |].
    split; [repeat split; [congruence | congruence | auto] |].
    split.
    { constructor; [| exact D]. right. exists p. split; [reflexivity |].
      apply B, lookup_insert_eq. }
    split.
    { intros m q Hq. destruct (E m q Hq) as [H1|(i & Hi & Hm)].
      - destruct (decide (module imp = m)) as [<-|Hne]; [right; eauto |].
        rewrite lookup_insert_ne in H1 by exact Hne. now left.
      - right; eauto. }
    intros k v Hk. destruct (F k v Hk) as [H1|(i & Hi & Hkey)].
    + destruct (Hnew k v H1) as [H2| ->]; [now left | right; eauto].
    + right; eauto.
  - assert (Hsame :
              match found with
              | Some p =>
                  if JsString.truthy p
                  then (resolvedAs imp p, <[module imp := p]> resolved)
                  else (imp, resolved)
              | None => (imp, resolved)
              end = (imp, resolved)).
    { destruct found as [p|]; [now rewrite Hfail | reflexivity]. }
    unfold resolvedAs in Hsame. rewrite Hsame. clear Hsame.
    assert (Hag1 : agrees f r1 resolved).
    { intros m q Hq. destruct (Hag m q Hq) as [Hc Ht].
      split; [now apply Hmono | exact Ht]. }
    specialize (IH r1 resolved Hag1).
    destruct (resolveImports h f todo r1 resolved) as [[rest1 resolved2] r2].
    simpl in IH |- *.
    destruct IH as (A & B & (C1 & C2 & C3) & D & E & F).
    split; [exact A |]. split; [exact B |].
    split; [repeat split; [congruence | congruence | auto] |].
    split; [constructor; [now left | exact D] |].
    split.
    { intros m q Hq. destruct (E m q Hq) as [H1|(i & Hi & Hm)];
        [now left | right; eauto]. }
    intros k v Hk. destruct (F k v Hk) as [H1|(i & Hi & Hkey)].
    + destruct (Hnew k v H1) as [H2| ->]; [now left | right; eauto].
    + right; eauto.
Qed.

End ResolutionInvariants.

Section AnalysisResolution.
Import Ast DependencyResolver SmartCompiler Contribution Reading Examples.

Lemma Forall2_In_right {A B : Type} (R : A -> B -> Prop) (l1 : list A)
    (l2 : list B) (y : B) :
  Forall2 R l1 l2 -> In y l2 -> exists x, In x l1 /\ R x y.
Proof.
  induction 1 as [|x y' l1 l2 Hxy _ IH]; intros Hin; [destruct Hin |].
  destruct Hin as [<-|Hin]; [exists x; split; [now left | exact Hxy] |].
  destruct (IH Hin) as (x' & Hx' & Hr). exists x'. split; [now right | exact Hr].
Qed.

Lemma Forall2_In_left {A B : Type} (R : A -> B -> Prop) (l1 : list A)
    (l2 : list B) (x : A) :
  Forall2 R l1 l2 -> In x l1 -> exists y, In y l2 /\ R x y.
Proof.
  induction 1 as [|x' y l1 l2 Hxy _ IH]; intros Hin; [destruct Hin |].
  destruct Hin as [<-|Hin]; [exists y; split; [now left | exact Hxy] |].
  destruct (IH Hin) as (y' & Hy' & Hr). exists y'. split; [now right | exact Hr].
Qed.

(** The analysis as its loop leaves it. *)
Lemma analyzeDependencies_resolution (h : Host) (r : Resolver)
    (code : string) (filePath : option string) :
  let found :=
    extractImports
      (createSourceFile h (JsString.orElse filePath "snippet.tsx") code
         (Some TSX)) in
  let loop := resolveImports h filePath found r ∅ in
  imports (fst (analyzeDependencies h r code filePath)) = fst (fst loop)
  /\ resolvedModules (fst (analyzeDependencies h r code filePath))
     = snd (fst loop)
  /\ snd (analyzeDependencies h r code filePath) = snd loop.
Proof.
  intros found loop. subst loop. unfold analyzeDependencies. fold found.
  destruct (extractIdentifiers _ _ _) as [used declared].
  destruct (resolveImports h filePath found r ∅) as [[imports1 resolved] r1].
  now repeat split.
Qed.

(** The resolved modules of an analysis and the resolved paths of its
    imports tell the same: an import with a resolved path has that path
    under its module, and every entry is a path that is not empty, stored
    in the cache, for the module of one of the imports. *)
Theorem analysis_resolved_modules (h : Host) (r : Resolver) (code : string)
    (filePath : option string) :
  let ctx := fst (analyzeDependencies h r code filePath) in
  let r' := snd (analyzeDependencies h r code filePath) in
  (forall imp p,
      In imp (imports ctx) -> resolvedPath imp = Some p ->
      resolvedModules ctx !! module imp = Some p)
  /\ (forall m p,
         resolvedModules ctx !! m = Some p ->
         p <> ""%string
         /\ (exists imp, In imp (imports ctx) /\ module imp = m)
         /\ moduleResolutionCache r' !! cacheKey m filePath = Some p).
Proof.
  intros ctx r'. subst ctx r'.
  destruct (analyzeDependencies_resolution h r code filePath)
    as (-> & -> & ->).
  set (tree := createSourceFile h (JsString.orElse filePath "snippet.tsx")
                 code (Some TSX)).
  assert (Hinit : agrees filePath r ∅).
  { intros m p Hm. rewrite lookup_empty in Hm. discriminate. }
  destruct (resolveImports_invariant h filePath (extractImports tree) r ∅ Hinit)
    as (A & _ & _ & D & E & _).
  split.
  - intros imp p Hin Hp.
    destruct (Forall2_In_right _ _ _ _ D Hin) as (i & Hi & [->|(q & -> & Hq)]).
    + destruct (extractImports_well_formed tree i Hi) as (_ & Hnone & _).
      congruence.
    + simpl in Hp |- *. now injection Hp as <-.
  - intros m p Hm. destruct (A m p Hm) as [Hc Ht].
    split; [intros ->; discriminate |]. split; [| exact Hc].
    destruct (E m p Hm) as [H0|(i & Hi & <-)].
    { rewrite lookup_empty in H0. discriminate. }
    destruct (Forall2_In_left _ _ _ _ D Hi) as (o & Ho & Hr).
    exists o. split; [exact Ho |].
    destruct Hr as [->|(q & -> & _)]; reflexivity.
Qed.

(** The build plugin honours the resolution of the analysis: a module that
    an import of the fragment was resolved to is answered with exactly
    that path in the namespace [file], whatever Node would say and also
    for a relative specifier. *)
Theorem plugin_honours_resolution (h h' : Host) (r : Resolver)
    (code : string) (filePath : option string) (imp : ImportInfo)
    (p resolveDir : string) :
  let ctx := fst (analyzeDependencies h r code filePath) in
  In imp (imports ctx) ->
  resolvedPath imp = Some p ->
  onResolve h' (resolvedModules ctx)
    {| args_path := module imp; args_resolveDir := resolveDir |}
  = Some {| res_path := Some p; res_namespace := Some "file"%string;
            res_external := false |}.
Proof.
  intros ctx Hin Hp.
  pose proof (proj1 (analysis_resolved_modules h r code filePath) imp p Hin Hp)
    as Hentry.
  subst ctx. unfold onResolve. cbn [args_path args_resolveDir].
  now rewrite Hentry.
Qed.

Lemma plugin_honours_resolution_witness :
  map resolvedPath
      (imports (fst (analyzeDependencies lodashHost freshResolver lodashCode
                       None)))
  = [Some lodashPath]
  /\ onResolve (hostParsing lodashTree)
       (resolvedModules
          (fst (analyzeDependencies lodashHost freshResolver lodashCode None)))
       {| args_path := "lodash"; args_resolveDir := "/elsewhere" |}
     = Some {| res_path := Some lodashPath; res_namespace := Some "file"%string;
               res_external := false |}.
Proof.
  split; [reflexivity |].
  exact (plugin_honours_resolution lodashHost (hostParsing lodashTree)
           freshResolver lodashCode None
           {| module := "lodash";
              specifiers := [ {| name := "_"; alias := None;
                                 isDefault := true; isNamespace := false |} ];
              isRelative := false; resolvedPath := Some lodashPath |}
           lodashPath "/elsewhere" (or_introl eq_refl) eq_refl).
Defined.

(** [compile] leaves the project root and the TypeScript program of the
    resolver as they were, keeps every cache entry, and adds entries only
    under the keys of the modules the fragment imports. *)
Theorem compile_only_grows_cache (MockProps : Type)
    (JSON_stringify : MockProps -> string)
    (JSON_stringify_throws : MockProps -> option Exn)
    (esbuild_build : BuildOptions -> Result BuildResult)
    (h : Host) (r : Resolver) (codeContext : CodeContext)
    (options : SmartCompileOptions MockProps) :
  let r' :=
    snd (compile MockProps JSON_stringify JSON_stringify_throws
           esbuild_build h r codeContext options) in
  let found :=
    extractImports
      (createSourceFile h
         (JsString.orElse (filePath MockProps options) "snippet.tsx")
         (code MockProps options) (Some TSX)) in
  projectRoot r' = projectRoot r
  /\ tsProgram r' = tsProgram r
  /\ (forall k v, moduleResolutionCache r !! k = Some v ->
                  moduleResolutionCache r' !! k = Some v)
  /\ (forall k v, moduleResolutionCache r' !! k = Some v ->
                  moduleResolutionCache r !! k = Some v
                  \/ exists imp,
                       In imp found
                       /\ k = cacheKey (module imp)
                                       (filePath MockProps options)).
Proof.
  intros r' found. subst r'.
  rewrite compile_catches.
  assert (Hsnd : forall (A : Type) (x y : A) (s : Resolver)
                        (c : Result A),
             snd (match c with Ok res => (res, s) | Throw e => (y, s) end) = s)
    by (intros A x y s []; reflexivity).
  match goal with
  | |- context [snd (match ?c with Ok res => (res, ?s) | Throw e => _ end)] =>
      replace (snd (match c with
                    | Ok res => (res, s)
                    | Throw e =>
                        ({| success := false; result_code := None;
                            error := Some (errorMessage e);
                            result_warnings := None |}, s)
                    end)) with s by (now destruct c)
  end.
  destruct (analyzeDependencies_resolution h r (code MockProps options)
              (filePath MockProps options)) as (_ & _ & ->).
  fold found.
  assert (Hinit : agrees (filePath MockProps options) r ∅).
  { intros m p Hm. rewrite lookup_empty in Hm. discriminate. }
  destruct (resolveImports_invariant h (filePath MockProps options) found r ∅
              Hinit) as (_ & _ & (C1 & C2 & C3) & _ & _ & F).
  repeat split; auto.
Qed.

End AnalysisResolution.

Section SuggestionExamples.
Import Ast DependencyResolver SmartCompiler Contribution Reading Examples.

Lemma inferImports_first_match_witness :
  inferImports (hostParsing counterTree) freshResolver emptyProject
    (fst (analyzeDependencies (hostParsing counterTree) freshResolver
            counterCode None))
  = Ok (flat_map (firstSuggestion (hostParsing counterTree) freshResolver [])
                 ["useState"%string]).
Proof.
  refine (proj1 (inferImports_first_match (hostParsing counterTree)
                   freshResolver emptyProject
                   (fst (analyzeDependencies (hostParsing counterTree)
                           freshResolver counterCode None)) _ _)).
  - repeat constructor. intros [].
  - repeat constructor. intros Hin. simpl in Hin.
    repeat (destruct Hin as [Hin|Hin]; [discriminate Hin |]). exact Hin.
Defined.

End SuggestionExamples.

(* ===================================================================== *)
(** * The logger and the helpers of [JSXCompiler] *)
(* ===================================================================== *)

Section LoggerFacts.
Import Logger.

(** What passes the logger: a message passes whenever a less severe one
    with the same category does; naming a category can only filter; a
    category that is disabled, or that is missing from the enabled ones,
    passes at no level; and an error without category always passes. *)
Theorem shouldLog_filters (config : LoggerConfig) :
  (forall l1 l2 category,
      levelValue l1 <= levelValue l2 ->
      shouldLog config l2 category = true ->
      shouldLog config l1 category = true)
  /\ (forall l c,
         shouldLog config l (Some c) = true -> shouldLog config l None = true)
  /\ (forall l c disabled,
         disabledCategories config = Some disabled ->
         includesCategory disabled c = true ->
         shouldLog config l (Some c) = false)
  /\ (forall l c enabled,
         enabledCategories config = Some enabled ->
         includesCategory enabled c = false ->
         shouldLog config l (Some c) = false)
  /\ shouldLog config ERROR None = true.
Proof.
  unfold shouldLog. split; [| split; [| split; [| split]]].
  - intros l1 l2 category Hle.
    destruct (Nat.ltb (levelValue (level config)) (levelValue l2)) eqn:E2;
      [discriminate |].
    apply Nat.ltb_ge in E2.
    assert (E1 : Nat.ltb (levelValue (level config)) (levelValue l1) = false)
      by (apply Nat.ltb_ge; lia).
    now rewrite E1.
  - intros l c.
    now destruct (Nat.ltb (levelValue (level config)) (levelValue l)).
  - intros l c disabled -> Hc. rewrite Hc.
    destruct (Nat.ltb _ _); [reflexivity |].
    now destruct (match enabledCategories config with
                  | Some enabled => negb (includesCategory enabled c)
                  | None => false
                  end).
  - intros l c enabled -> Hc. rewrite Hc. simpl.
    now destruct (Nat.ltb _ _).
  - now destruct (level config).
Qed.

Lemma shouldLog_filters_witness :
  shouldLog initialConfig INFO (Some COMPILER) = true
  /\ shouldLog initialConfig WARN (Some COMPILER) = true.
Proof.
  split; [reflexivity |].
  apply (proj1 (shouldLog_filters initialConfig) WARN INFO (Some COMPILER)).
  - simpl. lia.
  - reflexivity.
Defined.

End LoggerFacts.

Section JsxHelperFacts.
Import JSXCompiler Reading.
Local Open Scope string_scope.

(** Sanitizing keeps the length, leaves only characters of import names,
    changes nothing the second time, and leaves a name as it is exactly
    when the name is already made of such characters. *)
Theorem sanitizeImportName_cleans (name : string) :
  String.length (sanitizeImportName name) = String.length name
  /\ nameOnly (sanitizeImportName name) = true
  /\ sanitizeImportName (sanitizeImportName name) = sanitizeImportName name
  /\ (sanitizeImportName name = name <-> nameOnly name = true).
Proof.
  induction name as [|c name (IHl & IHn & IHi & IHf)]; [now repeat split |].
  simpl. destruct (isNameChar c) eqn:E.
  - rewrite E, IHl, IHn, IHi. repeat split; try reflexivity.
    + intros H. injection H as H. now apply IHf.
    + intros H. f_equal. now apply IHf.
  - change (isNameChar "_") with true. cbv iota.
    rewrite IHl, IHn, IHi. repeat split; try reflexivity.
    + intros H. injection H as Hc _. subst c. discriminate E.
    + discriminate.
Qed.

Lemma hasDot_append (a b : string) : hasDot (a ++ b) = hasDot a || hasDot b.
Proof.
  induction a as [|c a IH]; [reflexivity |].
  rewrite append_cons. simpl. rewrite IH. apply orb_assoc.
Qed.

Lemma isScriptExtension_cases (s : string) :
  isScriptExtension s = true ->
  s = ".ts" \/ s = ".tsx" \/ s = ".js" \/ s = ".jsx".
Proof.
  unfold isScriptExtension. intros H.
  repeat (apply orb_true_iff in H as [H|H]);
    apply String.eqb_eq in H; auto.
Qed.

Lemma isScriptExtension_after (c : ascii) (base ext : string) :
  isScriptExtension ext = true ->
  isScriptExtension (String c (base ++ ext)) = false.
Proof.
  intros Hext.
  assert (Hdot : hasDot (base ++ ext) = true).
  { rewrite hasDot_append.
    destruct (isScriptExtension_cases _ Hext) as [->|[->|[->| ->]]];
      apply orb_true_r. }
  destruct (isScriptExtension (String c (base ++ ext))) eqn:E; [| reflexivity].
  destruct (isScriptExtension_cases _ E) as [H|[H|[H|H]]];
    injection H as _ H; rewrite H in Hdot; discriminate Hdot.
Qed.

Lemma stripScriptExtension_unfold (s : string) :
  stripScriptExtension s
  = if isScriptExtension s then ""
    else match s with
         | "" => ""
         | String c rest => String c (stripScriptExtension rest)
         end.
Proof. now destruct s. Qed.

(** The import path of a project file: the file path after [./], without
    its extension when that is [.ts], [.tsx], [.js] or [.jsx] (only the
    last one is removed), and as it is when it holds no dot. *)
Theorem convertToImportPath_strips (base ext : string) :
  (isScriptExtension ext = true ->
   convertToImportPath (base ++ ext) = "./" ++ base)
  /\ (hasDot base = false -> convertToImportPath base = "./" ++ base).
Proof.
  unfold convertToImportPath. split.
  - intros Hext. f_equal. induction base as [|c base IH].
    + rewrite append_empty_l, stripScriptExtension_unfold. now rewrite Hext.
    + rewrite append_cons, stripScriptExtension_unfold.
      now rewrite (isScriptExtension_after c base ext Hext), IH.
  - intros Hdot. f_equal. induction base as [|c base IH]; [reflexivity |].
    rewrite stripScriptExtension_unfold.
    destruct (isScriptExtension (String c base)) eqn:E.
    + destruct (isScriptExtension_cases _ E) as [H|[H|[H|H]]];
        rewrite H in Hdot; discriminate Hdot.
    + simpl in Hdot. apply orb_false_iff in Hdot as [_ Hdot].
      now rewrite IH.
Qed.

Lemma convertToImportPath_strips_witness :
  convertToImportPath "src/Card.test.tsx" = "./src/Card.test".
Proof.
  exact (proj1 (convertToImportPath_strips "src/Card.test" ".tsx") eq_refl).
Defined.

End JsxHelperFacts.

Section ResolutionExamples.
Import Ast DependencyResolver SmartCompiler Contribution Reading Examples.

Lemma analysis_resolved_modules_witness :
  resolvedModules
    (fst (analyzeDependencies lodashHost freshResolver lodashCode None))
    !! "lodash"%string = Some lodashPath
  /\ moduleResolutionCache
       (snd (analyzeDependencies lodashHost freshResolver lodashCode None))
       !! cacheKey "lodash" None = Some lodashPath.
Proof.
  split; [reflexivity |].
  exact (proj2 (proj2 (proj2 (analysis_resolved_modules lodashHost
                                freshResolver lodashCode None)
                         "lodash"%string lodashPath eq_refl))).
Defined.

Lemma compile_only_grows_cache_witness :
  moduleResolutionCache
    (snd (compile unit noProps serialisable echoBuild lodashHost
            freshResolver emptyProject lodashOptions))
    !! "lodash:root"%string = Some lodashPath
  /\ projectRoot
       (snd (compile unit noProps serialisable echoBuild lodashHost
               freshResolver emptyProject lodashOptions))
     = projectRoot freshResolver.
Proof.
  split; [reflexivity |].
  exact (proj1 (compile_only_grows_cache unit noProps serialisable echoBuild
                  lodashHost freshResolver emptyProject lodashOptions)).
Defined.

End ResolutionExamples.

Section CacheKeyFacts.
Import DependencyResolver.
Local Open Scope string_scope.

Lemma length_append (a b : string) :
  String.length (a ++ b) = String.length a + String.length b.
Proof.
  induction a as [|c a IH]; [reflexivity |].
  rewrite append_cons. simpl. now rewrite IH.
Qed.

Lemma append_cancel_right (a b s : string) : a ++ s = b ++ s -> a = b.
Proof.
  revert b; induction a as [|c a IH]; intros b H.
  - destruct b as [|d b]; [reflexivity |].
    apply (f_equal String.length) in H.
    rewrite append_empty_l, append_cons in H. simpl in H.
    rewrite length_append in H. lia.
  - destruct b as [|d b].
    + apply (f_equal String.length) in H.
      rewrite append_empty_l, append_cons in H. simpl in H.
      rewrite length_append in H. lia.
    + rewrite !append_cons in H. injection H as -> H. f_equal. now apply IH.
Qed.

(** For one requesting file the cache key tells the modules apart: two
    modules with the same key are the same module, so within an analysis
    no module is answered with the cached path of another. *)
Theorem cacheKey_tells_modules_apart (m m' : string) (fromFile : option string) :
  cacheKey m fromFile = cacheKey m' fromFile -> m = m'.
Proof. unfold cacheKey. apply append_cancel_right. Qed.

Lemma cacheKey_tells_modules_apart_witness :
  cacheKey "react" (Some "src/App.tsx") = "react:src/App.tsx"
  /\ "react" = "react".
Proof.
  split; [reflexivity |].
  exact (cacheKey_tells_modules_apart "react" "react" (Some "src/App.tsx")
           eq_refl).
Defined.

End CacheKeyFacts.

(* ===================================================================== *)
(** * Imports that do not resolve *)
(* ===================================================================== *)

Section Unresolved.
Import Ast DependencyResolver SmartCompiler Contribution Reading Examples.
Local Open Scope string_scope.

Implicit Types (h : Host) (r : Resolver) (f : option string).

(** The answer of a call depends on the resolver through the entry of
    its key, the project root and the TypeScript program only. *)
Lemma resolveModulePath_answer h r r' m f :
  moduleResolutionCache r' !! cacheKey m f
  = moduleResolutionCache r !! cacheKey m f ->
  projectRoot r' = projectRoot r ->
  tsProgram r' = tsProgram r ->
  fst (resolveModulePath h r' m f) = fst (resolveModulePath h r m f).
Proof.
  intros Hc Hp Ht. unfold resolveModulePath. rewrite Hc, Hp, Ht.
  destruct (moduleResolutionCache r !! cacheKey m f); [reflexivity |].
  destruct (tsProgram r);
    [destruct (ts_resolveModuleName h m _) |];
    try destruct (require_resolve h m _); reflexivity.
Qed.

(** A module that does not resolve still does not after a call for any
    module. *)
Lemma unresolvable_persists h r m f m' :
  unresolvable h r m f ->
  unresolvable h (snd (resolveModulePath h r m' f)) m f.
Proof.
  intros U. pose proof (resolveModulePath_outcome h r m' f) as Hout.
  destruct (fst (resolveModulePath h r m' f)) as [q|] eqn:E;
    rewrite Hout; [| exact U].
  destruct (decide (cacheKey m' f = cacheKey m f)) as [K|K].
  - apply append_cancel_right in K. subst m'.
    unfold unresolvable in U. rewrite E in U.
    unfold unresolvable.
    rewrite (resolveModulePath_hit h _ m f q) by apply lookup_insert_eq.
    simpl. now rewrite U.
  - unfold unresolvable.
    rewrite (resolveModulePath_answer h r _ m f); [exact U | | | ];
      [| reflexivity | reflexivity].
    simpl. now rewrite lookup_insert_ne.
Qed.

(** The loop over the imports leaves a module that does not resolve out
    of the resolved modules, and an import it leaves without a resolved
    path has no entry there. *)
Lemma resolveImports_unresolved h f (todo : list ImportInfo) :
  forall r resolved,
    agrees f r resolved ->
    let out := fst (fst (resolveImports h f todo r resolved)) in
    let resolved' := snd (fst (resolveImports h f todo r resolved)) in
    let r' := snd (resolveImports h f todo r resolved) in
    (forall m, resolved !! m = None -> unresolvable h r m f ->
               resolved' !! m = None /\ unresolvable h r' m f)
    /\ Forall2 (fun i o =>
                  resolvedPath o = None ->
                  resolved' !! module i = None /\ module o = module i)
               todo out.
Proof.
  induction todo as [|imp todo IH]; intros r resolved Hag; simpl.
  { split; [now intros m Hm U | constructor]. }
  pose proof (resolveModulePath_keeps h r (module imp) f) as (_ & _ & Hmono).
  pose proof (resolveModulePath_stores h r (module imp) f) as Hstore.
  pose proof (fun m => unresolvable_persists h r m f (module imp)) as Hpersist.
  assert (Hhere : unresolvable h r (module imp) f
                  \/ exists p, fst (resolveModulePath h r (module imp) f)
                               = Some p /\ JsString.truthy p = true).
  { unfold unresolvable.
    destruct (fst (resolveModulePath h r (module imp) f)) as [p|];
      [| now left].
    destruct (JsString.truthy p) eqn:T; [right; eauto | now left]. }
  destruct (resolveModulePath h r (module imp) f) as [found r1] eqn:Call.
  simpl in Hmono, Hstore, Hpersist, Hhere.
  destruct Hhere as [Hfail|(p & -> & Hp)].
  - assert (Hsame :
              match found with
              | Some p =>
                  if JsString.truthy p
                  then (resolvedAs imp p, <[module imp := p]> resolved)
                  else (imp, resolved)
              | None => (imp, resolved)
              end = (imp, resolved)).
    { unfold unresolvable in Hfail. rewrite Call in Hfail. simpl in Hfail.
      destruct found as [p|]; [now rewrite Hfail | reflexivity]. }
    unfold resolvedAs in Hsame. rewrite Hsame. clear Hsame.
    assert (Hag1 : agrees f r1 resolved).
    { intros m q Hq. destruct (Hag m q Hq) as [Hc Ht].
      split; [now apply Hmono | exact Ht]. }
    assert (Hnone : resolved !! module imp = None).
    { destruct (resolved !! module imp) as [q|] eqn:R; [| reflexivity].
      exfalso. destruct (Hag _ _ R) as [Hc Ht].
      unfold unresolvable in Hfail.
      rewrite (resolveModulePath_hit h r (module imp) f q Hc) in Hfail.
      simpl in Hfail. rewrite Ht in Hfail. congruence. }
    specialize (IH r1 resolved Hag1).
    destruct (resolveImports h f todo r1 resolved) as [[rest1 resolved2] r2].
    simpl in IH |- *. destruct IH as [P1 P2].
    split.
    + intros m Hm U. apply P1; [exact Hm | now apply Hpersist].
    + constructor; [| exact P2]. intros _. split; [| reflexivity].
      apply P1; [exact Hnone | now apply Hpersist].
  - rewrite Hp.
    assert (Hag1 : agrees f r1 (<[module imp := p]> resolved)).
    { intros m q Hq.
      destruct (decide (module imp = m)) as [<-|Hne].
      - rewrite lookup_insert_eq in Hq. injection Hq as <-.
        split; [now apply Hstore | exact Hp].
      - rewrite lookup_insert_ne in Hq by exact Hne.
        destruct (Hag m q Hq) as [Hc Ht]. split; [now apply Hmono | exact Ht]. }
    specialize (IH r1 (<[module imp := p]> resolved) Hag1).
    destruct (resolveImports h f todo r1 (<[module imp := p]> resolved))
      as [[rest1 resolved2] r2].
    simpl in IH |- *. destruct IH as [P1 P2].
    split.
    + intros m Hm U.
      assert (Hne : module imp <> m).
      { intros <-. unfold unresolvable in U. rewrite Call in U.
        simpl in U. congruence. }
      apply P1; [now rewrite lookup_insert_ne | now apply Hpersist].
    + constructor; [| exact P2]. simpl. discriminate.
Qed.

(** An import the analysis returns without a resolved path has no entry
    among the resolved modules. *)
Lemma analysis_unresolved (h : Host) (r : Resolver) (code : string)
    (filePath : option string) (imp : ImportInfo) :
  let ctx := fst (analyzeDependencies h r code filePath) in
  In imp (imports ctx) -> resolvedPath imp = None ->
  resolvedModules ctx !! module imp = None.
Proof.
  intros ctx. subst ctx.
  destruct (analyzeDependencies_resolution h r code filePath)
    as (-> & -> & _).
  set (tree := createSourceFile h (JsString.orElse filePath "snippet.tsx")
                 code (Some TSX)).
  assert (Hinit : agrees filePath r ∅).
  { intros m p Hm. rewrite lookup_empty in Hm. discriminate. }
  destruct (resolveImports_unresolved h filePath (extractImports tree) r ∅
              Hinit) as [_ P2].
  intros Hin Hnone.
  destruct (Forall2_In_right _ _ _ _ P2 Hin) as (i & _ & Hi).
  destruct (Hi Hnone) as [Hentry E]. rewrite E. exact Hentry.
Qed.

Lemma get_In_values {V : Type} (m : JsMap.t V) (k : string) (v : V) :
  JsMap.get m k = Some v -> In v (JsMap.values m).
Proof.
  induction m as [|[k' v'] m IH]; simpl; [discriminate |].
  destruct (String.eqb k k').
  - intros E. injection E as ->. now left.
  - intros E. right. now apply IH.
Qed.

(** Every entry of the merged imports is stored under its own key. *)
Lemma allImports_keyed (MockProps : Type) (o : FullCodeOptions MockProps)
    (k : string) (stored : ImportInfo) :
  JsMap.get (allImports MockProps o) k = Some stored ->
  importKey stored = k.
Proof.
  unfold allImports, ensureReact.
  set (sources := (existingImports MockProps o ++ suggestedImports MockProps o
                   ++ fc_additionalImports MockProps o)%list).
  assert (Hmerge : forall v, JsMap.get (mergeImports sources) k = Some v ->
                             importKey v = k).
  { intros v. rewrite mergeImports_get. unfold lastWithKey. intros Hf.
    apply find_some in Hf as [_ Hk]. now apply String.eqb_eq in Hk. }
  destruct (existsb isReactDefault (JsMap.values (mergeImports sources)));
    [apply Hmerge |].
  destruct (String.eqb_spec "react:React" k) as [<-|Hne].
  - rewrite get_set_same. intros E. now injection E as <-.
  - rewrite get_set_other by exact Hne. apply Hmerge.
Qed.

Lemma includes_suffix (a c : string) : JsString.includes (a ++ c) c = true.
Proof.
  pose proof (includes_occurs a c "") as H.
  now rewrite append_empty_r in H.
Qed.

(** The statement of an import names its module. *)
Lemma statement_names_module (imp : ImportInfo) :
  JsString.includes (generateImportStatement imp)
    (" from '" ++ module imp ++ "';") = true.
Proof.
  unfold generateImportStatement.
  eapply includes_trans; [apply includes_suffix |]. apply includes_suffix.
Qed.

(** The assembled source holds a statement for the key of every import
    handed to the assembler. *)
Lemma fullCode_emits (MockProps : Type) (JSON_stringify : MockProps -> string)
    (o : FullCodeOptions MockProps) (imp : ImportInfo) :
  In imp (existingImports MockProps o) ->
  exists stored,
    JsMap.get (allImports MockProps o) (importKey imp) = Some stored
    /\ importKey stored = importKey imp
    /\ JsString.includes (generateFullCode MockProps JSON_stringify o)
         (generateImportStatement stored) = true
    /\ JsString.includes (generateFullCode MockProps JSON_stringify o)
         (" from '" ++ module stored ++ "';") = true.
Proof.
  intros Hin.
  assert (Hkey : In (importKey imp) (JsMap.keys (allImports MockProps o))).
  { unfold allImports. apply ensureReact_keeps, mergeImports_covers.
    apply in_or_app. now left. }
  apply get_keys in Hkey.
  destruct (JsMap.get (allImports MockProps o) (importKey imp))
    as [stored|] eqn:G; [| congruence].
  exists stored. split; [reflexivity |].
  split; [exact (allImports_keyed _ _ _ _ G) |].
  assert (Hst : JsString.includes (generateFullCode MockProps JSON_stringify o)
                  (generateImportStatement stored) = true).
  { apply fullCode_includes_statement. unfold importStatements.
    apply in_map. exact (get_In_values _ _ _ G). }
  split; [exact Hst |].
  exact (includes_trans _ _ _ Hst (statement_names_module stored)).
Qed.

(** [compile] succeeds with the output of a build that returns a file
    and no error. *)
Lemma compile_succeeds_with_build (MockProps : Type)
    (JSON_stringify : MockProps -> string)
    (JSON_stringify_throws : MockProps -> option Exn)
    (esbuild_build : BuildOptions -> Result BuildResult)
    (h : Host) (r : Resolver) (codeContext : CodeContext)
    (options : SmartCompileOptions MockProps)
    (suggested : list ImportInfo) (build : BuildResult)
    (file : OutputFile) (rest : list OutputFile) :
  let analysed :=
    analyzeDependencies h r (code MockProps options)
                        (filePath MockProps options) in
  let o := fullCodeOptions MockProps options (fst analysed) suggested in
  inferImports h (snd analysed) codeContext (fst analysed) = Ok suggested ->
  (forall props, stringified MockProps o = Some props ->
                 JSON_stringify_throws props = None) ->
  esbuild_build
    (buildOptions MockProps h (snd analysed) options (fst analysed)
       (generateFullCode MockProps JSON_stringify o)) = Ok build ->
  errors build = [] ->
  outputFiles build = Some (file :: rest) ->
  fst (compile MockProps JSON_stringify JSON_stringify_throws esbuild_build
         h r codeContext options)
  = Outcome.built (out_text file) (map msg_text (warnings build)).
Proof.
  intros analysed o Hinf Hser Hbuild Herr Hout.
  rewrite compile_catches. fold analysed.
  rewrite compileSteps_cases, Hinf. cbv zeta. fold o.
  unfold generateFullCodeOrThrow.
  assert (Hfull :
            match stringified MockProps o with
            | Some props =>
                match JSON_stringify_throws props with
                | Some e => Throw e
                | None => Ok (generateFullCode MockProps JSON_stringify o)
                end
            | None => Ok (generateFullCode MockProps JSON_stringify o)
            end
            = Ok (generateFullCode MockProps JSON_stringify o)).
  { destruct (stringified MockProps o) as [props|] eqn:Hs; [| reflexivity].
    now rewrite (Hser props eq_refl). }
  rewrite Hfull, Hbuild, Herr. unfold firstOutputText. now rewrite Hout.
Qed.

(** [compile] reports a build that throws. *)
Lemma compile_fails_with_build (MockProps : Type)
    (JSON_stringify : MockProps -> string)
    (JSON_stringify_throws : MockProps -> option Exn)
    (esbuild_build : BuildOptions -> Result BuildResult)
    (h : Host) (r : Resolver) (codeContext : CodeContext)
    (options : SmartCompileOptions MockProps)
    (suggested : list ImportInfo) (e : Exn) :
  let analysed :=
    analyzeDependencies h r (code MockProps options)
                        (filePath MockProps options) in
  let o := fullCodeOptions MockProps options (fst analysed) suggested in
  inferImports h (snd analysed) codeContext (fst analysed) = Ok suggested ->
  (forall props, stringified MockProps o = Some props ->
                 JSON_stringify_throws props = None) ->
  esbuild_build
    (buildOptions MockProps h (snd analysed) options (fst analysed)
       (generateFullCode MockProps JSON_stringify o)) = Throw e ->
  fst (compile MockProps JSON_stringify JSON_stringify_throws esbuild_build
         h r codeContext options)
  = Outcome.failure
      match e with JsError text => text | JsValue text => text end.
Proof.
  intros analysed o Hinf Hser Hbuild.
  rewrite compile_catches. fold analysed.
  rewrite compileSteps_cases, Hinf. cbv zeta. fold o.
  unfold generateFullCodeOrThrow.
  assert (Hfull :
            match stringified MockProps o with
            | Some props =>
                match JSON_stringify_throws props with
                | Some e => Throw e
                | None => Ok (generateFullCode MockProps JSON_stringify o)
                end
            | None => Ok (generateFullCode MockProps JSON_stringify o)
            end
            = Ok (generateFullCode MockProps JSON_stringify o)).
  { destruct (stringified MockProps o) as [props|] eqn:Hs; [| reflexivity].
    now rewrite (Hser props eq_refl). }
  rewrite Hfull, Hbuild. now destruct e.
Qed.

End Unresolved.

Section MissTheorems.
Import Ast DependencyResolver SmartCompiler Contribution Reading Examples.
Local Open Scope string_scope.

(** C5: a path found for a key is answered again to every later call with
    that key, whatever the resolvers would say then; a key that is not
    cached, that TypeScript does not resolve and for which Node throws
    gives [null].  The miss stops neither the analysis nor the assembly:
    the analysis returns every import of the fragment, one without a
    resolved path has no entry among the resolved modules, and the
    assembled source holds, for the key of every import handed in, a
    statement that names its module.  In the build the plugin marks a
    package specifier that is not among the resolved modules and that Node
    cannot resolve as external, and leaves a relative or absolute one to
    the bundler; [compile] hands the assembled source and this plugin to
    the bundler, succeeds with the output whenever the build returns a
    file and no error, and reports a build that throws as a result with
    [success = false] and the message. *)
Theorem C5_memoized_and_package_misses_not_fatal :
  (forall h r m f p r1,
      resolveModulePath h r m f = (Some p, r1) ->
      JsString.truthy p = true ->
      forall h' m' f',
        cacheKey m' f' = cacheKey m f ->
        resolveModulePath h' r1 m' f' = (Some p, r1))
  /\ (forall m, cacheKey m None = m ++ ":root"
                /\ cacheKey m (Some "") = cacheKey m None
                /\ forall file, JsString.truthy file = true ->
                                cacheKey m (Some file) = m ++ ":" ++ file)
  /\ (forall h r m f,
         moduleResolutionCache r !! cacheKey m f = None ->
         tsProgram r = false
         \/ ts_resolveModuleName h m
              (JsString.orElse f (path_join h (projectRoot r) "index.ts"))
            = TsUnresolved ->
         require_resolve h m (resolveFrom h r f) = None ->
         resolveModulePath h r m f = (None, r))
  /\ (forall h r code filePath,
         let ctx := fst (analyzeDependencies h r code filePath) in
         map module (imports ctx)
         = map module
             (extractImports
                (createSourceFile h (JsString.orElse filePath "snippet.tsx")
                   code (Some TSX)))
         /\ forall imp,
              In imp (imports ctx) -> resolvedPath imp = None ->
              resolvedModules ctx !! module imp = None)
  /\ (forall (MockProps : Type) (JSON_stringify : MockProps -> string)
             (o : FullCodeOptions MockProps) imp,
         In imp (existingImports MockProps o) ->
         exists stored,
           JsMap.get (allImports MockProps o) (importKey imp) = Some stored
           /\ importKey stored = importKey imp
           /\ JsString.includes (generateFullCode MockProps JSON_stringify o)
                (generateImportStatement stored) = true
           /\ JsString.includes (generateFullCode MockProps JSON_stringify o)
                (" from '" ++ module stored ++ "';") = true)
  /\ (forall imp p,
         generateImportStatement (resolvedAs imp p)
         = generateImportStatement imp
         /\ importKey (resolvedAs imp p) = importKey imp)
  /\ (forall h resolved args,
         resolved !! args_path args = None ->
         (JsString.startsWith (args_path args) "." = false ->
          JsString.startsWith (args_path args) "/" = false ->
          require_resolve h (args_path args) (args_resolveDir args) = None ->
          onResolve h resolved args
          = Some {| res_path := None; res_namespace := None;
                    res_external := true |})
         /\ (JsString.startsWith (args_path args) "." = true
             \/ JsString.startsWith (args_path args) "/" = true ->
             onResolve h resolved args = None))
  /\ (forall (MockProps : Type) (JSON_stringify : MockProps -> string)
             (JSON_stringify_throws : MockProps -> option Exn)
             (esbuild_build : BuildOptions -> Result BuildResult)
             h r (codeContext : CodeContext)
             (options : SmartCompileOptions MockProps) suggested,
         let analysed :=
           analyzeDependencies h r (code MockProps options)
                               (filePath MockProps options) in
         let o := fullCodeOptions MockProps options (fst analysed) suggested in
         let input :=
           buildOptions MockProps h (snd analysed) options (fst analysed)
             (generateFullCode MockProps JSON_stringify o) in
         inferImports h (snd analysed) codeContext (fst analysed)
         = Ok suggested ->
         (forall props, stringified MockProps o = Some props ->
                        JSON_stringify_throws props = None) ->
         existingImports MockProps o = imports (fst analysed)
         /\ stdin_contents input = generateFullCode MockProps JSON_stringify o
         /\ (forall imp resolveDir,
                In imp (imports (fst analysed)) ->
                resolvedPath imp = None ->
                JsString.startsWith (module imp) "." = false ->
                JsString.startsWith (module imp) "/" = false ->
                require_resolve h (module imp) resolveDir = None ->
                plugin_onResolve input
                  {| args_path := module imp; args_resolveDir := resolveDir |}
                = Some {| res_path := None; res_namespace := None;
                          res_external := true |})
         /\ (forall imp resolveDir,
                In imp (imports (fst analysed)) ->
                resolvedPath imp = None ->
                JsString.startsWith (module imp) "." = true
                \/ JsString.startsWith (module imp) "/" = true ->
                plugin_onResolve input
                  {| args_path := module imp; args_resolveDir := resolveDir |}
                = None)
         /\ (forall build file rest,
                esbuild_build input = Ok build ->
                errors build = [] ->
                outputFiles build = Some (file :: rest) ->
                fst (compile MockProps JSON_stringify JSON_stringify_throws
                       esbuild_build h r codeContext options)
                = Outcome.built (out_text file)
                    (map msg_text (warnings build)))
         /\ (forall e,
                esbuild_build input = Throw e ->
                fst (compile MockProps JSON_stringify JSON_stringify_throws
                       esbuild_build h r codeContext options)
                = Outcome.failure
                    match e with
                    | JsError text => text
                    | JsValue text => text
                    end)).
Proof.
  split; [| split; [| split; [| split; [| split; [| split; [| split]]]]]].
  - intros h r m f p r1 Hcall Hp h' m' f' Hkey.
    pose proof (resolveModulePath_outcome h r m f) as Hout.
    rewrite Hcall in Hout. simpl in Hout. subst r1.
    rewrite (resolveModulePath_hit h' _ m' f' p).
    + now rewrite Hp.
    + rewrite Hkey. simpl. apply lookup_insert_eq.
  - intros m. split; [reflexivity |]. split; [reflexivity |].
    intros file Hfile. unfold cacheKey. simpl. now rewrite Hfile.
  - intros h r m f Hc Hts Hnode.
    now rewrite (resolveModulePath_miss_node h r m f Hc Hts), Hnode.
  - intros h r code filePath ctx. split.
    + exact (proj1 (analyzeDependencies_imports h r code filePath)).
    + intros imp. apply analysis_unresolved.
  - intros MockProps JSON_stringify o imp. apply fullCode_emits.
  - intros imp p. now split.
  - intros h resolved args Hmiss. split.
    + intros Hdot Hslash Hnode.
      unfold onResolve. now rewrite Hmiss, Hdot, Hslash, Hnode.
    + intros Hrel. unfold onResolve. rewrite Hmiss.
      destruct Hrel as [-> | ->]; [reflexivity |].
      now rewrite andb_false_r.
  - intros MockProps JSON_stringify JSON_stringify_throws esbuild_build
      h r codeContext options suggested analysed o input Hinf Hser.
    split; [reflexivity |]. split; [reflexivity |]. split.
    + intros imp resolveDir Hin Hnone Hdot Hslash Hnode.
      pose proof (analysis_unresolved h r _ _ imp Hin Hnone) as Hentry.
      subst input. unfold buildOptions. cbn [plugin_onResolve].
      unfold onResolve. cbn [args_path args_resolveDir].
      subst analysed. rewrite Hentry.
      now rewrite Hdot, Hslash, Hnode.
    + split; [| split].
      * intros imp resolveDir Hin Hnone Hrel.
        pose proof (analysis_unresolved h r _ _ imp Hin Hnone) as Hentry.
        subst input. unfold buildOptions. cbn [plugin_onResolve].
        unfold onResolve. cbn [args_path args_resolveDir].
        subst analysed. rewrite Hentry.
        destruct Hrel as [-> | ->]; [reflexivity |].
        now rewrite andb_false_r.
      * intros build file rest Hbuild Herr Hout.
        exact (compile_succeeds_with_build MockProps JSON_stringify
                 JSON_stringify_throws esbuild_build h r codeContext options
                 suggested build file rest Hinf Hser Hbuild Herr Hout).
      * intros e Hbuild.
        exact (compile_fails_with_build MockProps JSON_stringify
                 JSON_stringify_throws esbuild_build h r codeContext options
                 suggested e Hinf Hser Hbuild).
Qed.

End MissTheorems.

Section MissExamples.
Import Ast DependencyResolver SmartCompiler Contribution Reading Examples.
Local Open Scope string_scope.

(** After Node has resolved [lodash] once, a host that resolves nothing
    still answers the path for the same key, here written with the
    explicit file [root]; an unknown package gives [null], the plugin
    marks it external, and the fragment that imports it compiles. *)
Lemma C5_memoized_and_package_misses_not_fatal_witness :
  (let r1 := snd (resolveModulePath (hostResolving "lodash" lodashPath)
                    freshResolver "lodash" None) in
   resolveModulePath (hostParsing unknownTree) r1 "lodash" (Some "root")
   = (Some lodashPath, r1))
  /\ resolveModulePath (hostParsing unknownTree) freshResolver
       "totally-unknown-pkg" None
     = (None, freshResolver)
  /\ onResolve (hostParsing unknownTree) ∅
       {| args_path := "totally-unknown-pkg"; args_resolveDir := "/project" |}
     = Some {| res_path := None; res_namespace := None;
               res_external := true |}
  /\ fst (compile unit noProps serialisable
            (pluginOnlyBuild ["totally-unknown-pkg"; "react"])
            (hostParsing unknownTree) freshResolver emptyProject
            unknownOptions)
     = Outcome.built
         (JsString.join nl
            [ "";
              "import x from 'totally-unknown-pkg';";
              "import React from 'react';";
              "";
              wrapComponentCode unit noProps unknownCode None;
              "" ])
         [].
Proof.
  destruct C5_memoized_and_package_misses_not_fatal
    as (Hmemo & _ & Hnull & _ & _ & _ & Hplugin & Hcompile).
  split; [| split; [| split]].
  - exact (Hmemo (hostResolving "lodash" lodashPath) freshResolver "lodash"
             None lodashPath _ eq_refl eq_refl
             (hostParsing unknownTree) "lodash" (Some "root") eq_refl).
  - exact (Hnull (hostParsing unknownTree) freshResolver
             "totally-unknown-pkg" None eq_refl (or_introl eq_refl) eq_refl).
  - exact (proj1 (Hplugin (hostParsing unknownTree) ∅
                    {| args_path := "totally-unknown-pkg";
                       args_resolveDir := "/project" |} eq_refl)
             eq_refl eq_refl eq_refl).
  - exact (proj1 (proj2 (proj2 (proj2 (proj2
             (Hcompile unit noProps serialisable
                (pluginOnlyBuild ["totally-unknown-pkg"; "react"])
                (hostParsing unknownTree) freshResolver emptyProject
                unknownOptions [] eq_refl (fun _ _ => eq_refl))))))
             _ _ [] eq_refl eq_refl eq_refl).
Defined.

(** C5 fails as stated on [import helper from './missing'; helper;]: the
    resolution gives [null] and the statement is emitted, but the plugin
    does not mark the relative specifier as external, it leaves it to the
    bundler, and with a bundler that finds no such file the compilation
    fails. *)
Lemma C5_relative_miss_counterexample :
  resolveModulePath (hostParsing missingTree) freshResolver "./missing" None
  = (None, freshResolver)
  /\ JsString.includes
       (generateFullCode unit noProps
          (fullCodeOptions unit missingOptions
             (fst (analyzeDependencies (hostParsing missingTree)
                     freshResolver missingCode None)) []))
       "import helper from './missing';" = true
  /\ onResolve (hostParsing missingTree) ∅
       {| args_path := "./missing"; args_resolveDir := "/project" |}
     = None
  /\ fst (compile unit noProps serialisable
            (pluginOnlyBuild ["./missing"; "react"])
            (hostParsing missingTree) freshResolver emptyProject
            missingOptions)
     = Outcome.failure "Build failed with 1 error".
Proof. repeat split. Qed.

End MissExamples.
